(** * next-js-scafold: the project generator, embedded and verified

    The generator is a command-line tool: the action of [index.ts] resolves a
    project name and a package manager, [createProject] removes a previous
    target directory (after confirmation), materialises the project tree
    ([copyTemplates], falling back to [createProjectStructure] and the manifest
    of [getProjectStructure]), substitutes the placeholders ([generateFiles])
    and optionally runs the installer.

    The embedding is shallow.  Strings are [string] (bytes, UTF-8 as in the
    source files), a path is the list of its components from the root, the
    file system is a finite map from paths to nodes, and the effectful code
    runs in a small state-and-exception monad over the file system and the
    trace of what the process printed and spawned. *)

From Stdlib Require Import String Ascii List Bool Arith Lia.
From stdpp Require Import base option list gmap strings.

Open Scope string_scope.
Open Scope list_scope.

(* ===================================================================== *)
(** * Strings, as the JavaScript code uses them *)
(* ===================================================================== *)

Module Str.

(** The double quote and the line feed, which a literal cannot hold. *)
Definition dq : string := String "034"%char EmptyString.
Definition nl : string := String "010"%char EmptyString.

(** [lines l] joins with line feeds: a template literal, line by line. *)
Definition lines (l : list string) : string := String.concat nl l.

(** [qs l] joins with double quotes: one source line, cut at its quotes. *)
Definition qs (l : list string) : string := String.concat dq l.

Fixpoint sdrop (n : nat) (s : string) : string :=
  match n, s with
  | O, _ => s
  | S _, EmptyString => EmptyString
  | S k, String _ s' => sdrop k s'
  end.

(** [s.includes(t)] *)
Fixpoint includes (s t : string) : bool :=
  String.prefix t s ||
  match s with
  | EmptyString => false
  | String _ s' => includes s' t
  end.

(** ECMAScript GetSubstitution for a pattern with no capture group: in the
    replacement text [$$] is a dollar, [$&] the match, [$`] what precedes
    the match and [$'] what follows it; any other dollar stands for itself. *)
Fixpoint getSubstitution (matched before after repl : string) : string :=
  match repl with
  | EmptyString => EmptyString
  | String c r =>
      if Ascii.eqb c "$" then
        match r with
        | EmptyString => String c EmptyString
        | String d r' =>
            if Ascii.eqb d "$" then String "$" (getSubstitution matched before after r')
            else if Ascii.eqb d "&" then matched +:+ getSubstitution matched before after r'
            else if Ascii.eqb d "`" then before +:+ getSubstitution matched before after r'
            else if Ascii.eqb d "'" then after +:+ getSubstitution matched before after r'
            else String c (getSubstitution matched before after r)
        end
      else String c (getSubstitution matched before after r)
  end.

(** [s.replace(/tok/g, repl)] for a pattern that is the literal text [tok]
    (not empty): the matches are found left to right in the subject and do
    not overlap; [before] is the subject up to the current position and
    [skip] counts the characters of a match still to be passed over. *)
Fixpoint replaceFrom (tok repl before : string) (skip : nat) (s : string) : string :=
  match s with
  | EmptyString => EmptyString
  | String c s' =>
      match skip with
      | S k => replaceFrom tok repl (before +:+ String c EmptyString) k s'
      | O =>
          if String.prefix tok s then
            getSubstitution tok before (sdrop (String.length tok) s) repl
            +:+ replaceFrom tok repl (before +:+ String c EmptyString)
                            (String.length tok - 1) s'
          else String c (replaceFrom tok repl (before +:+ String c EmptyString) 0 s')
      end
  end.

Definition replaceAll (tok repl s : string) : string :=
  replaceFrom tok repl EmptyString 0 s.

(** What [String.prototype.trim] strips is the WhiteSpace and LineTerminator
    code points of ECMAScript: U+0009 to U+000D, U+0020, U+00A0, U+1680,
    U+2000 to U+200A, U+2028, U+2029, U+202F, U+205F, U+3000 and U+FEFF.  A
    string here is the UTF-8 encoding of the JavaScript string, so each of
    them is one, two or three bytes. *)

(** U+0009 to U+000D and U+0020: one byte. *)
Definition isSpace (c : ascii) : bool :=
  let n := nat_of_ascii c in
  ((n =? 32) || ((9 <=? n) && (n <=? 13)))%nat.

(** U+00A0, the bytes C2 A0. *)
Definition isSpace2 (c1 c2 : ascii) : bool :=
  ((nat_of_ascii c1 =? 194) && (nat_of_ascii c2 =? 160))%nat.

(** U+1680 (E1 9A 80), U+2000 to U+200A (E2 80 80 to E2 80 8A), U+2028 and
    U+2029 (E2 80 A8, E2 80 A9), U+202F (E2 80 AF), U+205F (E2 81 9F),
    U+3000 (E3 80 80) and U+FEFF (EF BB BF). *)
Definition isSpace3 (c1 c2 c3 : ascii) : bool :=
  let n1 := nat_of_ascii c1 in
  let n2 := nat_of_ascii c2 in
  let n3 := nat_of_ascii c3 in
  (((n1 =? 225) && (n2 =? 154) && (n3 =? 128))
   || ((n1 =? 226) && (n2 =? 128)
       && (((128 <=? n3) && (n3 <=? 138)) || (n3 =? 168) || (n3 =? 169)
           || (n3 =? 175)))
   || ((n1 =? 226) && (n2 =? 129) && (n3 =? 159))
   || ((n1 =? 227) && (n2 =? 128) && (n3 =? 128))
   || ((n1 =? 239) && (n2 =? 187) && (n3 =? 191)))%nat.

(** The white space at the front of [s] removed.  With [back] the bytes of
    [s] come last first, and so do the bytes of each code point. *)
Fixpoint strip (back : bool) (s : string) : string :=
  match s with
  | EmptyString => EmptyString
  | String c1 s1 =>
      if isSpace c1 then strip back s1
      else
        match s1 with
        | EmptyString => s
        | String c2 s2 =>
            if (if back then isSpace2 c2 c1 else isSpace2 c1 c2)
            then strip back s2
            else
              match s2 with
              | EmptyString => s
              | String c3 s3 =>
                  if (if back then isSpace3 c3 c2 c1 else isSpace3 c1 c2 c3)
                  then strip back s3
                  else s
              end
        end
  end.

Definition trimStart (s : string) : string := strip false s.

Definition srev (s : string) : string :=
  string_of_list_ascii (rev (list_ascii_of_string s)).

Definition trimEnd (s : string) : string := srev (strip true (srev s)).

Definition trim (s : string) : string := trimEnd (trimStart s).

(** The class [[a-z0-9-]] under the flag [i]. *)
Definition isNameChar (c : ascii) : bool :=
  let n := nat_of_ascii c in
  (((97 <=? n) && (n <=? 122)) || ((65 <=? n) && (n <=? 90))
   || ((48 <=? n) && (n <=? 57)) || (n =? 45))%nat.

Fixpoint allChars (f : ascii -> bool) (s : string) : bool :=
  match s with
  | EmptyString => true
  | String c s' => f c && allChars f s'
  end.

(** [/^[a-z0-9-]+$/i.test(s)] *)
Definition matchesName (s : string) : bool :=
  negb (String.eqb s EmptyString) && allChars isNameChar s.

(** A JavaScript string in a condition: only the empty one is falsy. *)
Definition truthy (s : string) : bool := negb (String.eqb s EmptyString).

End Str.

(* ===================================================================== *)
(** * Paths (POSIX) *)
(* ===================================================================== *)

Module Path.

(** An absolute, normalised path: its components from the root. *)
Abbreviation t := (list string).

Fixpoint split (s : string) : list string :=
  match s with
  | EmptyString => [EmptyString]
  | String c s' =>
      if Ascii.eqb c "/" then EmptyString :: split s'
      else match split s' with
           | h :: t => String c h :: t
           | [] => [String c EmptyString]
           end
  end.

(** One step of normalisation: empty and [.] components vanish, [..] drops
    the last component (the root is its own parent). *)
Definition step (p : t) (seg : string) : t :=
  if String.eqb seg EmptyString then p
  else if String.eqb seg "." then p
  else if String.eqb seg ".." then removelast p
  else p ++ [seg].

(** [join(base, rel)] for an absolute [base]. *)
Definition join (base : t) (rel : string) : t :=
  fold_left step (split rel) base.

Definition dirname (p : t) : t := removelast p.

(** The path as the string the library hands to a filter. *)
Definition toString (p : t) : string :=
  match p with
  | [] => "/"
  | _ => String.concat EmptyString (map (fun seg => "/" +:+ seg) p)
  end.

(** The path itself and all its ancestors, the root first. *)
Fixpoint inits (p : t) : list t :=
  [] :: match p with
        | [] => []
        | seg :: p' => map (cons seg) (inits p')
        end.

End Path.

(* ===================================================================== *)
(** * The file system (fs-extra) *)
(* ===================================================================== *)

Module Fs.

Inductive node : Type :=
| File (content : string)
| Dir.

#[global] Instance node_eq_dec : EqDecision node.
Proof. solve_decision. Defined.

(** What a failing call throws: the system error code and the path. *)
Inductive error : Type :=
| IoError (code : string) (p : Path.t).

Definition isFile (fs : gmap Path.t node) (p : Path.t) : bool :=
  match fs !! p with Some (File _) => true | _ => false end.

Definition isDir (fs : gmap Path.t node) (p : Path.t) : bool :=
  match fs !! p with Some Dir => true | _ => false end.

Definition existsSync (fs : gmap Path.t node) (p : Path.t) : bool :=
  match fs !! p with Some _ => true | None => false end.

Definition mkdirs (l : list Path.t) (fs : gmap Path.t node) : gmap Path.t node :=
  foldr (fun q m => <[q := Dir]> m) fs l.

(** [ensureDirSync(p)]: the directory and its missing ancestors are
    created; a file in the way makes the call fail, with nothing created. *)
Definition ensureDirSync (p : Path.t) (fs : gmap Path.t node)
  : error + gmap Path.t node :=
  if forallb (fun q => negb (isFile fs q)) (Path.inits p)
  then inr (mkdirs (Path.inits p) fs)
  else inl (IoError "ENOTDIR" p).

(** [writeFileSync(p, c)]: creates or overwrites the file; the parent must
    be a directory and [p] must not be one. *)
Definition writeFileSync (p : Path.t) (c : string) (fs : gmap Path.t node)
  : error + gmap Path.t node :=
  if isDir fs p then inl (IoError "EISDIR" p)
  else if isDir fs (Path.dirname p) then inr (<[p := File c]> fs)
  else inl (IoError "ENOENT" p).

(** [readFileSync(p, 'utf-8')] of a file that holds UTF-8 text: the string
    read is the content.  (Bytes that are no UTF-8 would be read as U+FFFD;
    the files written here are text.) *)
Definition readFileSync (p : Path.t) (fs : gmap Path.t node) : error + string :=
  match fs !! p with
  | Some (File c) => inr c
  | Some Dir => inl (IoError "EISDIR" p)
  | None => inl (IoError "ENOENT" p)
  end.

(** [removeSync(p)]: the entry and everything below it. *)
Definition removeSync (p : Path.t) (fs : gmap Path.t node) : gmap Path.t node :=
  filter (fun kv => ¬ p `prefix_of` kv.1) fs.

(** The part of a path below [src], when it is [src] or below it. *)
Fixpoint below (src k : Path.t) : option Path.t :=
  match src, k with
  | [], _ => Some k
  | s :: src', c :: k' => if String.eqb s c then below src' k' else None
  | _ :: _, [] => None
  end.

(** The walk of [copySync] visits an entry when the filter accepts it and
    every directory on the way down from the source, the source included:
    a refused directory is not entered. *)
Definition visited (flt : string -> bool) (src rel : Path.t) : bool :=
  forallb (fun r => flt (Path.toString (src ++ r))) (Path.inits rel).

(** The entries [copySync] carries over, as (destination, node). *)
Definition selection (flt : string -> bool) (src dst : Path.t)
    (fs : gmap Path.t node) : list (Path.t * node) :=
  omap (fun kv =>
          match below src kv.1 with
          | Some rel => if visited flt src rel then Some (dst ++ rel, kv.2) else None
          | None => None
          end)
       (map_to_list fs).

(** An entry cannot replace one of the other kind. *)
Definition clash (fs : gmap Path.t node) (kv : Path.t * node) : bool :=
  match kv.2, fs !! kv.1 with
  | Dir, Some (File _) => true
  | File _, Some Dir => true
  | _, _ => false
  end.

(** [copySync(src, dst, { overwrite: true, filter })], as the library
    documents it.  The paths are checked first: the source has to exist, a
    directory is not copied into itself or below itself, and the source and
    an existing destination have to be of the same kind.  A source the
    filter refuses then copies nothing.  Otherwise the parent of [dst] is
    ensured and the selected entries are laid over the destination, files
    overwriting files; an entry cannot replace one of the other kind. *)
Definition copySync (flt : string -> bool) (src dst : Path.t)
    (fs : gmap Path.t node) : error + gmap Path.t node :=
  match fs !! src with
  | None => inl (IoError "ENOENT" src)
  | Some n =>
      if bool_decide (src `prefix_of` dst) then inl (IoError "EINVAL" dst)
      else if clash fs (dst, n) then inl (IoError "EEXIST" dst)
      else if negb (flt (Path.toString src)) then inr fs
      else match ensureDirSync (Path.dirname dst) fs with
           | inl e => inl e
           | inr fs1 =>
               let sel := selection flt src dst fs in
               if existsb (clash fs1) sel then inl (IoError "EEXIST" dst)
               else inr (list_to_map sel ∪ fs1)
           end
  end.

End Fs.

Import Fs.

(* ===================================================================== *)
(** * utils/packageManager.ts *)
(* ===================================================================== *)

Module PackageManager.

(** [type PackageManager = 'npm' | 'pnpm' | 'yarn' | 'bun'].  The type is
    erased when the program runs, and the command line casts an arbitrary
    string to it, so the functions below take a string; [supported] says
    that the string is one of the four. *)
Definition supported (packageManager : string) : Prop :=
  packageManager ∈ ["npm"; "pnpm"; "yarn"; "bun"].

(** A [switch] with four cases and no default: any other value falls out of
    the function, which then returns [undefined] ([None]). *)
Definition getInstallCommand (packageManager : string) : option string :=
  if String.eqb packageManager "npm" then Some "npm install"
  else if String.eqb packageManager "pnpm" then Some "pnpm install"
  else if String.eqb packageManager "yarn" then Some "yarn install"
  else if String.eqb packageManager "bun" then Some "bun install"
  else None.

Definition getRunCommand (packageManager script : string) : option string :=
  if String.eqb packageManager "npm" then Some ("npm run " +:+ script)
  else if String.eqb packageManager "pnpm" then Some ("pnpm " +:+ script)
  else if String.eqb packageManager "yarn" then Some ("yarn " +:+ script)
  else if String.eqb packageManager "bun" then Some ("bun run " +:+ script)
  else None.

(** A value inside a template literal: [undefined] prints as that word. *)
Definition interpolate (v : option string) : string :=
  match v with
  | Some s => s
  | None => "undefined"
  end.

End PackageManager.

Import PackageManager.

(* ===================================================================== *)
(** * JSON.stringify(value, null, 2) *)
(* ===================================================================== *)

Module Json.

#[local] Unset Elimination Schemes.
Inductive json : Type :=
| JString (s : string)
| JBool (b : bool)
| JArray (items : list json)
| JObject (members : list (string * json)).
#[local] Set Elimination Schemes.

Definition hexDigit (n : nat) : ascii :=
  ascii_of_nat (if (n <? 10)%nat then 48 + n else 87 + n).

(** One character of a quoted string: the quote and the backslash are
    escaped, a control character has its short escape or [\u00xx]. *)
Definition escape (c : ascii) : string :=
  let n := nat_of_ascii c in
  if (n =? 34)%nat then "\" +:+ Str.dq
  else if (n =? 92)%nat then "\\"
  else if (n =? 8)%nat then "\b"
  else if (n =? 12)%nat then "\f"
  else if (n =? 10)%nat then "\n"
  else if (n =? 13)%nat then "\r"
  else if (n =? 9)%nat then "\t"
  else if (n <? 32)%nat then
    "\u00" +:+ String (hexDigit (n / 16)) (String (hexDigit (n mod 16)) EmptyString)
  else String c EmptyString.

Fixpoint escapeAll (s : string) : string :=
  match s with
  | EmptyString => EmptyString
  | String c s' => escape c +:+ escapeAll s'
  end.

Definition quote (s : string) : string := Str.dq +:+ escapeAll s +:+ Str.dq.

(** A non-empty array or object puts each element on a line of its own,
    indented two spaces deeper, and closes at the current indentation. *)
Definition block (opening closing indent : string) (parts : list string) : string :=
  match parts with
  | [] => opening +:+ closing
  | _ =>
      opening +:+ Str.nl +:+ indent +:+ "  "
      +:+ String.concat ("," +:+ Str.nl +:+ indent +:+ "  ") parts
      +:+ Str.nl +:+ indent +:+ closing
  end.

Fixpoint serialize (indent : string) (v : json) : string :=
  match v with
  | JString s => quote s
  | JBool b => if b then "true" else "false"
  | JArray items =>
      block "[" "]" indent (map (serialize (indent +:+ "  ")) items)
  | JObject members =>
      block "{" "}" indent
        (map (fun kv => quote kv.1 +:+ ": " +:+ serialize (indent +:+ "  ") kv.2)
             members)
  end.

Definition stringify (v : json) : string := serialize EmptyString v.

End Json.

Import Json.

(* ===================================================================== *)
(** * utils/fileGenerator.ts: the manifest *)
(* ===================================================================== *)

Record TemplateVariables : Type := {
  projectName : string;
  packageManager : string
}.

Record FileEntry : Type := {
  path : string;
  content : string
}.

Module Manifest.

Import Str.

(** [package.json] *)
Definition content_package_json (projectName : string) : string :=
  stringify (JObject
    [ ("name", JString projectName);
      ("version", JString "0.1.0");
      ("private", JBool true);
      ("scripts", JObject
         [ ("dev", JString "next dev");
           ("build", JString "next build");
           ("start", JString "next start");
           ("lint", JString "eslint") ]);
      ("dependencies", JObject
         [ ("@hookform/resolvers", JString "^5.2.2");
           ("@tanstack/react-query", JString "^5.90.20");
           ("class-variance-authority", JString "^0.7.1");
           ("clsx", JString "^2.1.1");
           ("lucide-react", JString "^0.563.0");
           ("next", JString "16.1.6");
           ("radix-ui", JString "^1.4.3");
           ("react", JString "19.2.3");
           ("react-dom", JString "19.2.3");
           ("react-hook-form", JString "^7.71.1");
           ("tailwind-merge", JString "^3.4.0");
           ("zod", JString "^4.3.6") ]);
      ("devDependencies", JObject
         [ ("@tailwindcss/postcss", JString "^4");
           ("@types/node", JString "^20");
           ("@types/react", JString "^19");
           ("@types/react-dom", JString "^19");
           ("eslint", JString "^9");
           ("eslint-config-next", JString "16.1.6");
           ("tailwindcss", JString "^4");
           ("tw-animate-css", JString "^1.4.0");
           ("typescript", JString "^5") ]) ]).

(** [tsconfig.json] *)
Definition content_tsconfig_json : string :=
  stringify (JObject
    [ ("compilerOptions", JObject
         [ ("target", JString "ES2017");
           ("lib", JArray [JString "dom"; JString "dom.iterable"; JString "esnext"]);
           ("allowJs", JBool true);
           ("skipLibCheck", JBool true);
           ("strict", JBool true);
           ("noEmit", JBool true);
           ("esModuleInterop", JBool true);
           ("module", JString "esnext");
           ("moduleResolution", JString "bundler");
           ("resolveJsonModule", JBool true);
           ("isolatedModules", JBool true);
           ("jsx", JString "react-jsx");
           ("incremental", JBool true);
           ("plugins", JArray [JObject [("name", JString "next")]]);
           ("paths", JObject [("@/*", JArray [JString "./src/*"])]) ]);
      ("include", JArray
         [ JString "next-env.d.ts";
           JString "**/*.ts";
           JString "**/*.tsx";
           JString ".next/types/**/*.ts";
           JString ".next/dev/types/**/*.ts";
           JString "**/*.mts" ]);
      ("exclude", JArray [JString "node_modules"]) ]).

(** [next.config.ts] *)
Definition content_next_config_ts : string := lines
  [ qs ["import type { NextConfig } from "; "next"; ";"];
    "";
    "const BACKEND_URL =";
    qs ["  process.env.NEXT_PUBLIC_BACKEND_URL || "; "http://localhost:3001"; ";"];
    "";
    "const nextConfig: NextConfig = {";
    "  /* config options here */";
    "  async rewrites() {";
    "    return [";
    "      // Proxy API requests to backend (same-origin for cookies)";
    "      {";
    qs ["        source: "; "/api/v1/:path*"; ","];
    "        destination: `${BACKEND_URL}/api/v1/:path*`,";
    "      },";
    "      // Proxy auth requests to backend";
    "      {";
    qs ["        source: "; "/api/auth/:path*"; ","];
    "        destination: `${BACKEND_URL}/api/auth/:path*`,";
    "      },";
    "    ]";
    "  }";
    "};";
    "";
    "export default nextConfig;";
    "" ].

(** [eslint.config.mjs] *)
Definition content_eslint_config_mjs : string := lines
  [ qs ["import { defineConfig, globalIgnores } from "; "eslint/config"; ";"];
    qs ["import nextVitals from "; "eslint-config-next/core-web-vitals"; ";"];
    qs ["import nextTs from "; "eslint-config-next/typescript"; ";"];
    "";
    "const eslintConfig = defineConfig([";
    "  ...nextVitals,";
    "  ...nextTs,";
    "  // Override default ignores of eslint-config-next.";
    "  globalIgnores([";
    "    // Default ignores of eslint-config-next:";
    qs ["    "; ".next/**"; ","];
    qs ["    "; "out/**"; ","];
    qs ["    "; "build/**"; ","];
    qs ["    "; "next-env.d.ts"; ","];
    "  ]),";
    "]);";
    "";
    "export default eslintConfig;";
    "" ].

(** [postcss.config.mjs] *)
Definition content_postcss_config_mjs : string := lines
  [ "const config = {";
    "  plugins: {";
    qs ["    "; "@tailwindcss/postcss"; ": {},"];
    "  },";
    "};";
    "";
    "export default config;";
    "" ].

(** [README.md] *)
Definition content_README_md (projectName installCmd devCmd : string) : string := lines
  [ "# " +:+ projectName;
    "";
    "This is a [Next.js](https://nextjs.org) project bootstrapped with [scaffold](https://github.com/your-repo/scaffold).";
    "";
    "## Getting Started";
    "";
    "First, install dependencies:";
    "";
    "```bash";
    installCmd;
    "```";
    "";
    "Then, run the development server:";
    "";
    "```bash";
    devCmd;
    "```";
    "";
    "Open [http://localhost:3000](http://localhost:3000) with your browser to see the result.";
    "";
    "## Project Structure";
    "";
    "```";
    "src/";
    "  app/              # Next.js app directory";
    "  config/           # Configuration files";
    "  features/         # Feature-based modules";
    "  shared/           # Shared utilities and components";
    "  stores/           # State management";
    "  styles/           # Global styles";
    "  tests/            # Test files";
    "```";
    "";
    "## Learn More";
    "";
    "To learn more about Next.js, take a look at the following resources:";
    "";
    "- [Next.js Documentation](https://nextjs.org/docs) - learn about Next.js features and API.";
    "- [Learn Next.js](https://nextjs.org/learn) - an interactive Next.js tutorial.";
    "" ].

(** [src/app/layout.tsx] *)
Definition content_src_app_layout_tsx : string := lines
  [ qs ["import type { Metadata } from "; "next"; ";"];
    qs ["import { Geist, Geist_Mono } from "; "next/font/google"; ";"];
    qs ["import "; "../styles/globals.css"; ";"];
    qs ["import AppProviders from "; "./providers"; ";"];
    "";
    "const geistSans = Geist({";
    qs ["  variable: "; "--font-geist-sans"; ","];
    qs ["  subsets: ["; "latin"; "],"];
    "});";
    "";
    "const geistMono = Geist_Mono({";
    qs ["  variable: "; "--font-geist-mono"; ","];
    qs ["  subsets: ["; "latin"; "],"];
    "});";
    "";
    "export const metadata: Metadata = {";
    qs ["  title: "; "Create Next App"; ","];
    qs ["  description: "; "Generated by create next app"; ","];
    "};";
    "";
    "export default function RootLayout({";
    "  children,";
    "}: Readonly<{";
    "  children: React.ReactNode;";
    "}>) {";
    "  return (";
    qs ["    <html lang="; "en"; ">"];
    "      <body";
    "        className={`${geistSans.variable} ${geistMono.variable} antialiased`}";
    "      >";
    "        <AppProviders>";
    "          {children}";
    "        </AppProviders>";
    "      </body>";
    "    </html>";
    "  );";
    "}";
    "" ].

(** [src/app/providers.tsx] *)
Definition content_src_app_providers_tsx : string := lines
  [ "'use client'";
    "";
    qs ["import { QueryClient, QueryClientProvider } from "; "@tanstack/react-query"; ";"];
    "";
    "const queryClient = new QueryClient();";
    "";
    "export default function AppProviders({ children }: { children: React.ReactNode }) {";
    "  return (";
    "    <QueryClientProvider client={queryClient}>";
    "      {children}";
    "    </QueryClientProvider>";
    "  )";
    "}";
    "" ].

(** [src/app/page.tsx] *)
Definition content_src_app_page_tsx : string := lines
  [ qs ["import Image from "; "next/image"; ";"];
    qs ["import Link from "; "next/link"; ";"];
    qs ["import CodeBlock from "; "@/shared/components/CodeBlock"; ";"];
    "";
    "// Links and Constants";
    "const LINKS = {";
    qs ["  npm: "; "https://www.npmjs.com/package/scaffold"; ","];
    qs ["  github: "; "https://github.com/JohnOGama/next-js-scaffold"; ","];
    qs ["  linkedin: "; "https://www.linkedin.com/in/johnogama/"; ","];
    qs ["  facebook: "; "https://www.facebook.com/CreatorVayne/"; ","];
    qs ["  quickStartGuide: "; "https://github.com/JohnOGama/next-js-scaffold/blob/main/README.md"; ","];
    "} as const;";
    "";
    "const AUTHOR = {";
    qs ["  name: "; "John Ogama"; ","];
    "} as const;";
    "";
    "export default function Home() {";
    "  return (";
    qs ["    <div className="; "relative min-h-screen bg-gradient-to-br from-zinc-50 via-white to-zinc-100 font-sans dark:from-black dark:via-zinc-950 dark:to-zinc-900 overflow-hidden"; ">"];
    "      {/* Dot Pattern Background */}";
    "      <div";
    qs ["        className="; "absolute inset-0 opacity-30 dark:opacity-20"; ""];
    "        style={{";
    "          backgroundImage: `radial-gradient(circle, rgb(113 113 122) 1px, transparent 1px)`,";
    "          backgroundSize: '24px 24px',";
    "        }}";
    "      ></div>";
    "";
    "      {/* Dark Shadow Overlay */}";
    qs ["      <div className="; "absolute inset-0 bg-gradient-to-b from-transparent via-zinc-900/5 to-zinc-900/10 dark:from-transparent dark:via-zinc-950/20 dark:to-zinc-950/30 pointer-events-none"; "></div>"];
    "";
    "      {/* Content */}";
    qs ["      <main className="; "relative mx-auto max-w-6xl px-4 py-16 sm:px-6 lg:px-8 z-10"; ">"];
    "        {/* Hero Section */}";
    qs ["        <div className="; "flex flex-col items-center justify-center text-center py-20"; ">"];
    qs ["          <div className="; "mb-8 relative"; ">"];
    qs ["            <div className="; "absolute inset-0 bg-gradient-to-r from-blue-500/20 to-purple-500/20 blur-3xl rounded-full"; "></div>"];
    qs ["            <div className="; "relative"; ">"];
    "              <Image";
    qs ["                className="; "dark:invert mx-auto drop-shadow-lg"; ""];
    qs ["                src="; "/next.svg"; ""];
    qs ["                alt="; "Next.js logo"; ""];
    "                width={120}";
    "                height={24}";
    "                priority";
    "              />";
    "            </div>";
    "          </div>";
    qs ["          <div className="; "mb-6 inline-flex items-center gap-2 rounded-full border border-zinc-200 dark:border-zinc-800 bg-white/50 dark:bg-zinc-900/50 backdrop-blur-sm px-4 py-1.5 text-sm text-zinc-600 dark:text-zinc-400"; ">"];
    qs ["            <span className="; "relative flex h-2 w-2"; ">"];
    qs ["              <span className="; "animate-ping absolute inline-flex h-full w-full rounded-full bg-green-400 opacity-75"; "></span>"];
    qs ["              <span className="; "relative inline-flex rounded-full h-2 w-2 bg-green-500"; "></span>"];
    "            </span>";
    "            CLI Tool for Next.js";
    "          </div>";
    qs ["          <h1 className="; "mb-6 bg-gradient-to-r from-zinc-900 via-zinc-800 to-zinc-900 dark:from-zinc-50 dark:via-zinc-100 dark:to-zinc-50 bg-clip-text text-5xl font-bold tracking-tight text-transparent sm:text-6xl lg:text-7xl"; ">"];
    "            Scafold";
    "          </h1>";
    qs ["          <p className="; "mb-4 max-w-2xl text-xl leading-8 text-zinc-700 dark:text-zinc-300 sm:text-2xl font-medium"; ">"];
    "            A powerful CLI tool to scaffold Next.js projects with a structured, feature-based architecture";
    "          </p>";
    qs ["          <p className="; "mb-12 max-w-xl text-lg text-zinc-600 dark:text-zinc-400"; ">"];
    "            Clone, build, and link to start scaffolding Next.js projects locally";
    "          </p>";
    "";
    "          {/* Installation Code Block */}";
    qs ["          <div className="; "w-full max-w-2xl mb-12"; ">"];
    qs ["            <div className="; "group relative rounded-xl bg-zinc-900 dark:bg-zinc-950 p-3 border border-zinc-800 shadow-2xl hover:shadow-zinc-900/50 dark:hover:shadow-zinc-950/50 transition-all duration-300"; ">"];
    qs ["              <div className="; "absolute inset-0 rounded-xl bg-gradient-to-r from-blue-500/0 via-purple-500/0 to-pink-500/0 group-hover:from-blue-500/5 group-hover:via-purple-500/5 group-hover:to-pink-500/5 transition-all duration-300"; "></div>"];
    qs ["              <div className="; "relative"; ">"];
    qs ["                <div className="; "flex items-center justify-between mb-4"; ">"];
    qs ["                  <div className="; "flex items-center gap-2"; ">"];
    qs ["                    <div className="; "flex gap-1.5"; ">"];
    qs ["                      <div className="; "h-3 w-3 rounded-full bg-red-500 shadow-lg shadow-red-500/50"; "></div>"];
    qs ["                      <div className="; "h-3 w-3 rounded-full bg-yellow-500 shadow-lg shadow-yellow-500/50"; "></div>"];
    qs ["                      <div className="; "h-3 w-3 rounded-full bg-green-500 shadow-lg shadow-green-500/50"; "></div>"];
    "                    </div>";
    qs ["                    <span className="; "text-sm text-zinc-400 ml-2 font-medium"; ">Terminal</span>"];
    "                  </div>";
    qs ["                  <span className="; "text-xs text-zinc-500 px-2 py-1 rounded bg-zinc-800/50"; ">Installation</span>"];
    "                </div>";
    qs ["                <div className="; "space-y-2"; ">"];
    "                  <CodeBlock command={`git clone ${LINKS.github}.git`} />";
    qs ["                  <CodeBlock command="; "cd next-js-scaffold"; " />"];
    qs ["                  <CodeBlock command="; "npm install"; " />"];
    qs ["                  <CodeBlock command="; "npm run build"; " />"];
    qs ["                  <CodeBlock command="; "npm link"; " />"];
    "                </div>";
    "              </div>";
    "            </div>";
    "          </div>";
    "";
    "          {/* Quick Start */}";
    qs ["          <div className="; "w-full max-w-2xl mb-16"; ">"];
    qs ["            <div className="; "flex items-center justify-between mb-6"; ">"];
    qs ["              <h2 className="; "text-2xl font-semibold text-black dark:text-zinc-50"; ">"];
    "                Quick Start";
    "              </h2>";
    "              <Link";
    "                href={LINKS.quickStartGuide}";
    qs ["                target="; "_blank"; ""];
    qs ["                rel="; "noopener noreferrer"; ""];
    qs ["                className="; "group text-sm text-zinc-600 dark:text-zinc-400 hover:text-zinc-900 dark:hover:text-zinc-100 transition-colors flex items-center gap-1"; ""];
    "              >";
    "                View Full Guide";
    qs ["                <span className="; "group-hover:translate-x-1 transition-transform"; ">→</span>"];
    "              </Link>";
    "            </div>";
    qs ["            <div className="; "group relative rounded-xl bg-zinc-900 dark:bg-zinc-950 p-6 border border-zinc-800 shadow-2xl hover:shadow-zinc-900/50 dark:hover:shadow-zinc-950/50 transition-all duration-300"; ">"];
    qs ["              <div className="; "absolute inset-0 rounded-xl bg-gradient-to-r from-blue-500/0 via-purple-500/0 to-pink-500/0 group-hover:from-blue-500/5 group-hover:via-purple-500/5 group-hover:to-pink-500/5 transition-all duration-300"; "></div>"];
    qs ["              <div className="; "relative space-y-5"; ">"];
    "                <div>";
    qs ["                  <div className="; "flex items-center gap-2 mb-3"; ">"];
    qs ["                    <span className="; "text-xs font-semibold text-zinc-400 uppercase tracking-wider"; ">Interactive Mode</span>"];
    qs ["                    <span className="; "text-xs px-2 py-0.5 rounded-full bg-green-500/20 text-green-400 border border-green-500/30"; ">Recommended</span>"];
    "                  </div>";
    qs ["                  <CodeBlock command="; "next-js-scaffold"; " />"];
    "                </div>";
    "              </div>";
    "            </div>";
    "          </div>";
    "        </div>";
    "";
    "        {/* Features Grid */}";
    qs ["        <div className="; "grid gap-6 sm:grid-cols-2 lg:grid-cols-3 mb-16"; ">"];
    qs ["          <div className="; "group relative rounded-xl border border-zinc-200 dark:border-zinc-800 bg-white/80 dark:bg-zinc-950/80 backdrop-blur-sm p-6 hover:border-zinc-300 dark:hover:border-zinc-700 hover:shadow-lg hover:shadow-zinc-200/50 dark:hover:shadow-zinc-900/50 transition-all duration-300 hover:-translate-y-1"; ">"];
    qs ["            <div className="; "absolute inset-0 rounded-xl bg-gradient-to-br from-blue-500/0 to-purple-500/0 group-hover:from-blue-500/5 group-hover:to-purple-500/5 transition-all duration-300"; "></div>"];
    qs ["            <div className="; "relative"; ">"];
    qs ["              <div className="; "mb-4 text-3xl group-hover:scale-110 transition-transform duration-300"; ">🚀</div>"];
    qs ["              <h3 className="; "mb-2 text-lg font-semibold text-black dark:text-zinc-50"; ">"];
    "                Quick Setup";
    "              </h3>";
    qs ["              <p className="; "text-sm text-zinc-600 dark:text-zinc-400 leading-relaxed"; ">"];
    "                Generate a complete Next.js project in seconds with all the tools you need";
    "              </p>";
    "            </div>";
    "          </div>";
    "";
    qs ["          <div className="; "group relative rounded-xl border border-zinc-200 dark:border-zinc-800 bg-white/80 dark:bg-zinc-950/80 backdrop-blur-sm p-6 hover:border-zinc-300 dark:hover:border-zinc-700 hover:shadow-lg hover:shadow-zinc-200/50 dark:hover:shadow-zinc-900/50 transition-all duration-300 hover:-translate-y-1"; ">"];
    qs ["            <div className="; "absolute inset-0 rounded-xl bg-gradient-to-br from-green-500/0 to-emerald-500/0 group-hover:from-green-500/5 group-hover:to-emerald-500/5 transition-all duration-300"; "></div>"];
    qs ["            <div className="; "relative"; ">"];
    qs ["              <div className="; "mb-4 text-3xl group-hover:scale-110 transition-transform duration-300"; ">📦</div>"];
    qs ["              <h3 className="; "mb-2 text-lg font-semibold text-black dark:text-zinc-50"; ">"];
    "                Package Manager Support";
    "              </h3>";
    qs ["              <p className="; "text-sm text-zinc-600 dark:text-zinc-400 leading-relaxed"; ">"];
    "                Works seamlessly with npm, pnpm, yarn, and bun";
    "              </p>";
    "            </div>";
    "          </div>";
    "";
    qs ["          <div className="; "group relative rounded-xl border border-zinc-200 dark:border-zinc-800 bg-white/80 dark:bg-zinc-950/80 backdrop-blur-sm p-6 hover:border-zinc-300 dark:hover:border-zinc-700 hover:shadow-lg hover:shadow-zinc-200/50 dark:hover:shadow-zinc-900/50 transition-all duration-300 hover:-translate-y-1"; ">"];
    qs ["            <div className="; "absolute inset-0 rounded-xl bg-gradient-to-br from-orange-500/0 to-red-500/0 group-hover:from-orange-500/5 group-hover:to-red-500/5 transition-all duration-300"; "></div>"];
    qs ["            <div className="; "relative"; ">"];
    qs ["              <div className="; "mb-4 text-3xl group-hover:scale-110 transition-transform duration-300"; ">🏗️</div>"];
    qs ["              <h3 className="; "mb-2 text-lg font-semibold text-black dark:text-zinc-50"; ">"];
    "                Structured Architecture";
    "              </h3>";
    qs ["              <p className="; "text-sm text-zinc-600 dark:text-zinc-400 leading-relaxed"; ">"];
    "                Feature-based folder structure for scalable applications";
    "              </p>";
    "            </div>";
    "          </div>";
    "";
    qs ["          <div className="; "group relative rounded-xl border border-zinc-200 dark:border-zinc-800 bg-white/80 dark:bg-zinc-950/80 backdrop-blur-sm p-6 hover:border-zinc-300 dark:hover:border-zinc-700 hover:shadow-lg hover:shadow-zinc-200/50 dark:hover:shadow-zinc-900/50 transition-all duration-300 hover:-translate-y-1"; ">"];
    qs ["            <div className="; "absolute inset-0 rounded-xl bg-gradient-to-br from-yellow-500/0 to-amber-500/0 group-hover:from-yellow-500/5 group-hover:to-amber-500/5 transition-all duration-300"; "></div>"];
    qs ["            <div className="; "relative"; ">"];
    qs ["              <div className="; "mb-4 text-3xl group-hover:scale-110 transition-transform duration-300"; ">⚡</div>"];
    qs ["              <h3 className="; "mb-2 text-lg font-semibold text-black dark:text-zinc-50"; ">"];
    "                TypeScript Ready";
    "              </h3>";
    qs ["              <p className="; "text-sm text-zinc-600 dark:text-zinc-400 leading-relaxed"; ">"];
    "                Full TypeScript support out of the box with proper type definitions";
    "              </p>";
    "            </div>";
    "          </div>";
    "";
    qs ["          <div className="; "group relative rounded-xl border border-zinc-200 dark:border-zinc-800 bg-white/80 dark:bg-zinc-950/80 backdrop-blur-sm p-6 hover:border-zinc-300 dark:hover:border-zinc-700 hover:shadow-lg hover:shadow-zinc-200/50 dark:hover:shadow-zinc-900/50 transition-all duration-300 hover:-translate-y-1"; ">"];
    qs ["            <div className="; "absolute inset-0 rounded-xl bg-gradient-to-br from-pink-500/0 to-rose-500/0 group-hover:from-pink-500/5 group-hover:to-rose-500/5 transition-all duration-300"; "></div>"];
    qs ["            <div className="; "relative"; ">"];
    qs ["              <div className="; "mb-4 text-3xl group-hover:scale-110 transition-transform duration-300"; ">🎨</div>"];
    qs ["              <h3 className="; "mb-2 text-lg font-semibold text-black dark:text-zinc-50"; ">"];
    "                Tailwind CSS v4";
    "              </h3>";
    qs ["              <p className="; "text-sm text-zinc-600 dark:text-zinc-400 leading-relaxed"; ">"];
    "                Pre-configured with the latest Tailwind CSS for modern styling";
    "              </p>";
    "            </div>";
    "          </div>";
    "";
    qs ["          <div className="; "group relative rounded-xl border border-zinc-200 dark:border-zinc-800 bg-white/80 dark:bg-zinc-950/80 backdrop-blur-sm p-6 hover:border-zinc-300 dark:hover:border-zinc-700 hover:shadow-lg hover:shadow-zinc-200/50 dark:hover:shadow-zinc-900/50 transition-all duration-300 hover:-translate-y-1"; ">"];
    qs ["            <div className="; "absolute inset-0 rounded-xl bg-gradient-to-br from-indigo-500/0 to-violet-500/0 group-hover:from-indigo-500/5 group-hover:to-violet-500/5 transition-all duration-300"; "></div>"];
    qs ["            <div className="; "relative"; ">"];
    qs ["              <div className="; "mb-4 text-3xl group-hover:scale-110 transition-transform duration-300"; ">🔧</div>"];
    qs ["              <h3 className="; "mb-2 text-lg font-semibold text-black dark:text-zinc-50"; ">"];
    "                Pre-configured";
    "              </h3>";
    qs ["              <p className="; "text-sm text-zinc-600 dark:text-zinc-400 leading-relaxed"; ">"];
    "                ESLint, TypeScript, and other tools ready to use immediately";
    "              </p>";
    "            </div>";
    "          </div>";
    "        </div>";
    "";
    "        {/* What's Included */}";
    qs ["        <div className="; "relative rounded-xl border border-zinc-200 dark:border-zinc-800 bg-white/80 dark:bg-zinc-950/80 backdrop-blur-sm p-8 mb-16 shadow-lg shadow-zinc-200/50 dark:shadow-zinc-900/50"; ">"];
    qs ["          <div className="; "absolute inset-0 rounded-xl bg-gradient-to-br from-blue-500/5 via-purple-500/5 to-pink-500/5"; "></div>"];
    qs ["          <div className="; "relative"; ">"];
    qs ["            <h2 className="; "mb-6 text-2xl font-semibold text-black dark:text-zinc-50"; ">"];
    "              What&apos;s Included";
    "            </h2>";
    qs ["            <div className="; "grid gap-6 sm:grid-cols-2"; ">"];
    qs ["              <div className="; "space-y-3"; ">"];
    qs ["                <h3 className="; "text-sm font-semibold text-zinc-900 dark:text-zinc-100 uppercase tracking-wide flex items-center gap-2"; ">"];
    qs ["                  <span className="; "h-1 w-1 rounded-full bg-blue-500"; "></span>"];
    "                  Core Dependencies";
    "                </h3>";
    qs ["                <ul className="; "space-y-2.5 text-sm text-zinc-600 dark:text-zinc-400"; ">"];
    qs ["                  <li className="; "flex items-center gap-2"; ">"];
    qs ["                    <span className="; "text-zinc-400"; ">•</span>"];
    "                    <span>Next.js 16.1.6</span>";
    "                  </li>";
    qs ["                  <li className="; "flex items-center gap-2"; ">"];
    qs ["                    <span className="; "text-zinc-400"; ">•</span>"];
    "                    <span>React 19.2.3</span>";
    "                  </li>";
    qs ["                  <li className="; "flex items-center gap-2"; ">"];
    qs ["                    <span className="; "text-zinc-400"; ">•</span>"];
    "                    <span>TypeScript 5</span>";
    "                  </li>";
    qs ["                  <li className="; "flex items-center gap-2"; ">"];
    qs ["                    <span className="; "text-zinc-400"; ">•</span>"];
    "                    <span>Tailwind CSS 4</span>";
    "                  </li>";
    "                </ul>";
    "              </div>";
    qs ["              <div className="; "space-y-3"; ">"];
    qs ["                <h3 className="; "text-sm font-semibold text-zinc-900 dark:text-zinc-100 uppercase tracking-wide flex items-center gap-2"; ">"];
    qs ["                  <span className="; "h-1 w-1 rounded-full bg-purple-500"; "></span>"];
    "                  Additional Tools";
    "                </h3>";
    qs ["                <ul className="; "space-y-2.5 text-sm text-zinc-600 dark:text-zinc-400"; ">"];
    qs ["                  <li className="; "flex items-center gap-2"; ">"];
    qs ["                    <span className="; "text-zinc-400"; ">•</span>"];
    "                    <span>React Hook Form</span>";
    "                  </li>";
    qs ["                  <li className="; "flex items-center gap-2"; ">"];
    qs ["                    <span className="; "text-zinc-400"; ">•</span>"];
    "                    <span>Zod Validation</span>";
    "                  </li>";
    qs ["                  <li className="; "flex items-center gap-2"; ">"];
    qs ["                    <span className="; "text-zinc-400"; ">•</span>"];
    "                    <span>TanStack Query</span>";
    "                  </li>";
    qs ["                  <li className="; "flex items-center gap-2"; ">"];
    qs ["                    <span className="; "text-zinc-400"; ">•</span>"];
    "                    <span>Example Auth Feature</span>";
    "                  </li>";
    "                </ul>";
    "              </div>";
    "            </div>";
    "          </div>";
    "        </div>";
    "";
    "        {/* CTA Section */}";
    qs ["        <div className="; "text-center py-16"; ">"];
    qs ["          <div className="; "mb-6 inline-flex items-center gap-2 rounded-full border border-zinc-200 dark:border-zinc-800 bg-white/50 dark:bg-zinc-900/50 backdrop-blur-sm px-4 py-1.5 text-sm text-zinc-600 dark:text-zinc-400"; ">"];
    "            <span>✨</span>";
    "            <span>Ready to build something amazing?</span>";
    "          </div>";
    qs ["          <h2 className="; "mb-4 text-3xl font-bold text-black dark:text-zinc-50"; ">"];
    "            Ready to get started?";
    "          </h2>";
    qs ["          <p className="; "mb-10 max-w-xl mx-auto text-lg text-zinc-600 dark:text-zinc-400"; ">"];
    "            Clone, build, and link to start scaffolding Next.js projects locally";
    "          </p>";
    qs ["          <div className="; "flex flex-col items-center gap-4 sm:flex-row sm:justify-center"; ">"];
    "            <Link";
    qs ["              className="; "group flex h-12 items-center justify-center gap-2 rounded-full border-2 border-zinc-300 dark:border-zinc-700 bg-white/50 dark:bg-zinc-900/50 backdrop-blur-sm px-8 font-medium transition-all duration-300 hover:scale-105 hover:border-zinc-400 dark:hover:border-zinc-600 hover:bg-zinc-50 dark:hover:bg-zinc-800 hover:shadow-lg"; ""];
    "              href={LINKS.github}";
    qs ["              target="; "_blank"; ""];
    qs ["              rel="; "noopener noreferrer"; ""];
    "            >";
    qs ["              <svg className="; "w-5 h-5"; " fill="; "currentColor"; " viewBox="; "0 0 24 24"; " aria-hidden="; "true"; ">"];
    qs ["                <path fillRule="; "evenodd"; " d="; "M12 2C6.477 2 2 6.484 2 12.017c0 4.425 2.865 8.18 6.839 9.504.5.092.682-.217.682-.483 0-.237-.008-.868-.013-1.703-2.782.605-3.369-1.343-3.369-1.343-.454-1.158-1.11-1.466-1.11-1.466-.908-.62.069-.608.069-.608 1.003.07 1.531 1.032 1.531 1.032.892 1.53 2.341 1.088 2.91.832.092-.647.35-1.088.636-1.338-2.22-.253-4.555-1.113-4.555-4.951 0-1.093.39-1.988 1.029-2.688-.103-.253-.446-1.272.098-2.65 0 0 .84-.27 2.75 1.026A9.564 9.564 0 0112 6.844c.85.004 1.705.115 2.504.337 1.909-1.296 2.747-1.027 2.747-1.027.546 1.379.202 2.398.1 2.651.64.7 1.028 1.595 1.028 2.688 0 3.848-2.339 4.695-4.566 4.943.359.309.678.92.678 1.855 0 1.338-.012 2.419-.012 2.747 0 .268.18.58.688.482A10.019 10.019 0 0022 12.017C22 6.484 17.522 2 12 2z"; " clipRule="; "evenodd"; " />"];
    "              </svg>";
    qs ["              <span className="; "text-black dark:text-zinc-50"; ">View on GitHub</span>"];
    "            </Link>";
    "          </div>";
    "        </div>";
    "";
    "        {/* Author Section */}";
    qs ["        <div className="; "text-center py-12 border-t border-zinc-200 dark:border-zinc-800"; ">"];
    qs ["          <p className="; "mb-6 text-sm text-zinc-600 dark:text-zinc-400"; ">"];
    qs ["            Created with <span className="; "text-red-500"; ">♥</span> by{"; " "; "}"];
    qs ["            <span className="; "font-semibold bg-gradient-to-r from-blue-600 to-purple-600 dark:from-blue-400 dark:to-purple-400 bg-clip-text text-transparent"; ">"];
    "              {AUTHOR.name}";
    "            </span>";
    "          </p>";
    qs ["          <div className="; "flex items-center justify-center gap-6"; ">"];
    "            <Link";
    "              href={LINKS.github}";
    qs ["              target="; "_blank"; ""];
    qs ["              rel="; "noopener noreferrer"; ""];
    qs ["              className="; "group relative flex items-center justify-center w-10 h-10 rounded-full border border-zinc-300 dark:border-zinc-700 bg-white/50 dark:bg-zinc-900/50 backdrop-blur-sm text-zinc-600 dark:text-zinc-400 hover:text-zinc-900 dark:hover:text-zinc-100 hover:border-zinc-400 dark:hover:border-zinc-600 hover:bg-zinc-50 dark:hover:bg-zinc-800 transition-all duration-300 hover:scale-110 hover:shadow-lg"; ""];
    qs ["              aria-label="; "GitHub"; ""];
    "            >";
    qs ["              <svg className="; "w-5 h-5"; " fill="; "currentColor"; " viewBox="; "0 0 24 24"; " aria-hidden="; "true"; ">"];
    qs ["                <path fillRule="; "evenodd"; " d="; "M12 2C6.477 2 2 6.484 2 12.017c0 4.425 2.865 8.18 6.839 9.504.5.092.682-.217.682-.483 0-.237-.008-.868-.013-1.703-2.782.605-3.369-1.343-3.369-1.343-.454-1.158-1.11-1.466-1.11-1.466-.908-.62.069-.608.069-.608 1.003.07 1.531 1.032 1.531 1.032.892 1.53 2.341 1.088 2.91.832.092-.647.35-1.088.636-1.338-2.22-.253-4.555-1.113-4.555-4.951 0-1.093.39-1.988 1.029-2.688-.103-.253-.446-1.272.098-2.65 0 0 .84-.27 2.75 1.026A9.564 9.564 0 0112 6.844c.85.004 1.705.115 2.504.337 1.909-1.296 2.747-1.027 2.747-1.027.546 1.379.202 2.398.1 2.651.64.7 1.028 1.595 1.028 2.688 0 3.848-2.339 4.695-4.566 4.943.359.309.678.92.678 1.855 0 1.338-.012 2.419-.012 2.747 0 .268.18.58.688.482A10.019 10.019 0 0022 12.017C22 6.484 17.522 2 12 2z"; " clipRule="; "evenodd"; " />"];
    "              </svg>";
    "            </Link>";
    "            <Link";
    "              href={LINKS.linkedin}";
    qs ["              target="; "_blank"; ""];
    qs ["              rel="; "noopener noreferrer"; ""];
    qs ["              className="; "group relative flex items-center justify-center w-10 h-10 rounded-full border border-zinc-300 dark:border-zinc-700 bg-white/50 dark:bg-zinc-900/50 backdrop-blur-sm text-zinc-600 dark:text-zinc-400 hover:text-blue-600 dark:hover:text-blue-400 hover:border-blue-400 dark:hover:border-blue-500 hover:bg-blue-50 dark:hover:bg-blue-900/20 transition-all duration-300 hover:scale-110 hover:shadow-lg"; ""];
    qs ["              aria-label="; "LinkedIn"; ""];
    "            >";
    qs ["              <svg className="; "w-5 h-5"; " fill="; "currentColor"; " viewBox="; "0 0 24 24"; " aria-hidden="; "true"; ">"];
    qs ["                <path d="; "M20.447 20.452h-3.554v-5.569c0-1.328-.027-3.037-1.852-3.037-1.853 0-2.136 1.445-2.136 2.939v5.667H9.351V9h3.414v1.561h.046c.477-.9 1.637-1.85 3.37-1.85 3.601 0 4.267 2.37 4.267 5.455v6.286zM5.337 7.433c-1.144 0-2.063-.926-2.063-2.065 0-1.138.92-2.063 2.063-2.063 1.14 0 2.064.925 2.064 2.063 0 1.139-.925 2.065-2.064 2.065zm1.782 13.019H3.555V9h3.564v11.452zM22.225 0H1.771C.792 0 0 .774 0 1.729v20.542C0 23.227.792 24 1.771 24h20.451C23.2 24 24 23.227 24 22.271V1.729C24 .774 23.2 0 22.222 0h.003z"; " />"];
    "              </svg>";
    "            </Link>";
    "            <Link";
    "              href={LINKS.facebook}";
    qs ["              target="; "_blank"; ""];
    qs ["              rel="; "noopener noreferrer"; ""];
    qs ["              className="; "group relative flex items-center justify-center w-10 h-10 rounded-full border border-zinc-300 dark:border-zinc-700 bg-white/50 dark:bg-zinc-900/50 backdrop-blur-sm text-zinc-600 dark:text-zinc-400 hover:text-blue-600 dark:hover:text-blue-400 hover:border-blue-400 dark:hover:border-blue-500 hover:bg-blue-50 dark:hover:bg-blue-900/20 transition-all duration-300 hover:scale-110 hover:shadow-lg"; ""];
    qs ["              aria-label="; "Facebook"; ""];
    "            >";
    qs ["              <svg className="; "w-5 h-5"; " fill="; "currentColor"; " viewBox="; "0 0 24 24"; " aria-hidden="; "true"; ">"];
    qs ["                <path fillRule="; "evenodd"; " d="; "M22 12c0-5.523-4.477-10-10-10S2 6.477 2 12c0 4.991 3.657 9.128 8.438 9.878v-6.987h-2.54V12h2.54V9.797c0-2.506 1.492-3.89 3.777-3.89 1.094 0 2.238.195 2.238.195v2.46h-1.26c-1.243 0-1.63.771-1.63 1.562V12h2.773l-.443 2.89h-2.33v6.988C18.343 21.128 22 16.991 22 12z"; " clipRule="; "evenodd"; " />"];
    "              </svg>";
    "            </Link>";
    "          </div>";
    "        </div>";
    "      </main>";
    "    </div>";
    "  );";
    "}";
    "" ].

(** [src/styles/globals.css] *)
Definition content_src_styles_globals_css : string := lines
  [ qs ["@import "; "tailwindcss"; ";"];
    qs ["@import "; "tw-animate-css"; ";"];
    "";
    "@custom-variant dark (&:is(.dark *));";
    "";
    "@theme inline {";
    "  --color-background: var(--background);";
    "  --color-foreground: var(--foreground);";
    "  --font-sans: var(--font-geist-sans);";
    "  --font-mono: var(--font-geist-mono);";
    "  --color-sidebar-ring: var(--sidebar-ring);";
    "  --color-sidebar-border: var(--sidebar-border);";
    "  --color-sidebar-accent-foreground: var(--sidebar-accent-foreground);";
    "  --color-sidebar-accent: var(--sidebar-accent);";
    "  --color-sidebar-primary-foreground: var(--sidebar-primary-foreground);";
    "  --color-sidebar-primary: var(--sidebar-primary);";
    "  --color-sidebar-foreground: var(--sidebar-foreground);";
    "  --color-sidebar: var(--sidebar);";
    "  --color-chart-5: var(--chart-5);";
    "  --color-chart-4: var(--chart-4);";
    "  --color-chart-3: var(--chart-3);";
    "  --color-chart-2: var(--chart-2);";
    "  --color-chart-1: var(--chart-1);";
    "  --color-ring: var(--ring);";
    "  --color-input: var(--input);";
    "  --color-border: var(--border);";
    "  --color-destructive: var(--destructive);";
    "  --color-accent-foreground: var(--accent-foreground);";
    "  --color-accent: var(--accent);";
    "  --color-muted-foreground: var(--muted-foreground);";
    "  --color-muted: var(--muted);";
    "  --color-secondary-foreground: var(--secondary-foreground);";
    "  --color-secondary: var(--secondary);";
    "  --color-primary-foreground: var(--primary-foreground);";
    "  --color-primary: var(--primary);";
    "  --color-popover-foreground: var(--popover-foreground);";
    "  --color-popover: var(--popover);";
    "  --color-card-foreground: var(--card-foreground);";
    "  --color-card: var(--card);";
    "  --radius-sm: calc(var(--radius) - 4px);";
    "  --radius-md: calc(var(--radius) - 2px);";
    "  --radius-lg: var(--radius);";
    "  --radius-xl: calc(var(--radius) + 4px);";
    "  --radius-2xl: calc(var(--radius) + 8px);";
    "  --radius-3xl: calc(var(--radius) + 12px);";
    "  --radius-4xl: calc(var(--radius) + 16px);";
    "}";
    "";
    ":root {";
    "  --radius: 0.625rem;";
    "  --background: oklch(1 0 0);";
    "  --foreground: oklch(0.145 0 0);";
    "  --card: oklch(1 0 0);";
    "  --card-foreground: oklch(0.145 0 0);";
    "  --popover: oklch(1 0 0);";
    "  --popover-foreground: oklch(0.145 0 0);";
    "  --primary: oklch(0.205 0 0);";
    "  --primary-foreground: oklch(0.985 0 0);";
    "  --secondary: oklch(0.97 0 0);";
    "  --secondary-foreground: oklch(0.205 0 0);";
    "  --muted: oklch(0.97 0 0);";
    "  --muted-foreground: oklch(0.556 0 0);";
    "  --accent: oklch(0.97 0 0);";
    "  --accent-foreground: oklch(0.205 0 0);";
    "  --destructive: oklch(0.577 0.245 27.325);";
    "  --border: oklch(0.922 0 0);";
    "  --input: oklch(0.922 0 0);";
    "  --ring: oklch(0.708 0 0);";
    "  --chart-1: oklch(0.646 0.222 41.116);";
    "  --chart-2: oklch(0.6 0.118 184.704);";
    "  --chart-3: oklch(0.398 0.07 227.392);";
    "  --chart-4: oklch(0.828 0.189 84.429);";
    "  --chart-5: oklch(0.769 0.188 70.08);";
    "  --sidebar: oklch(0.985 0 0);";
    "  --sidebar-foreground: oklch(0.145 0 0);";
    "  --sidebar-primary: oklch(0.205 0 0);";
    "  --sidebar-primary-foreground: oklch(0.985 0 0);";
    "  --sidebar-accent: oklch(0.97 0 0);";
    "  --sidebar-accent-foreground: oklch(0.205 0 0);";
    "  --sidebar-border: oklch(0.922 0 0);";
    "  --sidebar-ring: oklch(0.708 0 0);";
    "}";
    "";
    ".dark {";
    "  --background: oklch(0.145 0 0);";
    "  --foreground: oklch(0.985 0 0);";
    "  --card: oklch(0.205 0 0);";
    "  --card-foreground: oklch(0.985 0 0);";
    "  --popover: oklch(0.205 0 0);";
    "  --popover-foreground: oklch(0.985 0 0);";
    "  --primary: oklch(0.922 0 0);";
    "  --primary-foreground: oklch(0.205 0 0);";
    "  --secondary: oklch(0.269 0 0);";
    "  --secondary-foreground: oklch(0.985 0 0);";
    "  --muted: oklch(0.269 0 0);";
    "  --muted-foreground: oklch(0.708 0 0);";
    "  --accent: oklch(0.269 0 0);";
    "  --accent-foreground: oklch(0.985 0 0);";
    "  --destructive: oklch(0.704 0.191 22.216);";
    "  --border: oklch(1 0 0 / 10%);";
    "  --input: oklch(1 0 0 / 15%);";
    "  --ring: oklch(0.556 0 0);";
    "  --chart-1: oklch(0.488 0.243 264.376);";
    "  --chart-2: oklch(0.696 0.17 162.48);";
    "  --chart-3: oklch(0.769 0.188 70.08);";
    "  --chart-4: oklch(0.627 0.265 303.9);";
    "  --chart-5: oklch(0.645 0.246 16.439);";
    "  --sidebar: oklch(0.205 0 0);";
    "  --sidebar-foreground: oklch(0.985 0 0);";
    "  --sidebar-primary: oklch(0.488 0.243 264.376);";
    "  --sidebar-primary-foreground: oklch(0.985 0 0);";
    "  --sidebar-accent: oklch(0.269 0 0);";
    "  --sidebar-accent-foreground: oklch(0.985 0 0);";
    "  --sidebar-border: oklch(1 0 0 / 10%);";
    "  --sidebar-ring: oklch(0.556 0 0);";
    "}";
    "";
    "@layer base {";
    "  * {";
    "    @apply border-border outline-ring/50;";
    "  }";
    "  body {";
    "    @apply bg-background text-foreground;";
    "  }";
    "}";
    "" ].

(** [src/config/routes.ts] *)
Definition content_src_config_routes_ts : string := lines
  [ "// Route configuration";
    "export const routes = {";
    "  home: '/',";
    "  // Add your routes here";
    "};";
    "" ].

(** [src/config/.env.example] *)
Definition content_src_config__env_example : string := lines
  [ "# Backend API URL";
    "NEXT_PUBLIC_BACKEND_URL=http://localhost:3001";
    "";
    "# Cookie header name for authentication";
    "NEXT_PUBLIC_COOKIES_HEADER=my-token-header";
    "" ].

(** [src/proxy.ts] *)
Definition content_src_proxy_ts : string := lines
  [ qs ["import { NextRequest, NextResponse } from "; "next/server"; ";"];
    qs ["import { checkTokenExpiration } from "; "./shared/utils/checkTokenExpiration"; ";"];
    "";
    qs ["const publicRoutes = ["; "/login"; ", "; "/register"; ", "; "/forgot-password"; ", "; "/processing"; "];"];
    qs ["const cookieHeader = process.env.NEXT_PUBLIC_COOKIES_HEADER || "; "my-token-header"; ""];
    "";
    "export function proxy(request: NextRequest) {";
    "  const { pathname } = request.nextUrl;";
    "";
    "  const sessionData = request.cookies.get(cookieHeader);";
    qs ["  const isTokenExpired = checkTokenExpiration(sessionData?.value || "; ""; ");"];
    "  const hasValidSession = sessionData?.value && !isTokenExpired;";
    "";
    "  // If user has valid session and tries to access public routes, redirect to home";
    "  if (publicRoutes.includes(pathname)) {";
    "    if (hasValidSession) {";
    qs ["      const homeUrl = new URL("; "/"; ", request.url);"];
    "      return NextResponse.redirect(homeUrl);";
    "    }";
    "    return NextResponse.next();";
    "  }";
    "";
    "  // Protected routes - require valid session";
    "  if (!hasValidSession) {";
    qs ["    const loginUrl = new URL("; "/login"; ", request.url);"];
    "    return NextResponse.redirect(loginUrl);";
    "  }";
    "";
    "  return NextResponse.next();";
    "}";
    "";
    "export const config = {";
    qs ["  matcher: ["; "/((?!_next/static|_next/image|favicon.ico|api).*)"; "],"];
    "};";
    "" ].

(** [src/shared/components/CodeBlock.tsx] *)
Definition content_src_shared_components_CodeBlock_tsx : string := lines
  [ "'use client'";
    "";
    "import { useState } from 'react'";
    "";
    "interface CodeBlockProps {";
    "  command: string";
    "  className?: string";
    "}";
    "";
    "export default function CodeBlock({ command, className = '' }: CodeBlockProps) {";
    "  const [copied, setCopied] = useState(false)";
    "";
    "  const handleCopy = async (e?: React.MouseEvent) => {";
    "    if (e) {";
    "      e.stopPropagation()";
    "    }";
    "    try {";
    "      await navigator.clipboard.writeText(command)";
    "      setCopied(true)";
    "      setTimeout(() => setCopied(false), 2000)";
    "    } catch (err) {";
    "      console.error('Failed to copy:', err)";
    "    }";
    "  }";
    "";
    "  return (";
    "    <div";
    "      className={`group relative flex items-center ${className}`}";
    "    >";
    "      <code";
    qs ["        className="; "relative flex items-center w-full justify-between text-sm text-nowrap transition-colors cursor-pointer"; ""];
    "        onClick={handleCopy}";
    "      >";
    qs ["        <div className="; "text-zinc-500"; ">$ <span className='text-zinc-100 font-mono hover:text-white'>{command}</span></div>"];
    "        <button";
    qs ["          className="; "opacity-0 group-hover:opacity-100 transition-all duration-200 flex items-center gap-1.5 px-2.5 py-1 rounded-md bg-zinc-800/90 hover:bg-zinc-700/90 backdrop-blur-sm border border-zinc-700/50 hover:border-zinc-600 text-zinc-300 hover:text-white text-xs font-medium shadow-lg hover:shadow-xl hover:scale-105 z-10"; ""];
    "          onClick={handleCopy}";
    qs ["          aria-label="; "Copy command"; ""];
    qs ["          title="; "Click to copy"; ""];
    "        >";
    "          {copied ? (";
    "            <>";
    qs ["              <svg className="; "w-3.5 h-3.5 text-green-400"; " fill="; "none"; " stroke="; "currentColor"; " viewBox="; "0 0 24 24"; ">"];
    qs ["                <path strokeLinecap="; "round"; " strokeLinejoin="; "round"; " strokeWidth={2} d="; "M5 13l4 4L19 7"; " />"];
    "              </svg>";
    qs ["              <span className="; "text-green-400 font-semibold"; ">Copied!</span>"];
    "            </>";
    "          ) : (";
    "            <>";
    qs ["              <svg className="; "w-3.5 h-3.5"; " fill="; "none"; " stroke="; "currentColor"; " viewBox="; "0 0 24 24"; ">"];
    qs ["                <path strokeLinecap="; "round"; " strokeLinejoin="; "round"; " strokeWidth={2} d="; "M8 16H6a2 2 0 01-2-2V6a2 2 0 012-2h8a2 2 0 012 2v2m-6 12h8a2 2 0 002-2v-8a2 2 0 00-2-2h-8a2 2 0 00-2 2v8a2 2 0 002 2z"; " />"];
    "              </svg>";
    "              <span>Copy</span>";
    "            </>";
    "          )}";
    "        </button>";
    "      </code>";
    "    </div>";
    "  )";
    "}";
    "" ].

(** [src/shared/libs/utils.ts] *)
Definition content_src_shared_libs_utils_ts : string := lines
  [ qs ["import { clsx, type ClassValue } from "; "clsx"; ""];
    qs ["import { twMerge } from "; "tailwind-merge"; ""];
    "";
    "export function cn(...inputs: ClassValue[]) {";
    "  return twMerge(clsx(inputs))";
    "}";
    "" ].

(** [src/shared/libs/api.service.ts] *)
Definition content_src_shared_libs_api_service_ts : string := lines
  [ "interface ApiResponse<T> {";
    "  response: number;";
    "  success: string;";
    "  error: string | null;";
    "  data: T;";
    "}";
    "const defaultHeaders: Record<string, string> = {";
    qs ["  "; "Content-Type"; ": "; "application/json"; ","];
    "};";
    "async function parseResponse<T>(res: Response): Promise<ApiResponse<T>> {";
    "  return res.json();";
    "}";
    "async function request<T>(";
    "  url: string,";
    "  options?: RequestInit,";
    "): Promise<ApiResponse<T>> {";
    "  const res = await fetch(url, {";
    "    headers: defaultHeaders,";
    qs ["    credentials: "; "include"; ","];
    "    ...options,";
    "  });";
    qs ["  if (!res.ok && res.status === 401 && typeof window !== "; "undefined"; ") {"];
    qs ["    window.location.href = "; "/login"; ";"];
    "  }";
    "  if (!res.ok) {";
    "    const errorData = await parseResponse<T>(res);";
    "    throw errorData;";
    "  }";
    "  return parseResponse<T>(res);";
    "}";
    "export const api = {";
    qs ["  get: <T>(url: string) => request<T>(url, { method: "; "GET"; " }),"];
    "  post: <T>(url: string, body?: unknown) =>";
    qs ["    request<T>(url, { method: "; "POST"; ", body: JSON.stringify(body) }),"];
    "  put: <T>(url: string, body?: unknown) =>";
    qs ["    request<T>(url, { method: "; "PUT"; ", body: JSON.stringify(body) }),"];
    "  patch: <T>(url: string, body?: unknown) =>";
    qs ["    request<T>(url, { method: "; "PATCH"; ", body: JSON.stringify(body) }),"];
    qs ["  delete: <T>(url: string) => request<T>(url, { method: "; "DELETE"; " }),"];
    "};";
    "" ].

(** [src/shared/hooks/useFormWithZod.ts] *)
Definition content_src_shared_hooks_useFormWithZod_ts : string := lines
  [ qs ["import { useForm, FieldValues } from "; "react-hook-form"; ";"];
    qs ["import { zodResolver } from "; "@hookform/resolvers/zod"; ";"];
    qs ["import { z } from "; "zod"; ";"];
    "";
    "export function useFormWithZod<T extends FieldValues>(";
    "  schema: z.ZodSchema<T>";
    ") {";
    "  return useForm<T>({";
    "    // @ts-expect-error - zodResolver type incompatibility with Zod v4";
    "    resolver: zodResolver(schema),";
    "  });";
    "}";
    "" ].

(** [src/shared/utils/checkTokenExpiration.ts] *)
Definition content_src_shared_utils_checkTokenExpiration_ts : string := lines
  [ "export const checkTokenExpiration = (token: string) => {";
    "  if (!token) return false;";
    "  // Your logic to check token expiration";
    "  return true";
    "};";
    "" ].

(** [src/features/auth/auth.type.ts] *)
Definition content_src_features_auth_auth_type_ts : string := lines
  [ "export interface LoginPayload {";
    "  email: string;";
    "  password: string;";
    "}";
    "";
    "export interface SignupPayload {";
    "  name: string;";
    "  email: string;";
    "  password: string;";
    "}";
    "" ].

(** [src/features/auth/auth.api.ts] *)
Definition content_src_features_auth_auth_api_ts : string := lines
  [ qs ["import { api } from "; "@/shared/libs/api.service"; ";"];
    qs ["import { LoginPayload, SignupPayload } from "; "./auth.type"; ";"];
    "";
    "export const authApi = {";
    qs ["  login: (body: LoginPayload) => api.post("; "/login"; ", body),"];
    qs ["  signup: (body: SignupPayload) => api.post("; "/signup"; ", body),"];
    "};";
    "" ].

(** [src/features/auth/auth.service.ts] *)
Definition content_src_features_auth_auth_service_ts : string := lines
  [ qs ["import { LoginPayload, SignupPayload } from "; "./auth.type"; ";"];
    qs ["import * as api from "; "./auth.api"; ";"];
    qs ["import { loginSchema, signupSchema } from "; "./auth.validation"; ";"];
    "";
    "export const authSevice = {";
    "  async login(payload: LoginPayload) {";
    "    loginSchema.parse(payload);";
    "    return api.authApi.login(payload);";
    "  },";
    "";
    "  async signup(payload: SignupPayload) {";
    "    signupSchema.parse(payload);";
    "    return api.authApi.signup(payload);";
    "  },";
    "};";
    "" ].

(** [src/features/auth/auth.validation.ts] *)
Definition content_src_features_auth_auth_validation_ts : string := lines
  [ qs ["import { z } from "; "zod"; ";"];
    "";
    "// Login";
    "export const loginSchema = z.object({";
    "  email: z.string().email(),";
    "  password: z.string().min(5).max(30),";
    "});";
    "";
    "export type LoginSchemaT = z.infer<typeof loginSchema>;";
    "";
    "// Signup";
    "export const signupSchema = z.object({";
    "  name: z.string(),";
    "  email: z.string().email(),";
    "  password: z.string().min(5).max(30),";
    "});";
    "";
    "export type SignupSchemaT = z.infer<typeof signupSchema>;";
    "" ].

(** [src/features/auth/auth.store.ts] *)
Definition content_src_features_auth_auth_store_ts : string := lines
  [ "// Auth store - add your state management logic here";
    "" ].

(** [src/features/auth/hooks/useAuth.ts] *)
Definition content_src_features_auth_hooks_useAuth_ts : string := lines
  [ qs ["import { useMutation, useQueryClient } from "; "@tanstack/react-query"; ";"];
    qs ["import { authSevice } from "; "../auth.service"; ";"];
    "";
    "export const useAuth = () => {";
    "  const queryClient = useQueryClient();";
    "";
    "  const loginMutation = useMutation({";
    "    mutationFn: authSevice.login,";
    "    onSuccess: () => {";
    qs ["      queryClient.invalidateQueries({ queryKey: ["; "user"; "] });"];
    "    }";
    "  })";
    "";
    "  const signupMutation = useMutation({";
    "    mutationFn: authSevice.signup,";
    "    onSuccess: () => {";
    qs ["      queryClient.invalidateQueries({ queryKey: ["; "user"; "] });"];
    "    }";
    "  })";
    "";
    "  return {";
    "    loginMutation,";
    "    signupMutation,";
    "  }";
    "};";
    "" ].

(** [src/features/auth/components/LoginForm.tsx] *)
Definition content_src_features_auth_components_LoginForm_tsx : string := lines
  [ "// LoginForm component - add your login form implementation here";
    "export default function LoginForm() {";
    "  return (";
    "    <div>";
    "      {/* Add your login form here */}";
    "    </div>";
    "  );";
    "}";
    "" ].

(** [.gitignore] *)
Definition content_gitignore : string := lines
  [ "# See https://help.github.com/articles/ignoring-files/ for more about ignoring files.";
    "";
    "# dependencies";
    "/node_modules";
    "/.pnp";
    ".pnp.js";
    "";
    "# testing";
    "/coverage";
    "";
    "# next.js";
    "/.next/";
    "/out/";
    "";
    "# production";
    "/build";
    "";
    "# misc";
    ".DS_Store";
    "*.pem";
    "";
    "# debug";
    "npm-debug.log*";
    "yarn-debug.log*";
    "yarn-error.log*";
    "";
    "# env files (can opt-in for committing if needed)";
    ".env";
    ".env.development.local";
    ".env.test.local";
    ".env.production.local";
    ".env.local";
    ".env.development";
    ".env.test";
    ".env.production";
    "";
    "# vercel";
    ".vercel";
    "";
    "# typescript";
    "*.tsbuildinfo";
    "next-env.d.ts";
    "" ].

(** [next-env.d.ts] *)
Definition content_next_env_d_ts : string := lines
  [ qs ["/// <reference types="; "next"; " />"];
    qs ["/// <reference types="; "next/image-types/global"; " />"];
    "";
    "// NOTE: This file should not be edited";
    "// see https://nextjs.org/docs/basic-features/typescript for more information.";
    "" ].

End Manifest.

(** The install and dev commands are derived by two chains of conditionals
    whose last branch takes every remaining value. *)
Definition getProjectStructure (variables : TemplateVariables) : list FileEntry :=
  let projectName := variables.(projectName) in
  let packageManager := variables.(packageManager) in
  let installCmd :=
    if String.eqb packageManager "npm" then "npm install"
    else if String.eqb packageManager "pnpm" then "pnpm install"
    else if String.eqb packageManager "yarn" then "yarn install"
    else "bun install" in
  let devCmd :=
    if String.eqb packageManager "npm" then "npm run dev"
    else if String.eqb packageManager "pnpm" then "pnpm dev"
    else if String.eqb packageManager "yarn" then "yarn dev"
    else "bun run dev" in
  [ {| path := "package.json"; content := Manifest.content_package_json projectName |};
    {| path := "tsconfig.json"; content := Manifest.content_tsconfig_json |};
    {| path := "next.config.ts"; content := Manifest.content_next_config_ts |};
    {| path := "eslint.config.mjs"; content := Manifest.content_eslint_config_mjs |};
    {| path := "postcss.config.mjs"; content := Manifest.content_postcss_config_mjs |};
    {| path := "README.md"; content := Manifest.content_README_md projectName installCmd devCmd |};
    {| path := "src/app/layout.tsx"; content := Manifest.content_src_app_layout_tsx |};
    {| path := "src/app/providers.tsx"; content := Manifest.content_src_app_providers_tsx |};
    {| path := "src/app/page.tsx"; content := Manifest.content_src_app_page_tsx |};
    {| path := "src/styles/globals.css"; content := Manifest.content_src_styles_globals_css |};
    {| path := "src/config/routes.ts"; content := Manifest.content_src_config_routes_ts |};
    {| path := "src/config/.env.example"; content := Manifest.content_src_config__env_example |};
    {| path := "src/proxy.ts"; content := Manifest.content_src_proxy_ts |};
    {| path := "src/shared/components/CodeBlock.tsx"; content := Manifest.content_src_shared_components_CodeBlock_tsx |};
    {| path := "src/shared/libs/utils.ts"; content := Manifest.content_src_shared_libs_utils_ts |};
    {| path := "src/shared/libs/api.service.ts"; content := Manifest.content_src_shared_libs_api_service_ts |};
    {| path := "src/shared/hooks/useFormWithZod.ts"; content := Manifest.content_src_shared_hooks_useFormWithZod_ts |};
    {| path := "src/shared/utils/checkTokenExpiration.ts"; content := Manifest.content_src_shared_utils_checkTokenExpiration_ts |};
    {| path := "src/features/auth/auth.type.ts"; content := Manifest.content_src_features_auth_auth_type_ts |};
    {| path := "src/features/auth/auth.api.ts"; content := Manifest.content_src_features_auth_auth_api_ts |};
    {| path := "src/features/auth/auth.service.ts"; content := Manifest.content_src_features_auth_auth_service_ts |};
    {| path := "src/features/auth/auth.validation.ts"; content := Manifest.content_src_features_auth_auth_validation_ts |};
    {| path := "src/features/auth/auth.store.ts"; content := Manifest.content_src_features_auth_auth_store_ts |};
    {| path := "src/features/auth/hooks/useAuth.ts"; content := Manifest.content_src_features_auth_hooks_useAuth_ts |};
    {| path := "src/features/auth/components/LoginForm.tsx"; content := Manifest.content_src_features_auth_components_LoginForm_tsx |};
    {| path := ".gitignore"; content := Manifest.content_gitignore |};
    {| path := "next-env.d.ts"; content := Manifest.content_next_env_d_ts |} ].

(* ===================================================================== *)
(** * Effects: state and exceptions *)
(* ===================================================================== *)

Module Eff.

(** What JavaScript code can throw here. *)
Inductive exn : Type :=
| FsExn (e : Fs.error)
| ChildExn (command : string)
| TypeExn (what : string).

Inductive result (A : Type) : Type :=
| Done (a : A)
| Thrown (e : exn).
Arguments Done {A} a.
Arguments Thrown {A} e.

(** A computation over a state [S]: the state survives an exception, as a
    half-written tree survives a failed write. *)
Definition M (S A : Type) : Type := S -> result A * S.

Definition ret {S A} (a : A) : M S A := fun s => (Done a, s).

Definition bind {S A B} (m : M S A) (k : A -> M S B) : M S B :=
  fun s => match m s with
           | (Done a, s') => k a s'
           | (Thrown e, s') => (Thrown e, s')
           end.

Definition throw {S A} (e : exn) : M S A := fun s => (Thrown e, s).

Definition tryCatch {S A} (m : M S A) (handler : exn -> M S A) : M S A :=
  fun s => match m s with
           | (Done a, s') => (Done a, s')
           | (Thrown e, s') => handler e s'
           end.

Definition gets {S A} (f : S -> A) : M S A := fun s => (Done (f s), s).

Definition modify {S} (f : S -> S) : M S unit := fun s => (Done tt, f s).

(** A call of the file-system library: a new state, or an exception that
    leaves the state as it was. *)
Definition call {S} (op : S -> Fs.error + S) : M S unit :=
  fun s => match op s with
           | inr s' => (Done tt, s')
           | inl e => (Thrown (FsExn e), s)
           end.

(** [for (const x of l) body(x)] *)
Fixpoint forEach {S A} (l : list A) (body : A -> M S unit) : M S unit :=
  match l with
  | [] => ret tt
  | x :: l' => bind (body x) (fun _ => forEach l' body)
  end.

Module Notations.
Notation "x <- m ;; k" := (bind m (fun x => k))
  (at level 100, m at next level, right associativity).
Notation "m ;; k" := (bind m (fun _ => k))
  (at level 100, right associativity).
End Notations.

End Eff.

Import Eff Eff.Notations.

(* ===================================================================== *)
(** * utils/fileGenerator.ts: the materialiser and the substitution pass *)
(* ===================================================================== *)

(** The state of this module is the file system alone. *)

Definition ensureDir (p : Path.t) : M (gmap Path.t node) unit :=
  call (ensureDirSync p).

Definition writeFile (p : Path.t) (c : string) : M (gmap Path.t node) unit :=
  call (writeFileSync p c).

Definition readFile (p : Path.t) : M (gmap Path.t node) string :=
  fun fs => match readFileSync p fs with
            | inr c => (Done c, fs)
            | inl e => (Thrown (FsExn e), fs)
            end.

(** The directories that hold no file, each kept by a [.gitkeep]. *)
Definition emptyDirs : list string :=
  [ "src/shared/constants";
    "src/shared/types";
    "src/shared/components/shadcnUi";
    "src/stores";
    "src/tests/e2e";
    "src/tests/unit" ].

Definition createProjectStructure (targetPath : Path.t)
    (variables : TemplateVariables) : M (gmap Path.t node) unit :=
  let structure := getProjectStructure variables in
  forEach emptyDirs (fun dir =>
    let dirPath := Path.join targetPath dir in
    ensureDir dirPath ;;
    writeFile (Path.join dirPath ".gitkeep") EmptyString) ;;
  ensureDir (Path.join targetPath "public") ;;
  forEach structure (fun file =>
    let filePath := Path.join targetPath file.(path) in
    ensureDir (Path.dirname filePath) ;;
    writeFile filePath file.(content)).

(** The filter handed to [copySync]: a test on the whole source path. *)
Definition copyFilter (src : string) : bool :=
  negb (Str.includes src "node_modules") &&
  negb (Str.includes src ".git") &&
  negb (Str.includes src "dist").

Definition copyTemplates (templatesPath targetPath : Path.t)
    (variables : TemplateVariables) : M (gmap Path.t node) unit :=
  ensureDir targetPath ;;
  found <- gets (fun fs => existsSync fs templatesPath) ;;
  if found then call (copySync copyFilter templatesPath targetPath)
  else createProjectStructure targetPath variables.

Definition generateFiles (projectPath : Path.t)
    (variables : TemplateVariables) : M (gmap Path.t node) unit :=
  let packageJsonPath := Path.join projectPath "package.json" in
  found <- gets (fun fs => existsSync fs packageJsonPath) ;;
  (if found then
     content <- readFile packageJsonPath ;;
     let content := Str.replaceAll "{{projectName}}" variables.(projectName) content in
     writeFile packageJsonPath content
   else ret tt) ;;
  let readmePath := Path.join projectPath "README.md" in
  found <- gets (fun fs => existsSync fs readmePath) ;;
  if found then
    content <- readFile readmePath ;;
    let content := Str.replaceAll "{{projectName}}" variables.(projectName) content in
    let content := Str.replaceAll "{{packageManager}}" variables.(packageManager) content in
    writeFile readmePath content
  else ret tt.

(* ===================================================================== *)
(** * createProject.ts *)
(* ===================================================================== *)

(** What the process does that is seen from outside, in order.  The colours
    of chalk are left out: an event carries the text. *)
Inductive event : Type :=
| Log (text : string)                        (* console.log *)
| LogError (text : string)                   (* console.error *)
| LogThrown (e : exn)                        (* an error value, printed *)
| SpinnerStart (text : string)               (* ora(text).start() *)
| SpinnerSucceed (text : string)
| SpinnerFail (text : string)
| Prompt (message : string)                  (* inquirer.prompt *)
| Spawn (command : string) (cwd : Path.t).   (* execSync *)

Record World : Type := {
  files : gmap Path.t node;
  trace : list event
}.

(** The four choices of the package-manager prompt. *)
Inductive choice : Type := Npm | Pnpm | Yarn | Bun.

Definition choiceValue (c : choice) : string :=
  match c with
  | Npm => "npm"
  | Pnpm => "pnpm"
  | Yarn => "yarn"
  | Bun => "bun"
  end.

(** What a run takes from its surroundings: the working directory, the
    directory of the compiled module, the answers of the user (the project
    name is the input the prompt accepted), and the child process, which says
    whether it exited with status zero and leaves a file system behind. *)
Record Env : Type := {
  cwd : Path.t;
  moduleDir : Path.t;
  answerPackageManager : choice;
  answerProjectName : string;
  answerOverwrite : bool;
  shell : string -> Path.t -> gmap Path.t node -> bool * gmap Path.t node
}.

Record CreateProjectOptions : Type := {
  optProjectName : string;
  optPackageManager : string;
  skipPrompts : option bool;
  autoInstall : option bool
}.

Definition emit (e : event) : M World unit :=
  modify (fun w => {| files := w.(files); trace := w.(trace) ++ [e] |}).

(** A computation on the file system, run on the files of the world. *)
Definition onFiles {A} (m : M (gmap Path.t node) A) : M World A :=
  fun w => let '(r, fs) := m w.(files) in
           (r, {| files := fs; trace := w.(trace) |}).

(** [execSync(command, { cwd, stdio: 'pipe' })]: a command that is not a
    string is rejected before anything is spawned; a child that exits with
    another status than zero makes the call throw. *)
Definition execSync (env : Env) (command : option string) (dir : Path.t)
  : M World unit :=
  match command with
  | None => throw (TypeExn "command")
  | Some c =>
      emit (Spawn c dir) ;;
      fun w =>
        let '(ok, fs) := env.(shell) c dir w.(files) in
        (if ok then Done tt else Thrown (ChildExn c),
         {| files := fs; trace := w.(trace) |})
  end.

Definition errorMessage (e : exn) : string :=
  match e with
  | FsExn (IoError code p) => code +:+ ": " +:+ Path.toString p
  | ChildExn command => "Command failed: " +:+ command
  | TypeExn what => "The " +:+ Str.qs [EmptyString; what; EmptyString]
                    +:+ " argument must be of type string"
  end.

Definition createProject (env : Env) (options : CreateProjectOptions)
  : M World unit :=
  let projectName := options.(optProjectName) in
  let packageManager := options.(optPackageManager) in
  let skipPrompts := default false options.(skipPrompts) in
  let autoInstall := default false options.(autoInstall) in
  let variables :=
    {| projectName := projectName; packageManager := packageManager |} in
  let projectPath := Path.join env.(cwd) projectName in
  (* Check if directory exists; [proceed] is false after the early return. *)
  present <- gets (fun w => existsSync w.(files) projectPath) ;;
  proceed <-
    (if present then
       overwrite <-
         (if negb skipPrompts then
            emit (Prompt ("⚠️  Directory " +:+ projectName
                          +:+ " already exists. Overwrite?")) ;;
            ret env.(answerOverwrite)
          else ret true) ;;
       if negb overwrite then
         emit (Log (Str.nl +:+ "❌ Cancelled." +:+ Str.nl)) ;;
         ret false
       else
         (* Remove existing directory *)
         emit (SpinnerStart "🗑️  Removing existing directory...") ;;
         onFiles (modify (removeSync projectPath)) ;;
         emit (SpinnerSucceed "Directory removed") ;;
         ret true
     else ret true) ;;
  if negb proceed then ret tt
  else
    let templatesPath := Path.join env.(moduleDir) "../templates" in
    tryCatch
      ((* Copy template files *)
       emit (SpinnerStart "📁 Creating project structure...") ;;
       onFiles (copyTemplates templatesPath projectPath variables) ;;
       emit (SpinnerSucceed "Project structure created") ;;
       (* Generate files with template replacements *)
       emit (SpinnerStart "📝 Generating files...") ;;
       onFiles (generateFiles projectPath variables) ;;
       emit (SpinnerSucceed "Files generated") ;;
       emit (Log (Str.nl +:+ "✅ Project created successfully!" +:+ Str.nl)) ;;
       (* Auto-install dependencies *)
       (if autoInstall then
          emit (SpinnerStart ("📦 Installing dependencies with "
                              +:+ packageManager +:+ "...")) ;;
          tryCatch
            (let installCmd := getInstallCommand packageManager in
             execSync env installCmd projectPath ;;
             emit (SpinnerSucceed "Dependencies installed"))
            (fun _ =>
               emit (SpinnerFail
                       "Dependencies installation failed (you can install manually)") ;;
               emit (Log ("  Run: "
                          +:+ interpolate (getInstallCommand packageManager))))
        else ret tt) ;;
       (* Simple success message *)
       emit (Log ("🎉 Ready to start coding!" +:+ Str.nl)) ;;
       emit (Log "Next steps:") ;;
       emit (Log ("  cd " +:+ projectName)) ;;
       (if negb autoInstall then
          emit (Log ("  " +:+ interpolate (getInstallCommand packageManager)))
        else ret tt) ;;
       emit (Log ("  " +:+ interpolate (getRunCommand packageManager "dev")
                  +:+ Str.nl)))
      (fun error =>
         emit (LogError (Str.nl +:+ "❌ Error creating project:")) ;;
         emit (LogError (errorMessage error)) ;;
         emit (LogThrown error) ;;
         throw error).

(* ===================================================================== *)
(** * index.ts: the command *)
(* ===================================================================== *)

(** [[project-name]], [-p, --package-manager <manager>] and [-y, --yes] as
    the argument parser hands them to the action. *)
Record Options : Type := {
  flagPackageManager : option string;
  yes : bool
}.

(** A string that may be [undefined], in a condition. *)
Definition given (v : option string) : bool :=
  match v with
  | Some s => Str.truthy s
  | None => false
  end.

(** [v || fallback] *)
Definition orElse (v : option string) (fallback : string) : string :=
  match v with
  | Some s => if Str.truthy s then s else fallback
  | None => fallback
  end.

(** The [validate] of the project-name prompt: [inr tt] accepts the input,
    [inl] is the message shown before the question is asked again. *)
Definition validate (input : string) : string + unit :=
  if negb (Str.truthy (Str.trim input)) then inl "Project name cannot be empty"
  else if negb (Str.matchesName (Str.trim input)) then
    inl "Project name can only contain letters, numbers, and hyphens"
  else inr tt.

Definition showWelcome : M World unit :=
  emit (Log (Str.nl +:+ "🚀 Next.js Scaffold Generator" +:+ Str.nl)).

(** The first half of the action: the options [createProject] is called
    with.  The flag is cast to [PackageManager], not checked. *)
Definition resolveOptions (env : Env) (projectName : option string)
    (options : Options) : M World CreateProjectOptions :=
  chosen <-
    (if options.(yes) then
       (* If --yes flag, use defaults *)
       ret (orElse options.(flagPackageManager) "npm",
            orElse projectName "my-nextjs-app")
     else
       (* Interactive mode: Package manager selection first *)
       packageManager <-
         (if negb (given options.(flagPackageManager)) then
            emit (Prompt "📦 Which package manager would you like to use?") ;;
            ret (choiceValue env.(answerPackageManager))
          else ret (orElse options.(flagPackageManager) EmptyString)) ;;
       (* Project name prompt *)
       finalProjectName <-
         (if negb (given projectName) then
            emit (Prompt "📝 What is your project name?") ;;
            ret (Str.trim env.(answerProjectName))
          else ret (orElse projectName EmptyString)) ;;
       ret (packageManager, finalProjectName)) ;;
  ret {| optProjectName := chosen.2;
         optPackageManager := chosen.1;
         skipPrompts := Some (options.(yes) || false);
         autoInstall := Some (negb options.(yes)) |}.

Definition action (env : Env) (projectName : option string) (options : Options)
  : M World unit :=
  showWelcome ;;
  resolved <- resolveOptions env projectName options ;;
  createProject env resolved.

(** The process: the action inside its [try]; an exception is printed and
    the process exits with status 1, otherwise it ends with status 0. *)
Definition main (env : Env) (projectName : option string) (options : Options)
    (w : World) : nat * World :=
  match action env projectName options w with
  | (Done _, w') => (0, w')
  | (Thrown e, w') =>
      (1, {| files := w'.(files);
             trace := w'.(trace)
                      ++ [LogError (Str.nl +:+ "❌ Error creating project:");
                          LogThrown e] |})
  end.

(* ===================================================================== *)
(** * utils/packageManager.ts: detection *)
(* ===================================================================== *)

(** [detectPackageManager()]: a lock file in the working directory decides,
    in the order bun, pnpm, yarn, npm; without one, the first of bun, pnpm
    and yarn that answers [--version] is taken; npm is the default.  A
    [return] inside a [try] ends the function: what follows the [try] is run
    by the handler. *)
Definition detectPackageManager (env : Env) : M World string :=
  let present (name : string) : M World bool :=
    gets (fun w => existsSync w.(files) (Path.join env.(cwd) name)) in
  (* Check for lock files in order of preference *)
  bunLock <- present "bun.lockb" ;;
  if bunLock then ret "bun" else
  pnpmLock <- present "pnpm-lock.yaml" ;;
  if pnpmLock then ret "pnpm" else
  yarnLock <- present "yarn.lock" ;;
  if yarnLock then ret "yarn" else
  npmLock <- present "package-lock.json" ;;
  if npmLock then ret "npm" else
  (* Check if package managers are installed *)
  tryCatch (execSync env (Some "bun --version") env.(cwd) ;; ret "bun")
    (fun _ =>
  tryCatch (execSync env (Some "pnpm --version") env.(cwd) ;; ret "pnpm")
    (fun _ =>
  tryCatch (execSync env (Some "yarn --version") env.(cwd) ;; ret "yarn")
    (fun _ =>
  (* Default to npm *)
  ret "npm"))).

(* ===================================================================== *)
(** * test-local.js: the check of a generated project *)
(* ===================================================================== *)

Definition requiredFiles : list string :=
  [ "package.json";
    "tsconfig.json";
    "next.config.ts";
    "src/app/page.tsx";
    "src/app/layout.tsx";
    "src/features/auth/auth.api.ts" ].

(** The loop of step 3: every file is looked for and reported, and
    [allFilesExist] is cleared at the first one that is missing. *)
Fixpoint verifyLoop (projectPath : Path.t) (remaining : list string)
    (allFilesExist : bool) : M World bool :=
  match remaining with
  | [] => ret allFilesExist
  | file :: rest =>
      found <- gets (fun w => existsSync w.(files) (Path.join projectPath file)) ;;
      if found then
        emit (Log ("  ✅ " +:+ file)) ;;
        verifyLoop projectPath rest allFilesExist
      else
        emit (Log ("  ❌ " +:+ file +:+ " - MISSING!")) ;;
        verifyLoop projectPath rest false
  end.

Definition verifyProject (projectPath : Path.t) : M World bool :=
  verifyLoop projectPath requiredFiles true.

(* ===================================================================== *)
(** * Inputs of the examples *)
(* ===================================================================== *)

Module Examples.

(** A machine with a home directory and the tool installed under
    [/opt/cli], with no templates directory beside the compiled code. *)
Definition machine : gmap Path.t node :=
  list_to_map
    [ ([], Dir); (["home"], Dir); (["home"; "u"], Dir);
      (["opt"], Dir); (["opt"; "cli"], Dir); (["opt"; "cli"; "lib"], Dir) ].

Definition silentShell (ok : bool)
  : string -> Path.t -> gmap Path.t node -> bool * gmap Path.t node :=
  fun _ _ fs => (ok, fs).

(** The user picks pnpm, names the project demo-app, declines to overwrite;
    the installer fails. *)
Definition user : Env :=
  {| cwd := ["home"; "u"];
     moduleDir := ["opt"; "cli"; "lib"];
     answerPackageManager := Pnpm;
     answerProjectName := "demo-app";
     answerOverwrite := false;
     shell := silentShell false |}.

Definition start : World := {| files := machine; trace := [] |}.

Definition demo : TemplateVariables :=
  {| projectName := "demo-app"; packageManager := "pnpm" |}.

Definition interactive : Options :=
  {| flagPackageManager := None; yes := false |}.

(** [-p foo -y]: a package manager the tool does not know. *)
Definition unknownFlag : Options :=
  {| flagPackageManager := Some "foo"; yes := true |}.

(** The same machine with a previous [demo-app] in the home directory. *)
Definition occupied : World :=
  {| files := <[ ["home"; "u"; "demo-app"; "notes.txt"] := File "keep me" ]>
                (<[ ["home"; "u"; "demo-app"] := Dir ]> machine);
     trace := [] |}.

(** A templates directory beside the compiled code: a package descriptor
    and a readme with placeholders, an ignore file, a source file whose
    name starts like the build directory, and a dependency directory. *)
Definition templates : Path.t := ["opt"; "cli"; "templates"].

Definition withTemplates : gmap Path.t node :=
  list_to_map
    [ (templates, Dir);
      (templates ++ ["package.json"],
       File "{ name: {{projectName}}, manager: {{packageManager}} }");
      (templates ++ ["README.md"],
       File "# {{projectName}} uses {{packageManager}}; {{projectName}}");
      (templates ++ [".gitignore"], File "node_modules");
      (templates ++ ["src"], Dir);
      (templates ++ ["src"; "distance.ts"], File "export const d = 1;");
      (templates ++ ["src"; "index.ts"], File "export {};");
      (templates ++ ["node_modules"], Dir);
      (templates ++ ["node_modules"; "left-pad.js"], File "module.exports = 0;") ]
  ∪ machine.

Definition target : Path.t := ["home"; "u"; "demo-app"].

(** [-p pnpm -y] *)
Definition unattended : Options :=
  {| flagPackageManager := Some "pnpm"; yes := true |}.

(** A target as a copy of such templates leaves it, before substitution. *)
Definition scaffolded : gmap Path.t node :=
  list_to_map
    [ (target, Dir);
      (target ++ ["package.json"],
       File "{ name: {{projectName}}, manager: {{packageManager}} }");
      (target ++ ["README.md"],
       File "# {{projectName}} uses {{packageManager}}; {{projectName}}") ]
  ∪ machine.

(** A second target beside the first. *)
Definition again : Path.t := ["home"; "u"; "again"].

(** The home directory with the lock files of yarn and of npm in it. *)
Definition locked : World :=
  {| files := <[ ["home"; "u"; "package-lock.json"] := File "{}" ]>
                (<[ ["home"; "u"; "yarn.lock"] := File "# yarn lockfile v1" ]>
                   machine);
     trace := [] |}.


(** The tool installed by npm, with a templates directory in the package. *)
Definition packaged : Path.t := ["usr"; "lib"; "node_modules"; "next-js-scafold"].

Definition installed : gmap Path.t node :=
  list_to_map
    [ (["usr"], Dir); (["usr"; "lib"], Dir); (["usr"; "lib"; "node_modules"], Dir);
      (packaged, Dir);
      (packaged ++ ["dist"], Dir);
      (packaged ++ ["templates"], Dir);
      (packaged ++ ["templates"; "package.json"],
       File "{ name: {{projectName}}, manager: {{packageManager}} }");
      (packaged ++ ["templates"; "src"], Dir);
      (packaged ++ ["templates"; "src"; "index.ts"], File "export {};") ]
  ∪ machine.

(** A user who picks yarn, answers with a name that has a no-break space
    (U+00A0) before it and a space after it, and accepts to overwrite, at the
    same machine. *)
Definition other : Env :=
  {| cwd := ["home"; "u"];
     moduleDir := ["opt"; "cli"; "lib"];
     answerPackageManager := Yarn;
     answerProjectName := String "194" (String "160" "my-app ");
     answerOverwrite := true;
     shell := silentShell false |}.
(** The user of the examples, with an installer that succeeds. *)
Definition lucky : Env :=
  {| cwd := ["home"; "u"];
     moduleDir := ["opt"; "cli"; "lib"];
     answerPackageManager := Pnpm;
     answerProjectName := "demo-app";
     answerOverwrite := false;
     shell := silentShell true |}.

End Examples.

(* ===================================================================== *)
(** * Vocabulary of the statements *)
(* ===================================================================== *)

(** A component that normalisation leaves alone. *)
Definition plainSegment (seg : string) : bool :=
  negb (String.eqb seg EmptyString) && negb (String.eqb seg ".")
  && negb (String.eqb seg "..").

(** A relative path made of such components only. *)
Definition plain (rel : string) : bool := forallb plainSegment (Path.split rel).

(** The template variables of the data model: a name of letters, digits and
    hyphens, and one of the four package managers. *)
Definition validVariables (variables : TemplateVariables) : Prop :=
  Str.matchesName variables.(projectName) = true /\
  supported variables.(packageManager).

(** The [.gitkeep] of an empty directory, below the target. *)
Definition placeholderOf (targetPath : Path.t) (dir : string) : Path.t :=
  Path.join (Path.join targetPath dir) ".gitkeep".

(** The bodies of the two loops of [createProjectStructure]. *)
Definition keepDir (targetPath : Path.t) (dir : string)
  : M (gmap Path.t node) unit :=
  ensureDir (Path.join targetPath dir) ;;
  writeFile (placeholderOf targetPath dir) EmptyString.

Definition putFile (targetPath : Path.t) (file : FileEntry)
  : M (gmap Path.t node) unit :=
  ensureDir (Path.dirname (Path.join targetPath file.(path))) ;;
  writeFile (Path.join targetPath file.(path)) file.(content).

(** The project name and the package manager a run settles on: what the
    action passes to [createProject]. *)
Definition chosenProjectName (env : Env) (projectName : option string)
    (options : Options) : string :=
  if options.(yes) then orElse projectName "my-nextjs-app"
  else if negb (given projectName) then Str.trim env.(answerProjectName)
  else orElse projectName EmptyString.

Definition chosenPackageManager (env : Env) (options : Options) : string :=
  if options.(yes) then orElse options.(flagPackageManager) "npm"
  else if negb (given options.(flagPackageManager))
       then choiceValue env.(answerPackageManager)
       else orElse options.(flagPackageManager) EmptyString.

Definition chosenOptions (env : Env) (projectName : option string)
    (options : Options) : CreateProjectOptions :=
  {| optProjectName := chosenProjectName env projectName options;
     optPackageManager := chosenPackageManager env options;
     skipPrompts := Some (options.(yes) || false);
     autoInstall := Some (negb options.(yes)) |}.

(** The events of a trace that start a child process. *)
Definition spawns (e : event) : bool :=
  match e with
  | Spawn _ _ => true
  | _ => false
  end.

Definition asks (e : event) : bool :=
  match e with
  | Prompt _ => true
  | _ => false
  end.

Definition welcome : event :=
  Log (Str.nl +:+ "🚀 Next.js Scaffold Generator" +:+ Str.nl).

Definition cancelled : event :=
  Log (Str.nl +:+ "❌ Cancelled." +:+ Str.nl).

(** The last lines of a run that completes: the next steps, with the install
    command among them when the run did not install. *)
Definition nextSteps (o : CreateProjectOptions) : list event :=
  [ Log ("🎉 Ready to start coding!" +:+ Str.nl);
    Log "Next steps:";
    Log ("  cd " +:+ o.(optProjectName)) ]
  ++ (if default false o.(autoInstall) then []
      else [ Log ("  " +:+ interpolate (getInstallCommand o.(optPackageManager))) ])
  ++ [ Log ("  " +:+ interpolate (getRunCommand o.(optPackageManager) "dev")
            +:+ Str.nl) ].

(** The warning of a failed installation: the spinner fails and the command
    to run by hand is printed. *)
Definition installWarning (o : CreateProjectOptions) : list event :=
  [ SpinnerFail "Dependencies installation failed (you can install manually)";
    Log ("  Run: " +:+ interpolate (getInstallCommand o.(optPackageManager))) ].

(** The file system a run materialises into: a previous target is removed. *)
Definition cleared (fs : gmap Path.t node) (projectPath : Path.t)
  : gmap Path.t node :=
  if existsSync fs projectPath then removeSync projectPath fs else fs.

(** The arguments [createProject] hands to the materialiser. *)
Definition projectPathOf (env : Env) (o : CreateProjectOptions) : Path.t :=
  Path.join env.(cwd) o.(optProjectName).

Definition templatesPathOf (env : Env) : Path.t :=
  Path.join env.(moduleDir) "../templates".

Definition variablesOf (o : CreateProjectOptions) : TemplateVariables :=
  {| projectName := o.(optProjectName); packageManager := o.(optPackageManager) |}.

(** The names the exclusion filter of the copy looks for. *)
Definition excludedNames : list string := ["node_modules"; ".git"; "dist"].

(** A fresh and empty target: nothing lies below it (the directory itself may
    be there or not), and no file stands where the target or one of its
    ancestors has to be, so that the target can be created. *)
Definition freshTarget (fs : gmap Path.t node) (targetPath : Path.t) : Prop :=
  (forall rel, rel <> [] -> fs !! (targetPath ++ rel) = None) /\
  (forall k, k `prefix_of` targetPath -> isFile fs k = false).

(** Two trees are byte-identical: the same relative paths below the two
    roots, with the same node (a directory, or a file of the same content)
    at each. *)
Definition sameTree (fs1 : gmap Path.t node) (root1 : Path.t)
    (fs2 : gmap Path.t node) (root2 : Path.t) : Prop :=
  forall rel, fs1 !! (root1 ++ rel) = fs2 !! (root2 ++ rel).

(** The file system [fs] seen from the target is the tree [c] seen from the
    root, and the target is in place. *)
Definition rooted (targetPath : Path.t) (fs c : gmap Path.t node) : Prop :=
  (forall k, k `prefix_of` targetPath -> fs !! k = Some Dir) /\
  (forall rel, fs !! (targetPath ++ rel) = c !! rel).

(** A computation on the target that does what [m0] does on the root. *)
Definition follows (targetPath : Path.t) (m m0 : M (gmap Path.t node) unit)
  : Prop :=
  forall fs c c',
    rooted targetPath fs c -> m0 c = (Done tt, c') ->
    exists fs', m fs = (Done tt, fs') /\ rooted targetPath fs' c'.

(** The tree of the manifest: what the manifest path of the materialiser
    builds when the target is the root of an empty file system. *)
Definition manifestTree (variables : TemplateVariables) : gmap Path.t node :=
  (createProjectStructure [] variables (<[ [] := Dir ]> ∅)).2.

(** The node the materialiser leaves at a relative path of a fresh target:
    with no templates directory, the node of the manifest tree; with one,
    the target itself, or what the copy carries over from the templates. *)
Definition materialisedNode (templatesPath : Path.t)
    (variables : TemplateVariables) (fs : gmap Path.t node) (rel : Path.t)
  : option node :=
  match fs !! templatesPath with
  | None => manifestTree variables !! rel
  | Some _ =>
      match rel with
      | [] => Some Dir
      | _ =>
          if copyFilter (Path.toString templatesPath)
             && visited copyFilter templatesPath rel
          then fs !! (templatesPath ++ rel)
          else None
      end
  end.

(** The tree below a root, by relative path. *)
Definition treeAt (fs : gmap Path.t node) (root : Path.t) : gmap Path.t node :=
  list_to_map (selection (fun _ => true) root [] fs).

(** [freshTarget], as a test. *)
Definition isFresh (fs : gmap Path.t node) (targetPath : Path.t) : bool :=
  bool_decide (delete [] (treeAt fs targetPath) = ∅)
  && forallb (fun k => negb (isFile fs k)) (Path.inits targetPath).

(** The lock files [detectPackageManager] looks for, with the package
    manager each one stands for, in the order of the tests. *)
Definition lockFiles : list (string * string) :=
  [ ("bun.lockb", "bun"); ("pnpm-lock.yaml", "pnpm");
    ("yarn.lock", "yarn"); ("package-lock.json", "npm") ].

(** The first lock file of the working directory, if there is one. *)
Definition firstLock (env : Env) (fs : gmap Path.t node) : option string :=
  snd <$> List.find (fun lock => existsSync fs (Path.join env.(cwd) lock.1)) lockFiles.

(** A computation that leaves the entry at [k] as it found it, whether it
    completes or throws. *)
Definition keeps (k : Path.t) (m : M (gmap Path.t node) unit) : Prop :=
  forall fs, (m fs).2 !! k = fs !! k.

(** The entries of the manifest whose content does not come from the
    template variables alone: all but the package descriptor and the readme. *)
Definition fixedEntries (variables : TemplateVariables) : list FileEntry :=
  List.filter (fun e => negb (String.eqb e.(path) "package.json")
                        && negb (String.eqb e.(path) "README.md"))
              (getProjectStructure variables).

(** A computation that, at [k], changes nothing or makes a directory where
    there was nothing. *)
Definition grows (k : Path.t) (m : M (gmap Path.t node) unit) : Prop :=
  forall fs,
    (m fs).2 !! k = fs !! k \/
    (fs !! k = None /\ (m fs).2 !! k = Some Dir).

(** A computation that removes nothing at [k]: what exists stays. *)
Definition persists (k : Path.t) (m : M (gmap Path.t node) unit) : Prop :=
  forall fs, is_Some (fs !! k) -> is_Some ((m fs).2 !! k).

(** No opening brace in the string. *)
Definition braceFree (s : string) : bool :=
  Str.allChars (fun c => negb (Ascii.eqb c "{")) s.

(** One file of the substitution pass: read if it exists, rewritten with
    [f]. *)
Definition rewriteFile (p : Path.t) (f : string -> string)
  : M (gmap Path.t node) unit :=
  found <- gets (fun fs => existsSync fs p) ;;
  if found then content <- readFile p ;; writeFile p (f content) else ret tt.


(** What a run prints while it creates the project. *)
Definition creationEvents : list event :=
  [ SpinnerStart "📁 Creating project structure...";
    SpinnerSucceed "Project structure created";
    SpinnerStart "📝 Generating files...";
    SpinnerSucceed "Files generated";
    Log (Str.nl +:+ "✅ Project created successfully!" +:+ Str.nl) ].

(** Prompts and spinner lines: what a run shows before it prints a result. *)
Definition progressOnly (e : event) : bool :=
  match e with
  | Prompt _ | SpinnerStart _ | SpinnerSucceed _ => true
  | _ => false
  end.

(** What [createProject] prints when it catches an error, and what the
    action prints when the error reaches it. *)
Definition errorReport (e : exn) : list event :=
  [ LogError (Str.nl +:+ "❌ Error creating project:");
    LogError (errorMessage e);
    LogThrown e;
    LogError (Str.nl +:+ "❌ Error creating project:");
    LogThrown e ].

(** What a run prints from the start of an installation that succeeds: the
    spinner, the child process, and the next steps without the install
    command. *)
Definition installedEvents (env : Env) (o : CreateProjectOptions) (c : string)
  : list event :=
  [ SpinnerStart ("📦 Installing dependencies with "
                  +:+ o.(optPackageManager) +:+ "...");
    Spawn c (projectPathOf env o);
    SpinnerSucceed "Dependencies installed";
    Log ("🎉 Ready to start coding!" +:+ Str.nl);
    Log "Next steps:";
    Log ("  cd " +:+ o.(optProjectName));
    Log ("  " +:+ interpolate (getRunCommand o.(optPackageManager) "dev")
         +:+ Str.nl) ].

(* ===================================================================== *)
(** * Strings: facts *)
(* ===================================================================== *)

Section StringFacts.

Import Str.

Lemma append_cons (c : ascii) (s t : string) :
  String c s +:+ t = String c (s +:+ t).
Proof. reflexivity. Qed.

Lemma append_nil_r (s : string) : s +:+ EmptyString = s.
Proof. induction s as [|c s IH]; [done|]. by rewrite append_cons, IH. Qed.

Lemma append_assoc (a b c : string) : (a +:+ b) +:+ c = a +:+ b +:+ c.
Proof.
  induction a as [|x a IH]; [done|]. by rewrite !append_cons, IH.
Qed.

Lemma prefix_append (t b : string) : String.prefix t (t +:+ b) = true.
Proof.
  induction t as [|c t IH].
  - by destruct b.
  - rewrite append_cons. simpl.
    destruct (ascii_dec c c); [exact IH | congruence].
Qed.

Lemma includes_here (t b : string) : includes (t +:+ b) t = true.
Proof.
  destruct (t +:+ b) eqn:E; cbn [includes];
    rewrite <- E, prefix_append; done.
Qed.

Lemma includes_later (a s t : string) :
  includes s t = true -> includes (a +:+ s) t = true.
Proof.
  intros H. induction a as [|c a IH]; [done|].
  rewrite append_cons. cbn [includes]. rewrite IH. apply orb_true_r.
Qed.

Lemma includes_middle (a t b : string) : includes (a +:+ t +:+ b) t = true.
Proof. apply includes_later, includes_here. Qed.

Lemma lines_cons (x y : string) (l : list string) :
  lines (x :: y :: l) = x +:+ nl +:+ lines (y :: l).
Proof. reflexivity. Qed.

(** A line of a text is included in the text. *)
Lemma includes_line (l1 l2 : list string) (x : string) :
  includes (lines (l1 ++ x :: l2)) x = true.
Proof.
  induction l1 as [|y l1 IH].
  - destruct l2 as [|z l2].
    + cbn. rewrite <- (append_nil_r x) at 1. apply includes_here.
    + simpl. rewrite lines_cons. apply includes_here.
  - assert (exists z l, l1 ++ x :: l2 = z :: l) as (z & l & E)
      by (destruct l1; simpl; eauto).
    simpl. rewrite E, lines_cons, <- E.
    by do 2 apply includes_later.
Qed.

End StringFacts.

(** ** Trimming *)

Section TrimFacts.
Import Str.

(** White space of more than one byte is stripped as well: U+00A0 before a
    name, U+3000 and a line feed after it. *)
Example trim_wide_space :
  trim (String "194" (String "160"
          ("demo" +:+ String "227" (String "128" (String "128" nl))))) = "demo"
  /\ validate (String "194" (String "160" "demo")) = inr tt.
Proof. split; reflexivity. Qed.

Lemma srev_involutive (s : string) : srev (srev s) = s.
Proof.
  unfold srev. rewrite list_ascii_of_string_of_list_ascii, rev_involutive.
  apply string_of_list_ascii_of_string.
Qed.

(** A letter, digit or hyphen is no white space, and no byte of the encoding
    of one. *)
Lemma nameChar_not_space (c : ascii) :
  isNameChar c = true ->
  isSpace c = false /\
  (forall c2, isSpace2 c c2 = false /\ isSpace2 c2 c = false) /\
  (forall c2 c3, isSpace3 c c2 c3 = false /\ isSpace3 c3 c2 c = false).
Proof.
  unfold isNameChar, isSpace, isSpace2, isSpace3.
  generalize (nat_of_ascii c) as n. intros n Hn.
  assert (n <= 122 /\ n <> 32 /\ ~ (9 <= n <= 13)) as (Hle & H32 & H9).
  { repeat (apply orb_true_iff in Hn; destruct Hn as [Hn|Hn]);
      try (apply andb_true_iff in Hn; destruct Hn as [Ha%Nat.leb_le Hb%Nat.leb_le]);
      try (apply Nat.eqb_eq in Hn); lia. }
  split.
  { apply orb_false_iff. split; [by apply Nat.eqb_neq|].
    apply andb_false_iff.
    destruct (Nat.leb_spec 9 n); [right; apply Nat.leb_gt; lia | by left]. }
  assert (forall k, 123 <= k -> (n =? k)%nat = false) as Hfar.
  { intros k Hk. apply Nat.eqb_neq. lia. }
  assert (forall k, 128 <= k -> (k <=? n)%nat = false) as Hbelow.
  { intros k Hk. apply Nat.leb_gt. lia. }
  split.
  - intros c2. rewrite (Hfar 194), (Hfar 160) by lia.
    by rewrite andb_false_r.
  - intros c2 c3. rewrite (Hfar 225), (Hfar 226), (Hfar 227), (Hfar 239) by lia.
    rewrite (Hfar 128), (Hfar 159), (Hfar 191), (Hfar 168), (Hfar 169),
      (Hfar 175), (Hbelow 128) by lia.
    cbn [andb orb]. by rewrite !andb_false_r.
Qed.

Lemma strip_nameChar (back : bool) (c : ascii) (s : string) :
  isNameChar c = true -> strip back (String c s) = String c s.
Proof.
  intros (H1 & H2 & H3)%nameChar_not_space.
  cbn [strip]. rewrite H1.
  destruct s as [|c2 s2]; [done|].
  destruct (H2 c2) as [-> ->].
  destruct s2 as [|c3 s3]; [by destruct back|].
  destruct (H3 c2 c3) as [-> ->].
  by destruct back.
Qed.

Lemma allChars_list (f : ascii -> bool) (s : string) :
  allChars f s = true <-> Forall (fun c => f c = true) (list_ascii_of_string s).
Proof.
  induction s as [|c s IH]; cbn [allChars list_ascii_of_string].
  - split; [constructor|done].
  - rewrite andb_true_iff, IH, Forall_cons. done.
Qed.

(** A name the prompt accepts without white space around it is the name the
    run settles on: trimming leaves a string of letters, digits and hyphens
    as it is. *)
Lemma trim_name (s : string) : allChars isNameChar s = true -> trim s = s.
Proof.
  intros Hs. unfold trim, trimStart, trimEnd.
  assert (forall b t, allChars isNameChar t = true -> strip b t = t) as Hstrip.
  { intros b [|c t]; [done|]. cbn [allChars].
    intros [Hc _]%andb_true_iff. by apply strip_nameChar. }
  rewrite (Hstrip false s Hs), Hstrip; [apply srev_involutive|].
  apply allChars_list. unfold srev.
  rewrite list_ascii_of_string_of_list_ascii.
  apply Forall_rev, allChars_list, Hs.
Qed.

(** What the prompt accepts, trimmed, is a name of letters, digits and
    hyphens. *)
Lemma validate_accepts (input : string) :
  validate input = inr tt <-> matchesName (trim input) = true.
Proof.
  unfold validate, truthy, matchesName.
  destruct (String.eqb (trim input) EmptyString); cbn [negb andb]; [done|].
  destruct (allChars isNameChar (trim input)); cbn [negb]; done.
Qed.
End TrimFacts.

(* ===================================================================== *)
(** * The package-manager commands *)
(* ===================================================================== *)

(** The four cases of a supported package manager. *)
Ltac supported_cases H :=
  unfold supported in H;
  repeat (apply elem_of_cons in H; destruct H as [->|H]);
  [ .. | by apply elem_of_nil in H ].

(** C5. For each of npm, pnpm, yarn and bun, getInstallCommand and
    getRunCommand return a string (never undefined) that is not empty; the
    strings are the expected literals; two different package managers never
    get the same install command, nor the same run command for a script;
    pnpm gets [pnpm install] and, for the script dev, [pnpm dev]. *)
Theorem commands_total_and_distinct (pm : string) :
  supported pm ->
  (exists c, getInstallCommand pm = Some c /\ c <> EmptyString
             /\ c = pm +:+ " install") /\
  (forall script, exists c,
      getRunCommand pm script = Some c /\ c <> EmptyString) /\
  (pm, getRunCommand pm "dev")
    ∈ [ ("npm", Some "npm run dev"); ("pnpm", Some "pnpm dev");
        ("yarn", Some "yarn dev"); ("bun", Some "bun run dev") ] /\
  (forall pm', supported pm' ->
      getInstallCommand pm' = getInstallCommand pm -> pm' = pm) /\
  (forall pm' script, supported pm' ->
      getRunCommand pm' script = getRunCommand pm script -> pm' = pm) /\
  getInstallCommand "pnpm" = Some "pnpm install" /\
  getRunCommand "pnpm" "dev" = Some "pnpm dev".
Proof.
  intros H.
  repeat split.
  - supported_cases H; eexists; (split; [reflexivity | split; [discriminate | reflexivity]]).
  - intros script. supported_cases H; eexists; (split; [reflexivity | discriminate]).
  - supported_cases H; cbn; set_solver.
  - intros pm' H'.
    supported_cases H; supported_cases H'; vm_compute;
      intros E; first [reflexivity | discriminate E].
  - intros pm' script H'.
    supported_cases H; supported_cases H'; vm_compute;
      intros E; first [reflexivity | discriminate E].
Qed.

(** The instance for yarn. *)
Lemma commands_total_and_distinct_witness :
  supported "yarn" /\
  (exists c, getInstallCommand "yarn" = Some c /\ c <> EmptyString
             /\ c = "yarn" +:+ " install") /\
  (forall script, exists c,
      getRunCommand "yarn" script = Some c /\ c <> EmptyString) /\
  ("yarn", getRunCommand "yarn" "dev")
    ∈ [ ("npm", Some "npm run dev"); ("pnpm", Some "pnpm dev");
        ("yarn", Some "yarn dev"); ("bun", Some "bun run dev") ] /\
  (forall pm', supported pm' ->
      getInstallCommand pm' = getInstallCommand "yarn" -> pm' = "yarn") /\
  (forall pm' script, supported pm' ->
      getRunCommand pm' script = getRunCommand "yarn" script -> pm' = "yarn") /\
  getInstallCommand "pnpm" = Some "pnpm install" /\
  getRunCommand "pnpm" "dev" = Some "pnpm dev".
Proof.
  assert (supported "yarn") as H.
  { unfold supported. apply (bool_decide_unpack _). vm_compute. exact I. }
  split; [exact H|]. exact (commands_total_and_distinct "yarn" H).
Defined.

(* ===================================================================== *)
(** * The monad and the file system: facts *)
(* ===================================================================== *)

Section MonadFacts.

Context {S : Type}.

Lemma bind_done {A B} (m : M S A) (k : A -> M S B) s b s' :
  bind m k s = (Done b, s') <->
  exists a s1, m s = (Done a, s1) /\ k a s1 = (Done b, s').
Proof.
  unfold bind. destruct (m s) as [[a|e] s1]; split.
  - eauto.
  - by intros (? & ? & [= <- <-] & ?).
  - discriminate.
  - by intros (? & ? & [=] & ?).
Qed.

Lemma call_done (op : S -> Fs.error + S) s s' :
  call op s = (Done tt, s') <-> op s = inr s'.
Proof.
  unfold call. destruct (op s); split; intros [=]; by subst.
Qed.

Lemma forEach_cons_done {A} (x : A) l (body : A -> M S unit) s s' :
  forEach (x :: l) body s = (Done tt, s') <->
  exists s1, body x s = (Done tt, s1) /\ forEach l body s1 = (Done tt, s').
Proof.
  cbn [forEach]. rewrite bind_done. split.
  - intros ([] & s1 & ? & ?); eauto.
  - intros (s1 & ? & ?). by exists tt, s1.
Qed.

End MonadFacts.

Section FsFacts.

Implicit Types (fs : gmap Path.t node) (p q k : Path.t).

Lemma elem_of_inits p q : p ∈ Path.inits q <-> p `prefix_of` q.
Proof.
  revert p. induction q as [|s q IH]; intros p; cbn [Path.inits].
  - rewrite list_elem_of_singleton. split.
    + by intros ->.
    + apply prefix_nil_inv.
  - rewrite elem_of_cons, list_elem_of_fmap. split.
    + intros [->|(p' & -> & Hp)]; [apply prefix_nil|].
      apply prefix_cons, IH, Hp.
    + destruct p as [|s' p]; [by left|]. intros Hp. right.
      pose proof (prefix_cons_inv_1 _ _ _ _ Hp) as ->.
      exists p. split; [done|]. by eapply IH, prefix_cons_inv_2.
Qed.

Lemma lookup_mkdirs (l : list Path.t) fs k :
  mkdirs l fs !! k = if decide (k ∈ l) then Some Dir else fs !! k.
Proof.
  induction l as [|q l IH]; cbn [mkdirs foldr].
  - by rewrite decide_False by apply not_elem_of_nil.
  - fold (mkdirs l fs). destruct (decide (q = k)) as [->|Hne].
    + rewrite lookup_insert_eq, decide_True; [done | by left].
    + rewrite lookup_insert_ne, IH by done.
      destruct (decide (k ∈ l)).
      * rewrite decide_True; [done | by right].
      * rewrite decide_False; [done|].
        rewrite elem_of_cons. intros [->|]; done.
Qed.

Lemma ensureDirSync_inr q fs fs' :
  ensureDirSync q fs = inr fs' <->
  (forall k, k `prefix_of` q -> isFile fs k = false) /\
  fs' = mkdirs (Path.inits q) fs.
Proof.
  unfold ensureDirSync.
  destruct (forallb _ _) eqn:E.
  - rewrite forallb_forall in E. split.
    + intros [= <-]. split; [|done]. intros k Hk.
      apply negb_true_iff, E, list_elem_of_In, elem_of_inits, Hk.
    + by intros [_ ->].
  - split; [discriminate|]. intros [H _].
    assert (forallb (fun q0 => negb (isFile fs q0)) (Path.inits q) = true)
      as E'; [|congruence].
    apply forallb_forall. intros k Hk.
    apply negb_true_iff, H, elem_of_inits, list_elem_of_In, Hk.
Qed.

Lemma ensureDirSync_lookup q fs fs' k :
  ensureDirSync q fs = inr fs' ->
  fs' !! k = if decide (k `prefix_of` q) then Some Dir else fs !! k.
Proof.
  intros [_ ->]%ensureDirSync_inr. rewrite lookup_mkdirs.
  destruct (decide (k `prefix_of` q)) as [H|H].
  - rewrite decide_True; [done | by apply elem_of_inits].
  - rewrite decide_False; [done | by rewrite elem_of_inits].
Qed.

Lemma ensureDirSync_self q fs fs' :
  ensureDirSync q fs = inr fs' -> fs' !! q = Some Dir.
Proof.
  intros H. rewrite (ensureDirSync_lookup _ _ _ _ H).
  by rewrite decide_True.
Qed.

(** Creating directories keeps every file. *)
Lemma ensureDirSync_file q fs fs' k c :
  ensureDirSync q fs = inr fs' ->
  fs !! k = Some (File c) -> fs' !! k = Some (File c).
Proof.
  intros H Hk. rewrite (ensureDirSync_lookup _ _ _ _ H).
  destruct (decide (k `prefix_of` q)) as [Hp|]; [|done].
  apply ensureDirSync_inr in H as [H _]. specialize (H k Hp).
  unfold isFile in H. by rewrite Hk in H.
Qed.

Lemma ensureDirSync_dir q fs fs' k :
  ensureDirSync q fs = inr fs' ->
  fs !! k = Some Dir -> fs' !! k = Some Dir.
Proof.
  intros H Hk. rewrite (ensureDirSync_lookup _ _ _ _ H).
  by destruct (decide _).
Qed.

Lemma writeFileSync_inr p c fs fs' :
  writeFileSync p c fs = inr fs' <->
  isDir fs p = false /\ isDir fs (Path.dirname p) = true /\
  fs' = <[p := File c]> fs.
Proof.
  unfold writeFileSync.
  destruct (isDir fs p), (isDir fs (Path.dirname p)); split;
    try discriminate; try (intros [= <-]; done);
    intros (? & ? & ->); done.
Qed.

Lemma writeFileSync_self p c fs fs' :
  writeFileSync p c fs = inr fs' -> fs' !! p = Some (File c).
Proof. intros (_ & _ & ->)%writeFileSync_inr. apply lookup_insert_eq. Qed.

Lemma writeFileSync_other p c fs fs' k :
  writeFileSync p c fs = inr fs' -> k <> p -> fs' !! k = fs !! k.
Proof.
  intros (_ & _ & ->)%writeFileSync_inr Hk. by apply lookup_insert_ne.
Qed.

(** Writing a file keeps every directory. *)
Lemma writeFileSync_dir p c fs fs' k :
  writeFileSync p c fs = inr fs' ->
  fs !! k = Some Dir -> fs' !! k = Some Dir.
Proof.
  intros H Hk. destruct (decide (k = p)) as [->|Hne].
  - apply writeFileSync_inr in H as (H & _). unfold isDir in H.
    by rewrite Hk in H.
  - by rewrite (writeFileSync_other _ _ _ _ _ H Hne).
Qed.

End FsFacts.

(* ===================================================================== *)
(** * Paths: facts *)
(* ===================================================================== *)

Section PathFacts.

Lemma step_plain (p : Path.t) (seg : string) :
  plainSegment seg = true -> Path.step p seg = p ++ [seg].
Proof.
  unfold plainSegment, Path.step. intros H.
  apply andb_true_iff in H as [H H3]. apply andb_true_iff in H as [H1 H2].
  apply negb_true_iff in H1, H2, H3. by rewrite H1, H2, H3.
Qed.

Lemma fold_step_plain (segs : list string) (base : Path.t) :
  forallb plainSegment segs = true ->
  fold_left Path.step segs base = base ++ segs.
Proof.
  revert base. induction segs as [|seg segs IH]; intros base H; simpl.
  - by rewrite app_nil_r.
  - simpl in H. apply andb_true_iff in H as [H1 H2].
    rewrite step_plain, IH, <- app_assoc by done. done.
Qed.

(** Joining a plain relative path appends its components. *)
Lemma join_plain (base : Path.t) (rel : string) :
  plain rel = true -> Path.join base rel = base ++ Path.split rel.
Proof. apply fold_step_plain. Qed.

Lemma split_not_nil (s : string) : Path.split s <> [].
Proof.
  destruct s as [|c s]; [done|]. simpl.
  destruct (Ascii.eqb c "/"); [done|]. by destruct (Path.split s).
Qed.

Lemma dirname_app (base rel : Path.t) :
  rel <> [] -> Path.dirname (base ++ rel) = base ++ Path.dirname rel.
Proof. apply removelast_app. Qed.

Lemma manifest_plain (variables : TemplateVariables) :
  forallb (fun e => plain e.(path)) (getProjectStructure variables) = true.
Proof. vm_compute. reflexivity. Qed.

Lemma join_manifest (targetPath : Path.t) (variables : TemplateVariables) e :
  e ∈ getProjectStructure variables ->
  Path.join targetPath e.(path) = targetPath ++ Path.split e.(path).
Proof.
  intros He. apply join_plain.
  pose proof (manifest_plain variables) as H.
  rewrite forallb_forall in H. apply H, list_elem_of_In, He.
Qed.

Lemma emptyDirs_plain : forallb plain emptyDirs = true.
Proof. reflexivity. Qed.

Lemma join_emptyDir (targetPath : Path.t) (dir : string) :
  dir ∈ emptyDirs ->
  Path.join targetPath dir = targetPath ++ Path.split dir.
Proof.
  intros Hd. apply join_plain.
  pose proof emptyDirs_plain as H.
  rewrite forallb_forall in H. apply H, list_elem_of_In, Hd.
Qed.

Lemma placeholderOf_emptyDir (targetPath : Path.t) (dir : string) :
  dir ∈ emptyDirs ->
  placeholderOf targetPath dir
  = targetPath ++ (Path.split dir ++ [".gitkeep"]).
Proof.
  intros Hd. unfold placeholderOf.
  rewrite (join_emptyDir _ _ Hd), join_plain by reflexivity.
  by rewrite <- app_assoc.
Qed.

End PathFacts.

(* ===================================================================== *)
(** * The manifest path of the materialiser *)
(* ===================================================================== *)

Section Materialise.

Implicit Types (fs : gmap Path.t node).

Lemma createProjectStructure_unfold targetPath variables :
  createProjectStructure targetPath variables
  = (forEach emptyDirs (keepDir targetPath) ;;
     ensureDir (Path.join targetPath "public") ;;
     forEach (getProjectStructure variables) (putFile targetPath)).
Proof. reflexivity. Qed.

(** What survives a directory-and-file step. *)
Lemma step_frame (d p : Path.t) (c : string) fs fs' :
  (ensureDir d ;; writeFile p c) fs = (Done tt, fs') ->
  fs' !! p = Some (File c) /\
  (forall k c', fs !! k = Some (File c') -> k <> p -> fs' !! k = Some (File c')) /\
  (forall k, fs !! k = Some Dir -> fs' !! k = Some Dir) /\
  fs' !! d = Some Dir.
Proof.
  intros ([] & fs1 & H1 & H2)%bind_done.
  apply call_done in H1. apply call_done in H2.
  repeat split.
  - by eapply writeFileSync_self.
  - intros k c' Hk Hne.
    rewrite (writeFileSync_other _ _ _ _ _ H2 Hne).
    by eapply ensureDirSync_file.
  - intros k Hk. eapply writeFileSync_dir; [done|].
    by eapply ensureDirSync_dir.
  - eapply writeFileSync_dir; [done|]. by eapply ensureDirSync_self.
Qed.

Lemma putFile_loop (targetPath : Path.t) (l : list FileEntry) fs fs' :
  NoDup (map (fun e => Path.join targetPath e.(path)) l) ->
  forEach l (putFile targetPath) fs = (Done tt, fs') ->
  (forall e, e ∈ l ->
     fs' !! Path.join targetPath e.(path) = Some (File e.(content))) /\
  (forall k c, fs !! k = Some (File c) ->
     k ∉ map (fun e => Path.join targetPath e.(path)) l ->
     fs' !! k = Some (File c)) /\
  (forall k, fs !! k = Some Dir -> fs' !! k = Some Dir).
Proof.
  revert fs. induction l as [|x l IH]; intros fs Hnd Hrun.
  - injection Hrun as <-. split; [|split].
    + intros e He. by apply elem_of_nil in He.
    + by intros k c Hk _.
    + done.
  - apply forEach_cons_done in Hrun as (fs1 & Hx & Hl).
    simpl in Hnd. apply NoDup_cons in Hnd as [Hx_new Hnd].
    apply step_frame in Hx as (Hself & Hfile & Hdir & _).
    destruct (IH fs1 Hnd Hl) as (IH1 & IH2 & IH3).
    repeat split.
    + intros e [->|He]%elem_of_cons; [|by apply IH1].
      by apply IH2.
    + intros k c Hk Hout. simpl in Hout.
      apply not_elem_of_cons in Hout as [Hne Hout].
      apply IH2; [|done]. by apply Hfile.
    + intros k Hk. by apply IH3, Hdir.
Qed.

Lemma keepDir_loop (targetPath : Path.t) (l : list string) fs fs' :
  NoDup (map (placeholderOf targetPath) l) ->
  forEach l (keepDir targetPath) fs = (Done tt, fs') ->
  (forall dir, dir ∈ l ->
     fs' !! Path.join targetPath dir = Some Dir /\
     fs' !! placeholderOf targetPath dir = Some (File EmptyString)) /\
  (forall k c, fs !! k = Some (File c) ->
     k ∉ map (placeholderOf targetPath) l -> fs' !! k = Some (File c)) /\
  (forall k, fs !! k = Some Dir -> fs' !! k = Some Dir).
Proof.
  revert fs. induction l as [|x l IH]; intros fs Hnd Hrun.
  - injection Hrun as <-. split; [|split].
    + intros e He. by apply elem_of_nil in He.
    + by intros k c Hk _.
    + done.
  - apply forEach_cons_done in Hrun as (fs1 & Hx & Hl).
    simpl in Hnd. apply NoDup_cons in Hnd as [Hx_new Hnd].
    apply step_frame in Hx as (Hself & Hfile & Hdir & Hd).
    destruct (IH fs1 Hnd Hl) as (IH1 & IH2 & IH3).
    split; [|split].
    + intros dir [->|He]%elem_of_cons; [|by apply IH1].
      split; [by apply IH3 | by apply IH2].
    + intros k c Hk Hout. simpl in Hout.
      apply not_elem_of_cons in Hout as [Hne Hout].
      apply IH2; [|done]. by apply Hfile.
    + intros k Hk. by apply IH3, Hdir.
Qed.

(** The paths of the manifest and of the placeholders, below the target. *)
Lemma manifest_paths targetPath variables :
  map (fun e => Path.join targetPath e.(path)) (getProjectStructure variables)
  = map (app targetPath)
        (map (fun e => Path.split e.(path)) (getProjectStructure variables)).
Proof.
  rewrite map_map. apply map_ext_in. intros e He.
  apply (join_manifest _ variables), list_elem_of_In, He.
Qed.

Lemma placeholder_paths targetPath :
  map (placeholderOf targetPath) emptyDirs
  = map (app targetPath)
        (map (fun dir => Path.split dir ++ [".gitkeep"]) emptyDirs).
Proof.
  rewrite map_map. apply map_ext_in. intros d Hd.
  apply placeholderOf_emptyDir, list_elem_of_In, Hd.
Qed.

Lemma manifest_NoDup targetPath variables :
  NoDup (map (fun e => Path.join targetPath e.(path))
             (getProjectStructure variables)).
Proof.
  rewrite manifest_paths. apply (NoDup_fmap_2 (app targetPath)).
  apply (bool_decide_unpack _). vm_compute. exact I.
Qed.

Lemma placeholder_NoDup targetPath :
  NoDup (map (placeholderOf targetPath) emptyDirs).
Proof.
  rewrite placeholder_paths. apply (NoDup_fmap_2 (app targetPath)).
  apply (bool_decide_unpack _). vm_compute. exact I.
Qed.

(** No file of the manifest is the placeholder of an empty directory. *)
Lemma placeholder_not_manifest targetPath variables dir :
  dir ∈ emptyDirs ->
  placeholderOf targetPath dir
    ∉ map (fun e => Path.join targetPath e.(path))
          (getProjectStructure variables).
Proof.
  intros Hd. rewrite manifest_paths, (placeholderOf_emptyDir _ _ Hd).
  intros (rel & Heq & Hrel)%list_elem_of_fmap.
  apply app_inv_head in Heq. subst rel. revert dir Hd Hrel.
  apply (proj1 (Forall_forall
    (fun dir => (Path.split dir ++ [".gitkeep"])
                  ∉ map (fun e => Path.split e.(path))
                        (getProjectStructure variables))
    emptyDirs)).
  apply (bool_decide_unpack _). vm_compute. exact I.
Qed.

End Materialise.

Lemma run_done {S A : Type} (r : result A * S) (a : A) :
  r.1 = Done a -> r = (Done a, r.2).
Proof. destruct r as [r s]. simpl. by intros ->. Qed.

(** The three stages of a completed run. *)
Lemma createProjectStructure_stages (targetPath : Path.t)
    (variables : TemplateVariables) (fs fs' : gmap Path.t node) :
  createProjectStructure targetPath variables fs = (Done tt, fs') ->
  (forall e, e ∈ getProjectStructure variables ->
     fs' !! Path.join targetPath e.(path) = Some (File e.(content))) /\
  (forall k c, k ∉ map (fun e => Path.join targetPath e.(path))
                       (getProjectStructure variables) ->
     (exists dir, dir ∈ emptyDirs /\ k = placeholderOf targetPath dir
                  /\ c = EmptyString) ->
     fs' !! k = Some (File c)) /\
  (forall dir, dir ∈ emptyDirs -> fs' !! Path.join targetPath dir = Some Dir).
Proof.
  rewrite createProjectStructure_unfold.
  intros ([] & fs1 & Hdirs & ([] & fs2 & Hpub & Hfiles)%bind_done)%bind_done.
  apply call_done in Hpub.
  apply keepDir_loop in Hdirs as (Hkept & _ & _);
    [|apply placeholder_NoDup].
  apply putFile_loop in Hfiles as (Hput & Hfile & Hdir);
    [|apply manifest_NoDup].
  split; [exact Hput|]. split.
  - intros k c Hk (dir & Hd & -> & ->). destruct (Hkept dir Hd) as [_ H2].
    apply Hfile; [by eapply ensureDirSync_file | exact Hk].
  - intros dir Hd. destruct (Hkept dir Hd) as [H1 _].
    by eapply Hdir, ensureDirSync_dir.
Qed.

(** C4. When the manifest path of the materialiser ([createProjectStructure])
    completes on a target directory, whatever the file system was before,
    every entry of the manifest is a file under the target with exactly the
    content of the entry, and every empty directory of the list is a
    directory that holds a [.gitkeep] of zero bytes. *)
Theorem manifest_materialised (targetPath : Path.t)
    (variables : TemplateVariables) (fs fs' : gmap Path.t node) :
  createProjectStructure targetPath variables fs = (Done tt, fs') ->
  (forall e, e ∈ getProjectStructure variables ->
     fs' !! Path.join targetPath e.(path) = Some (File e.(content))) /\
  (forall dir, dir ∈ emptyDirs ->
     fs' !! Path.join targetPath dir = Some Dir /\
     fs' !! placeholderOf targetPath dir = Some (File EmptyString)).
Proof.
  intros Hrun.
  apply createProjectStructure_stages in Hrun as (Hfiles & Hkeep & Hdirs).
  split; [exact Hfiles|].
  intros dir Hd. split; [by apply Hdirs|].
  apply Hkeep; [by apply placeholder_not_manifest|].
  by exists dir.
Qed.

(** The instance for demo-app and pnpm, written to [/home/u/demo-app] on the
    example machine: the run completes. *)
Lemma manifest_materialised_witness :
  let fs' := (createProjectStructure Examples.target Examples.demo
                Examples.machine).2 in
  (createProjectStructure Examples.target Examples.demo Examples.machine).1
  = Done tt /\
  (forall e, e ∈ getProjectStructure Examples.demo ->
     fs' !! Path.join Examples.target e.(path) = Some (File e.(content))) /\
  (forall dir, dir ∈ emptyDirs ->
     fs' !! Path.join Examples.target dir = Some Dir /\
     fs' !! placeholderOf Examples.target dir = Some (File EmptyString)).
Proof.
  cbv zeta.
  assert ((createProjectStructure Examples.target Examples.demo
             Examples.machine).1 = Done tt) as H by (vm_compute; reflexivity).
  split; [exact H|].
  apply (manifest_materialised Examples.target Examples.demo Examples.machine).
  apply run_done. exact H.
Defined.

(* ===================================================================== *)
(** * What the manifest says *)
(* ===================================================================== *)

Section ManifestContent.

Import Str.

(** A character of a project name is written as it is. *)
Lemma escape_name_char (c : ascii) :
  isNameChar c = true -> escape c = String c EmptyString.
Proof.
  intros H. destruct c as [[] [] [] [] [] [] [] []];
    first [discriminate H | reflexivity].
Qed.

Lemma escapeAll_name (s : string) :
  allChars isNameChar s = true -> escapeAll s = s.
Proof.
  induction s as [|c s IH]; [done|]. cbn [allChars escapeAll].
  intros [Hc Hs]%andb_true_iff.
  by rewrite (escape_name_char c Hc), (IH Hs).
Qed.

(** The first member of a printed object with two members or more. *)
Lemma stringify_first_member (k : string) (v m : json) (k' : string)
    (members : list (string * json)) :
  includes (stringify (JObject ((k, v) :: (k', m) :: members)))
           (quote k +:+ ": " +:+ serialize "  " v) = true.
Proof.
  change (stringify (JObject ((k, v) :: (k', m) :: members)))
    with ("{" +:+ nl +:+ EmptyString +:+ "  "
          +:+ ((quote k +:+ ": " +:+ serialize "  " v)
               +:+ ("," +:+ nl +:+ EmptyString +:+ "  ")
               +:+ String.concat ("," +:+ nl +:+ EmptyString +:+ "  ")
                     (map (fun kv => quote kv.1 +:+ ": " +:+ serialize "  " kv.2)
                          ((k', m) :: members)))
          +:+ nl +:+ EmptyString +:+ "}").
  do 4 apply includes_later.
  rewrite append_assoc. apply includes_here.
Qed.

Lemma package_json_name (name : string) :
  matchesName name = true ->
  includes (Manifest.content_package_json name)
           (dq +:+ "name" +:+ dq +:+ ": " +:+ dq +:+ name +:+ dq) = true.
Proof.
  intros [_ H]%andb_true_iff.
  unfold Manifest.content_package_json.
  pose proof (stringify_first_member "name" (JString name)) as Hfirst.
  cbn [serialize] in Hfirst. unfold quote in Hfirst.
  rewrite (escapeAll_name name H) in Hfirst.
  replace (dq +:+ "name" +:+ dq +:+ ": " +:+ dq +:+ name +:+ dq)
    with ((dq +:+ escapeAll "name" +:+ dq) +:+ ": " +:+ dq +:+ name +:+ dq)
    by (vm_compute; reflexivity).
  apply Hfirst.
Qed.

Lemma readme_install (name installCmd devCmd : string) :
  includes (Manifest.content_README_md name installCmd devCmd) installCmd = true.
Proof. apply (includes_line [_; _; _; _; _; _; _; _; _]). Qed.

Lemma readme_dev (name installCmd devCmd : string) :
  includes (Manifest.content_README_md name installCmd devCmd) devCmd = true.
Proof.
  apply (includes_line [_; _; _; _; _; _; _; _; _; _; _; _; _; _; _]).
Qed.

End ManifestContent.

(** C6. For valid template variables the package descriptor of the manifest
    holds the project name in its name field and the readme holds the install
    command and the dev command that getInstallCommand and getRunCommand give
    for the package manager; once the manifest path of the materialiser has
    completed, both files are on disk with that content, and the directories
    src/shared/constants, src/stores and src/tests/e2e each hold a placeholder
    file.  (The instance for demo-app and pnpm is the lemma that follows.) *)
Theorem manifest_carries_name_and_commands (variables : TemplateVariables) :
  validVariables variables ->
  exists pkg readme installCmd devCmd,
    {| path := "package.json"; content := pkg |} ∈ getProjectStructure variables /\
    {| path := "README.md"; content := readme |} ∈ getProjectStructure variables /\
    Str.includes pkg
      (Str.dq +:+ "name" +:+ Str.dq +:+ ": "
       +:+ Str.dq +:+ variables.(projectName) +:+ Str.dq) = true /\
    getInstallCommand variables.(packageManager) = Some installCmd /\
    getRunCommand variables.(packageManager) "dev" = Some devCmd /\
    Str.includes readme installCmd = true /\
    Str.includes readme devCmd = true /\
    forall (targetPath : Path.t) (fs fs' : gmap Path.t node),
      createProjectStructure targetPath variables fs = (Done tt, fs') ->
      fs' !! Path.join targetPath "package.json" = Some (File pkg) /\
      fs' !! Path.join targetPath "README.md" = Some (File readme) /\
      forall dir,
        dir ∈ ["src/shared/constants"; "src/stores"; "src/tests/e2e"] ->
        fs' !! placeholderOf targetPath dir = Some (File EmptyString).
Proof.
  destruct variables as [name pm]. intros [Hname Hpm]. cbn in Hname, Hpm.
  assert (exists installCmd devCmd,
             getInstallCommand pm = Some installCmd /\
             getRunCommand pm "dev" = Some devCmd /\
             {| path := "README.md";
                content := Manifest.content_README_md name installCmd devCmd |}
               ∈ getProjectStructure {| projectName := name; packageManager := pm |})
    as (installCmd & devCmd & Hi & Hd & Hreadme).
  { supported_cases Hpm; do 2 eexists;
      (split; [reflexivity | split; [reflexivity|]]);
      apply list_elem_of_In; do 5 right; left; reflexivity. }
  assert ({| path := "package.json";
             content := Manifest.content_package_json name |}
            ∈ getProjectStructure {| projectName := name; packageManager := pm |})
    as Hpkg by (apply list_elem_of_In; left; reflexivity).
  exists (Manifest.content_package_json name),
         (Manifest.content_README_md name installCmd devCmd),
         installCmd, devCmd.
  split; [exact Hpkg|]. split; [exact Hreadme|].
  split; [by apply package_json_name|].
  split; [exact Hi|]. split; [exact Hd|].
  split; [apply readme_install|]. split; [apply readme_dev|].
  intros targetPath fs fs' Hrun.
  apply createProjectStructure_stages in Hrun as (Hfiles & Hkeep & _).
  split; [exact (Hfiles _ Hpkg)|]. split; [exact (Hfiles _ Hreadme)|].
  intros dir Hdir.
  assert (dir ∈ emptyDirs) as Hempty.
  { revert dir Hdir. apply Forall_forall.
    apply (bool_decide_unpack _). vm_compute. exact I. }
  apply Hkeep; [by apply placeholder_not_manifest|]. by exists dir.
Qed.

(** The scenario of demo-app with pnpm: the descriptor names demo-app, the
    readme holds [pnpm install] and [pnpm dev], and the three directories
    hold their placeholder. *)
Lemma manifest_carries_name_and_commands_witness :
  validVariables Examples.demo /\
  let fs' := (createProjectStructure Examples.target Examples.demo
                Examples.machine).2 in
  exists pkg readme,
    fs' !! ["home"; "u"; "demo-app"; "package.json"] = Some (File pkg) /\
    Str.includes pkg (Str.qs [EmptyString; "name"; ": "; "demo-app"; EmptyString])
      = true /\
    fs' !! ["home"; "u"; "demo-app"; "README.md"] = Some (File readme) /\
    Str.includes readme "pnpm install" = true /\
    Str.includes readme "pnpm dev" = true /\
    fs' !! ["home"; "u"; "demo-app"; "src"; "shared"; "constants"; ".gitkeep"]
      = Some (File EmptyString) /\
    fs' !! ["home"; "u"; "demo-app"; "src"; "stores"; ".gitkeep"]
      = Some (File EmptyString) /\
    fs' !! ["home"; "u"; "demo-app"; "src"; "tests"; "e2e"; ".gitkeep"]
      = Some (File EmptyString).
Proof.
  assert (validVariables Examples.demo) as Hvalid.
  { split; [reflexivity|]. apply (bool_decide_unpack _). vm_compute. exact I. }
  split; [exact Hvalid|].
  destruct (manifest_carries_name_and_commands Examples.demo Hvalid)
    as (pkg & readme & installCmd & devCmd
        & _ & _ & Hname & Hi & Hd & Hinstall & Hdev & Hdisk).
  vm_compute in Hi. injection Hi as <-.
  vm_compute in Hd. injection Hd as <-.
  destruct (Hdisk Examples.target Examples.machine
              (createProjectStructure Examples.target Examples.demo
                 Examples.machine).2)
    as (Hpkg & Hreadme & Hkeep).
  { apply run_done. vm_compute. reflexivity. }
  exists pkg, readme.
  split; [exact Hpkg|]. split; [exact Hname|]. split; [exact Hreadme|].
  split; [exact Hinstall|]. split; [exact Hdev|].
  split; [|split].
  - apply (Hkeep "src/shared/constants"). apply list_elem_of_In. simpl. tauto.
  - apply (Hkeep "src/stores"). apply list_elem_of_In. simpl. tauto.
  - apply (Hkeep "src/tests/e2e"). apply list_elem_of_In. simpl. tauto.
Defined.

(* ===================================================================== *)
(** * The command *)
(* ===================================================================== *)

(** One step of a run: the monad unfolded, the projections of a built world
    reduced. *)
Ltac run :=
  cbv beta iota zeta delta [bind gets emit modify ret throw tryCatch onFiles negb];
  cbn [files trace fst snd].

Lemma resolveOptions_run (env : Env) (projectName : option string)
    (options : Options) (w : World) :
  exists tr,
    resolveOptions env projectName options w
    = (Done (chosenOptions env projectName options),
       {| files := w.(files); trace := w.(trace) ++ tr |}) /\
    forallb asks tr = true.
Proof.
  destruct w as [fs tr0]. unfold resolveOptions, chosenOptions,
    chosenProjectName, chosenPackageManager.
  destruct (yes options).
  - exists []. rewrite app_nil_r. split; reflexivity.
  - destruct (given (flagPackageManager options)), (given projectName); run;
      first [ exists []; rewrite app_nil_r; split; reflexivity
            | eexists; rewrite <- ?app_assoc; split; reflexivity ].
Qed.

Lemma action_run (env : Env) (projectName : option string)
    (options : Options) (w : World) :
  exists tr,
    action env projectName options w
    = createProject env (chosenOptions env projectName options)
        {| files := w.(files); trace := w.(trace) ++ welcome :: tr |} /\
    forallb asks tr = true.
Proof.
  destruct (resolveOptions_run env projectName options
              {| files := w.(files); trace := w.(trace) ++ [welcome] |})
    as (tr & Hrun & Hasks).
  exists tr. split; [|exact Hasks].
  unfold action, showWelcome. run. fold welcome.
  cbn [files trace] in Hrun. rewrite Hrun.
  by rewrite <- app_assoc.
Qed.

Lemma createProject_declined (env : Env) (o : CreateProjectOptions) (w : World) :
  existsSync w.(files) (Path.join env.(cwd) o.(optProjectName)) = true ->
  default false o.(skipPrompts) = false ->
  env.(answerOverwrite) = false ->
  exists question,
    createProject env o w
    = (Done tt, {| files := w.(files);
                   trace := w.(trace) ++ [Prompt question; cancelled] |}).
Proof.
  intros Hpresent Hskip Hanswer. eexists.
  unfold createProject. run. rewrite Hpresent, Hskip. run.
  rewrite Hanswer. run. rewrite <- app_assoc. reflexivity.
Qed.

Lemma asks_not_spawns (tr : list event) :
  forallb asks tr = true -> forallb (fun e => negb (spawns e)) tr = true.
Proof.
  induction tr as [|e tr IH]; [done|]. simpl.
  intros [He Htr]%andb_true_iff. rewrite (IH Htr). by destruct e.
Qed.

(** C7. When the target already exists and the user declines to overwrite
    it, the process ends with status 0 and the file system is what it was:
    nothing is created, removed or written, no child process is started, and
    the last thing printed is the cancellation. *)
Theorem decline_overwrite_changes_nothing (env : Env)
    (projectName : option string) (options : Options) (w : World) :
  options.(yes) = false ->
  existsSync w.(files)
    (Path.join env.(cwd) (chosenProjectName env projectName options)) = true ->
  env.(answerOverwrite) = false ->
  exists tr,
    main env projectName options w
    = (0, {| files := w.(files); trace := w.(trace) ++ tr |}) /\
    forallb (fun e => negb (spawns e)) tr = true /\
    last tr = Some cancelled.
Proof.
  intros Hyes Hpresent Hanswer.
  destruct (action_run env projectName options w) as (tr & Haction & Hasks).
  destruct (createProject_declined env (chosenOptions env projectName options)
              {| files := w.(files); trace := w.(trace) ++ welcome :: tr |})
    as (question & Hrun); [exact Hpresent | simpl; by rewrite Hyes | exact Hanswer |].
  exists (welcome :: tr ++ [Prompt question; cancelled]).
  unfold main. rewrite Haction, Hrun. cbn [files trace].
  split; [|split].
  - by rewrite <- app_assoc.
  - cbn [forallb spawns negb andb]. rewrite forallb_app.
    by rewrite (asks_not_spawns tr Hasks).
  - rewrite app_comm_cons.
    change [Prompt question; cancelled] with ([Prompt question] ++ [cancelled]).
    rewrite app_assoc. apply last_snoc.
Qed.

(** A run that asks nothing and does not install. *)
Lemma createProject_unattended (env : Env) (o : CreateProjectOptions) (w : World) :
  default false o.(skipPrompts) = true ->
  default false o.(autoInstall) = false ->
  exists tr,
    (createProject env o w).2.(trace) = w.(trace) ++ tr /\
    forallb (fun e => negb (spawns e)) tr = true /\
    ((createProject env o w).1 = Done tt -> exists tr0, tr = tr0 ++ nextSteps o).
Proof.
  intros Hskip Hauto.
  unfold createProject, nextSteps. run. rewrite Hskip, Hauto. run.
  destruct (existsSync _ _); run;
    (destruct (copyTemplates _ _ _ _) as [[[]|e1] fs1]; run;
     [ destruct (generateFiles _ _ _) as [[[]|e2] fs2]; run | ]);
    rewrite <- !app_assoc; cbn [app];
    (eexists; split; [reflexivity | split; [reflexivity|]]);
    intros Hdone; try discriminate Hdone.
  - eexists [_; _; _; _; _; _; _]. reflexivity.
  - eexists [_; _; _; _; _]. reflexivity.
Qed.

Lemma main_trace (env : Env) (projectName : option string)
    (options : Options) (w : World) :
  exists asked,
    forallb asks asked = true /\
    let r := createProject env (chosenOptions env projectName options)
               {| files := w.(files); trace := w.(trace) ++ welcome :: asked |} in
    main env projectName options w
    = match r.1 with
      | Done _ => (0, r.2)
      | Thrown e =>
          (1, {| files := r.2.(files);
                 trace := r.2.(trace)
                          ++ [LogError (Str.nl +:+ "❌ Error creating project:");
                              LogThrown e] |})
      end.
Proof.
  destruct (action_run env projectName options w) as (tr & Haction & Hasks).
  exists tr. split; [exact Hasks|]. unfold main. rewrite Haction.
  by destruct (createProject _ _ _) as [[[]|e] w'].
Qed.

(** C10. With --yes, createProject is called with autoInstall false: the
    run starts no child process, so no installation is attempted, and a run
    that completes prints the install command among the next steps.  (An
    installation is therefore attempted in interactive mode only.) *)
Theorem yes_never_installs (env : Env) (projectName : option string)
    (options : Options) (w : World) :
  options.(yes) = true ->
  (chosenOptions env projectName options).(autoInstall) = Some false /\
  (exists asked,
     action env projectName options w
     = createProject env (chosenOptions env projectName options)
         {| files := w.(files); trace := w.(trace) ++ welcome :: asked |}) /\
  exists tr,
    (main env projectName options w).2.(trace) = w.(trace) ++ tr /\
    forallb (fun e => negb (spawns e)) tr = true /\
    ((main env projectName options w).1 = 0 ->
     exists tr0,
       tr = tr0
            ++ [ Log ("🎉 Ready to start coding!" +:+ Str.nl);
                 Log "Next steps:";
                 Log ("  cd " +:+ chosenProjectName env projectName options);
                 Log ("  " +:+ interpolate
                        (getInstallCommand (chosenPackageManager env options)));
                 Log ("  " +:+ interpolate
                        (getRunCommand (chosenPackageManager env options) "dev")
                      +:+ Str.nl) ]).
Proof.
  intros Hyes.
  split; [by cbn; rewrite Hyes|].
  split.
  { destruct (action_run env projectName options w) as (tr & Haction & _).
    by exists tr. }
  destruct (main_trace env projectName options w) as (asked & Hasks & Hmain).
  cbv zeta in Hmain.
  destruct (createProject_unattended env (chosenOptions env projectName options)
              {| files := w.(files); trace := w.(trace) ++ welcome :: asked |})
    as (tr & Htrace & Hquiet & Hsteps);
    [by cbn; rewrite Hyes | by cbn; rewrite Hyes |].
  cbn [files trace] in Htrace.
  rewrite Hmain.
  destruct (createProject _ _ _) as [[[]|e] w'] eqn:Hrun; cbn [fst snd] in *.
  - exists (welcome :: asked ++ tr). split; [|split].
    + rewrite Htrace, <- app_assoc. reflexivity.
    + cbn [forallb spawns negb andb]. rewrite forallb_app.
      by rewrite (asks_not_spawns asked Hasks), Hquiet.
    + intros _. destruct (Hsteps eq_refl) as (tr0 & ->).
      exists (welcome :: asked ++ tr0).
      unfold nextSteps. cbn [chosenOptions autoInstall optProjectName
                              optPackageManager]. rewrite Hyes.
      cbn [negb default from_option id app]. by rewrite <- app_assoc.
  - exists (welcome :: asked ++ tr
            ++ [LogError (Str.nl +:+ "❌ Error creating project:"); LogThrown e]).
    split; [|split].
    + cbn [trace files]. rewrite Htrace, <- !app_assoc. reflexivity.
    + cbn [forallb spawns negb andb]. rewrite !forallb_app.
      by rewrite (asks_not_spawns asked Hasks), Hquiet.
    + discriminate.
Qed.

Lemma execSync_fails (env : Env) (command : option string) (dir : Path.t)
    (w : World) :
  (forall c, command = Some c -> (env.(shell) c dir w.(files)).1 = false) ->
  exists e w', execSync env command dir w = (Thrown e, w').
Proof.
  intros Hfail. destruct command as [c|]; unfold execSync; run.
  - specialize (Hfail c eq_refl).
    destruct (shell env c dir (files w)) as [ok fs']. cbn in Hfail. subst ok.
    by eexists _, _.
  - by eexists _, _.
Qed.

Lemma snoc6 {A : Type} (l : list A) (a b c d e f : A) :
  (((((l ++ [a]) ++ [b]) ++ [c]) ++ [d]) ++ [e]) ++ [f] = l ++ [a; b; c; d; e; f].
Proof. by rewrite <- !app_assoc. Qed.

(** The installation step of a run whose child process fails, or cannot be
    started: the exception is caught and the warning printed. *)
Lemma createProject_install_fails (env : Env) (o : CreateProjectOptions)
    (w : World) (fs1 fs2 : gmap Path.t node) :
  default false o.(autoInstall) = true ->
  (existsSync w.(files) (projectPathOf env o) = true ->
   default false o.(skipPrompts) = true \/ env.(answerOverwrite) = true) ->
  copyTemplates (templatesPathOf env) (projectPathOf env o) (variablesOf o)
    (cleared w.(files) (projectPathOf env o)) = (Done tt, fs1) ->
  generateFiles (projectPathOf env o) (variablesOf o) fs1 = (Done tt, fs2) ->
  (forall c, getInstallCommand o.(optPackageManager) = Some c ->
             (env.(shell) c (projectPathOf env o) fs2).1 = false) ->
  exists tr0 w',
    createProject env o w = (Done tt, w') /\
    w'.(trace) = tr0 ++ installWarning o ++ nextSteps o.
Proof.
  intros Hauto Hgo Hcopy Hgen Hfail.
  unfold projectPathOf, templatesPathOf, variablesOf, cleared in *.
  assert (forall tr, exists e w',
    execSync env (getInstallCommand (optPackageManager o))
      (Path.join (cwd env) (optProjectName o)) {| files := fs2; trace := tr |}
    = (Thrown e, w')) as Hexec.
  { intros tr. apply execSync_fails. exact Hfail. }
  unfold createProject, nextSteps, installWarning. run. rewrite Hauto. run.
  revert Hgo Hcopy.
  destruct (existsSync _ _); intros Hgo Hcopy.
  - destruct (Hgo eq_refl) as [Hskip|Hanswer].
    + rewrite Hskip. run. rewrite Hcopy. run. rewrite Hgen. run.
      match goal with |- context [execSync _ _ _ {| files := _; trace := ?t |}] =>
        destruct (Hexec t) as (e & [fs' tr'] & ->) end.
      run. eexists _, _. split; [reflexivity|]. cbn [trace app]. apply snoc6.
    + destruct (default false (skipPrompts o)); run; rewrite ?Hanswer; run;
        rewrite Hcopy; run; rewrite Hgen; run;
        match goal with |- context [execSync _ _ _ {| files := _; trace := ?t |}] =>
          destruct (Hexec t) as (e & [fs' tr'] & ->) end;
        run; eexists _, _; (split; [reflexivity|]); cbn [trace app]; apply snoc6.
  - run. rewrite Hcopy. run. rewrite Hgen. run.
    match goal with |- context [execSync _ _ _ {| files := _; trace := ?t |}] =>
      destruct (Hexec t) as (e & [fs' tr'] & ->) end.
    run. eexists _, _. split; [reflexivity|]. cbn [trace app]. apply snoc6.
Qed.

(** The child process is started with the install command, in the project
    directory, whatever its outcome. *)
Lemma execSync_spawns (env : Env) (c : string) (dir : Path.t) (w : World) :
  exists r fs',
    execSync env (Some c) dir w
    = (r, {| files := fs'; trace := w.(trace) ++ [Spawn c dir] |}).
Proof.
  unfold execSync. run.
  destruct (shell env c dir (files w)) as [ok fs']. by eexists _, _.
Qed.

(** An interactive run whose project is created starts the installer. *)
Lemma createProject_attempts_install (env : Env) (o : CreateProjectOptions)
    (w : World) (fs1 fs2 : gmap Path.t node) (c : string) :
  default false o.(autoInstall) = true ->
  (existsSync w.(files) (projectPathOf env o) = true ->
   default false o.(skipPrompts) = true \/ env.(answerOverwrite) = true) ->
  copyTemplates (templatesPathOf env) (projectPathOf env o) (variablesOf o)
    (cleared w.(files) (projectPathOf env o)) = (Done tt, fs1) ->
  generateFiles (projectPathOf env o) (variablesOf o) fs1 = (Done tt, fs2) ->
  getInstallCommand o.(optPackageManager) = Some c ->
  Spawn c (projectPathOf env o) ∈ (createProject env o w).2.(trace).
Proof.
  intros Hauto Hgo Hcopy Hgen Hcmd.
  unfold projectPathOf, templatesPathOf, variablesOf, cleared in *.
  assert (forall tr, exists r fs',
    execSync env (getInstallCommand (optPackageManager o))
      (Path.join (cwd env) (optProjectName o)) {| files := fs2; trace := tr |}
    = (r, {| files := fs';
             trace := tr ++ [Spawn c (Path.join (cwd env) (optProjectName o))] |}))
    as Hexec.
  { intros tr. rewrite Hcmd. apply execSync_spawns. }
  assert (forall (tr : list event) e, Spawn c (Path.join (cwd env) (optProjectName o)) ∈ tr ->
            Spawn c (Path.join (cwd env) (optProjectName o)) ∈ tr ++ [e]) as Hkeep.
  { intros tr e H. apply elem_of_app. by left. }
  assert (forall tr : list event,
            Spawn c (Path.join (cwd env) (optProjectName o))
              ∈ tr ++ [Spawn c (Path.join (cwd env) (optProjectName o))]) as Hhere.
  { intros tr. apply elem_of_app. right. by left. }
  unfold createProject. run. rewrite Hauto. run.
  revert Hgo Hcopy.
  destruct (existsSync _ _); intros Hgo Hcopy;
    [ destruct (Hgo eq_refl) as [Hskip|Hanswer];
      [ rewrite Hskip | destruct (default false (skipPrompts o)); run; rewrite ?Hanswer ]
    | ];
    run; rewrite Hcopy; run; rewrite Hgen; run;
    match goal with |- context [execSync _ _ _ {| files := _; trace := ?t |}] =>
      destruct (Hexec t) as ([[]|e] & fs' & ->) end;
    run; repeat (first [apply Hhere | apply Hkeep]).
Qed.

(** C8. In a run where the materialiser and the substitution pass succeed and
    the installer fails (the child exits with another status than zero, or
    cannot be started), the failure is caught: the spinner fails with a
    warning, the install command to run by hand is printed, the run goes on
    to the next steps, and the process ends with status 0. *)
Theorem install_failure_is_a_warning (env : Env) (projectName : option string)
    (options : Options) (w : World) (fs1 fs2 : gmap Path.t node) :
  options.(yes) = false ->
  (existsSync w.(files)
     (projectPathOf env (chosenOptions env projectName options)) = true ->
   env.(answerOverwrite) = true) ->
  copyTemplates (templatesPathOf env)
    (projectPathOf env (chosenOptions env projectName options))
    (variablesOf (chosenOptions env projectName options))
    (cleared w.(files) (projectPathOf env (chosenOptions env projectName options)))
  = (Done tt, fs1) ->
  generateFiles (projectPathOf env (chosenOptions env projectName options))
    (variablesOf (chosenOptions env projectName options)) fs1
  = (Done tt, fs2) ->
  (forall c,
     getInstallCommand (chosenPackageManager env options) = Some c ->
     (env.(shell) c (projectPathOf env (chosenOptions env projectName options))
        fs2).1 = false) ->
  (main env projectName options w).1 = 0 /\
  (exists tr0,
     (main env projectName options w).2.(trace)
     = tr0
       ++ [ SpinnerFail "Dependencies installation failed (you can install manually)";
            Log ("  Run: " +:+ interpolate
                   (getInstallCommand (chosenPackageManager env options)));
            Log ("🎉 Ready to start coding!" +:+ Str.nl);
            Log "Next steps:";
            Log ("  cd " +:+ chosenProjectName env projectName options);
            Log ("  " +:+ interpolate
                   (getRunCommand (chosenPackageManager env options) "dev")
                 +:+ Str.nl) ]) /\
  (supported (chosenPackageManager env options) ->
   interpolate (getInstallCommand (chosenPackageManager env options))
   = chosenPackageManager env options +:+ " install").
Proof.
  intros Hyes Hgo Hcopy Hgen Hfail.
  destruct (main_trace env projectName options w) as (asked & _ & Hmain).
  cbv zeta in Hmain.
  destruct (createProject_install_fails env
              (chosenOptions env projectName options)
              {| files := w.(files); trace := w.(trace) ++ welcome :: asked |}
              fs1 fs2)
    as (tr0 & w' & Hrun & Htrace); try done.
  - cbn. by rewrite Hyes.
  - intros H. right. by apply Hgo.
  - rewrite Hmain, Hrun. cbn [fst snd].
    split; [reflexivity|]. split.
    + exists tr0. rewrite Htrace. unfold installWarning, nextSteps.
      cbn [chosenOptions autoInstall optProjectName optPackageManager].
      rewrite Hyes. reflexivity.
    + intros Hpm. supported_cases Hpm; reflexivity.
Qed.

(** The user declines on a machine where [demo-app] exists. *)
Lemma decline_overwrite_changes_nothing_witness :
  existsSync Examples.occupied.(files)
    (Path.join Examples.user.(cwd)
       (chosenProjectName Examples.user None Examples.interactive)) = true /\
  exists tr,
    main Examples.user None Examples.interactive Examples.occupied
    = (0, {| files := Examples.occupied.(files);
             trace := Examples.occupied.(trace) ++ tr |}) /\
    forallb (fun e => negb (spawns e)) tr = true /\
    last tr = Some cancelled.
Proof.
  split; [vm_compute; reflexivity|].
  apply (decline_overwrite_changes_nothing Examples.user None
           Examples.interactive Examples.occupied).
  - reflexivity.
  - vm_compute. reflexivity.
  - reflexivity.
Defined.

(** The run of [demo-app -p pnpm -y]. *)
Lemma yes_never_installs_witness :
  (chosenOptions Examples.user (Some "demo-app") Examples.unattended).(autoInstall)
  = Some false /\
  (exists asked,
     action Examples.user (Some "demo-app") Examples.unattended Examples.start
     = createProject Examples.user
         (chosenOptions Examples.user (Some "demo-app") Examples.unattended)
         {| files := Examples.start.(files);
            trace := Examples.start.(trace) ++ welcome :: asked |}) /\
  exists tr,
    (main Examples.user (Some "demo-app") Examples.unattended Examples.start).2.(trace)
    = Examples.start.(trace) ++ tr /\
    forallb (fun e => negb (spawns e)) tr = true /\
    ((main Examples.user (Some "demo-app") Examples.unattended Examples.start).1 = 0 ->
     exists tr0,
       tr = tr0
            ++ [ Log ("🎉 Ready to start coding!" +:+ Str.nl);
                 Log "Next steps:";
                 Log ("  cd " +:+ chosenProjectName Examples.user (Some "demo-app")
                                    Examples.unattended);
                 Log ("  " +:+ interpolate
                        (getInstallCommand
                           (chosenPackageManager Examples.user Examples.unattended)));
                 Log ("  " +:+ interpolate
                        (getRunCommand
                           (chosenPackageManager Examples.user Examples.unattended)
                           "dev")
                      +:+ Str.nl) ]).
Proof.
  apply (yes_never_installs Examples.user (Some "demo-app") Examples.unattended
           Examples.start).
  reflexivity.
Defined.

(** The interactive run of the example user, whose installer fails. *)
Lemma install_failure_is_a_warning_witness :
  (main Examples.user None Examples.interactive Examples.start).1 = 0 /\
  (exists tr0,
     (main Examples.user None Examples.interactive Examples.start).2.(trace)
     = tr0
       ++ [ SpinnerFail "Dependencies installation failed (you can install manually)";
            Log ("  Run: " +:+ interpolate
                   (getInstallCommand
                      (chosenPackageManager Examples.user Examples.interactive)));
            Log ("🎉 Ready to start coding!" +:+ Str.nl);
            Log "Next steps:";
            Log ("  cd " +:+ chosenProjectName Examples.user None Examples.interactive);
            Log ("  " +:+ interpolate
                   (getRunCommand
                      (chosenPackageManager Examples.user Examples.interactive) "dev")
                 +:+ Str.nl) ]) /\
  (supported (chosenPackageManager Examples.user Examples.interactive) ->
   interpolate (getInstallCommand
                  (chosenPackageManager Examples.user Examples.interactive))
   = chosenPackageManager Examples.user Examples.interactive +:+ " install").
Proof.
  eapply (install_failure_is_a_warning Examples.user None Examples.interactive
            Examples.start).
  - reflexivity.
  - intros H. vm_compute in H. discriminate H.
  - apply run_done. vm_compute. reflexivity.
  - apply run_done. vm_compute. reflexivity.
  - intros c _. reflexivity.
Defined.

(* ===================================================================== *)
(** * A package manager the tool does not know *)
(* ===================================================================== *)

(** A value of the flag that is none of npm, pnpm, yarn, bun is cast to
    [PackageManager] and not checked: the action calls createProject with the
    value as it is.  The switches of getInstallCommand and getRunCommand have
    no case for it, and the conditionals of the manifest end in the branch of
    bun, so the two derivations of the commands disagree. *)
Lemma unknown_package_manager_is_passed_on (env : Env)
    (projectName : option string) (options : Options) (pm : string) (w : World) :
  options.(flagPackageManager) = Some pm ->
  pm <> EmptyString ->
  ~ supported pm ->
  (exists asked,
     action env projectName options w
     = createProject env (chosenOptions env projectName options)
         {| files := w.(files); trace := w.(trace) ++ welcome :: asked |}) /\
  (chosenOptions env projectName options).(optPackageManager) = pm /\
  getInstallCommand pm = None /\
  (forall script, getRunCommand pm script = None) /\
  forall name,
    {| path := "README.md";
       content := Manifest.content_README_md name "bun install" "bun run dev" |}
      ∈ getProjectStructure {| projectName := name; packageManager := pm |}.
Proof.
  intros Hflag Hne Hpm.
  assert (String.eqb pm "npm" = false /\ String.eqb pm "pnpm" = false /\
          String.eqb pm "yarn" = false /\ String.eqb pm "bun" = false)
    as (H1 & H2 & H3 & H4).
  { repeat split; apply String.eqb_neq; intros ->; apply Hpm;
      apply (bool_decide_unpack _); vm_compute; exact I. }
  assert (Str.truthy pm = true) as Htruthy.
  { unfold Str.truthy. apply negb_true_iff, String.eqb_neq, Hne. }
  split.
  { destruct (action_run env projectName options w) as (tr & Haction & _).
    by exists tr. }
  split.
  { cbn. unfold chosenPackageManager, given, orElse. rewrite Hflag, Htruthy.
    by destruct (yes options). }
  split; [unfold getInstallCommand; by rewrite H1, H2, H3, H4|].
  split; [intros script; unfold getRunCommand; by rewrite H1, H2, H3, H4|].
  intros name. apply list_elem_of_In. do 5 right. left.
  unfold getProjectStructure. cbv beta iota zeta delta [packageManager].
  by rewrite H1, H2, H3.
Qed.

(** C1, at an input where the flag goes unchecked.  The run of
    [demo-app -p foo -y] raises no error: the process ends with status 0 and
    the project is written.  The readme of the manifest, and the one on disk,
    carry the commands of bun, while getInstallCommand and getRunCommand
    return undefined, which the next steps print as the text undefined. *)
Theorem unknown_package_manager_goes_unchecked :
  ~ supported "foo" /\
  Examples.unknownFlag.(flagPackageManager) = Some "foo" /\
  (main Examples.user (Some "demo-app") Examples.unknownFlag Examples.start).1 = 0 /\
  Examples.start.(files) !! (Examples.target ++ ["package.json"]) = None /\
  (exists c,
     (main Examples.user (Some "demo-app") Examples.unknownFlag
        Examples.start).2.(files) !! (Examples.target ++ ["package.json"])
     = Some (File c)) /\
  (exists readme,
     {| path := "README.md"; content := readme |}
       ∈ getProjectStructure {| projectName := "demo-app"; packageManager := "foo" |} /\
     (main Examples.user (Some "demo-app") Examples.unknownFlag
        Examples.start).2.(files) !! (Examples.target ++ ["README.md"])
     = Some (File readme) /\
     Str.includes readme "bun install" = true /\
     Str.includes readme "bun run dev" = true) /\
  getInstallCommand "foo" = None /\
  getRunCommand "foo" "dev" = None /\
  exists before,
    (main Examples.user (Some "demo-app") Examples.unknownFlag
       Examples.start).2.(trace)
    = before ++ [ Log "Next steps:"; Log "  cd demo-app"; Log "  undefined";
                  Log ("  undefined" +:+ Str.nl) ].
Proof.
  split.
  { unfold supported. intros H. apply (bool_decide_pack _) in H.
    vm_compute in H. exact H. }
  split; [reflexivity|].
  split; [vm_compute; reflexivity|].
  split; [vm_compute; reflexivity|].
  split.
  { eexists. vm_compute. reflexivity. }
  split.
  { exists (Manifest.content_README_md "demo-app" "bun install" "bun run dev").
    split; [apply list_elem_of_In; do 5 right; left; reflexivity|].
    split; [vm_compute; reflexivity|].
    split; [apply readme_install|apply readme_dev]. }
  split; [reflexivity|].
  split; [reflexivity|].
  eexists [_; _; _; _; _; _; _]. vm_compute. reflexivity.
Qed.

(* ===================================================================== *)
(** * The copy of a templates directory and the substitution pass *)
(* ===================================================================== *)

Section Copy.

Import Str.

Lemma toString_cons (seg : string) (p : Path.t) :
  exists rest, Path.toString (seg :: p) = "/" +:+ seg +:+ rest.
Proof.
  unfold Path.toString. cbn [map].
  destruct (map _ p) as [|x l]; cbn [String.concat].
  - exists EmptyString. by rewrite append_nil_r.
  - eexists. rewrite append_assoc. reflexivity.
Qed.

Lemma toString_tail (seg : string) (p : Path.t) :
  p <> [] -> Path.toString (seg :: p) = ("/" +:+ seg) +:+ Path.toString p.
Proof.
  destruct p as [|s p]; [done|]. intros _. reflexivity.
Qed.

(** The string of a path includes each of its components. *)
Lemma toString_includes (p : Path.t) (seg : string) :
  seg ∈ p -> includes (Path.toString p) seg = true.
Proof.
  induction p as [|s p IH]; [by intros ?%elem_of_nil|].
  intros [->|Hin]%elem_of_cons.
  - destruct (toString_cons s p) as (rest & ->). apply includes_middle.
  - rewrite toString_tail by (intros ->; by apply elem_of_nil in Hin).
    by apply includes_later, IH.
Qed.

(** A path with a component named like a dependency, version-control or
    build directory is refused by the filter. *)
Lemma copyFilter_component (p : Path.t) (seg : string) :
  seg ∈ p -> seg ∈ excludedNames -> copyFilter (Path.toString p) = false.
Proof.
  intros Hp Hseg. apply toString_includes in Hp. unfold copyFilter.
  unfold excludedNames in Hseg.
  repeat (apply elem_of_cons in Hseg; destruct Hseg as [->|Hseg]);
    [ .. | by apply elem_of_nil in Hseg ]; rewrite Hp; cbn [negb andb];
    by rewrite ?andb_false_r.
Qed.

(** C2, at an input where the filter goes wrong.  The templates hold an
    ignore file and a source file [src/distance.ts]; no component of their
    paths is node_modules, .git or dist, yet the copy leaves both out, because
    the filter looks for the three names anywhere in the text of the path.
    The file under node_modules is left out as intended and
    [src/index.ts] is copied. *)
Theorem copy_filter_drops_lookalikes :
  let copied := copyTemplates Examples.templates Examples.target Examples.demo
                  Examples.withTemplates in
  copied.1 = Done tt /\
  Forall (fun seg => seg ∉ excludedNames) [".gitignore"] /\
  Examples.withTemplates !! (Examples.templates ++ [".gitignore"])
    = Some (File "node_modules") /\
  copied.2 !! (Examples.target ++ [".gitignore"]) = None /\
  Forall (fun seg => seg ∉ excludedNames) ["src"; "distance.ts"] /\
  Examples.withTemplates !! (Examples.templates ++ ["src"; "distance.ts"])
    = Some (File "export const d = 1;") /\
  copied.2 !! (Examples.target ++ ["src"; "distance.ts"]) = None /\
  copied.2 !! (Examples.target ++ ["src"; "index.ts"]) = Some (File "export {};") /\
  copied.2 !! (Examples.target ++ ["node_modules"; "left-pad.js"]) = None.
Proof.
  cbv zeta. repeat split;
    first [ vm_compute; reflexivity
          | apply (bool_decide_unpack _); vm_compute; exact I ].
Qed.

(** The substitution pass on a target that holds both files: the package
    descriptor has the project-name token replaced, the readme both tokens. *)
Lemma generateFiles_rewrites (projectPath : Path.t)
    (variables : TemplateVariables) (fs : gmap Path.t node)
    (pkg readme : string) :
  fs !! projectPath = Some Dir ->
  fs !! (projectPath ++ ["package.json"]) = Some (File pkg) ->
  fs !! (projectPath ++ ["README.md"]) = Some (File readme) ->
  generateFiles projectPath variables fs
  = (Done tt,
     <[ projectPath ++ ["README.md"] :=
          File (Str.replaceAll "{{packageManager}}" variables.(packageManager)
                  (Str.replaceAll "{{projectName}}" variables.(projectName)
                     readme)) ]>
       (<[ projectPath ++ ["package.json"] :=
             File (Str.replaceAll "{{projectName}}" variables.(projectName) pkg) ]>
          fs)).
Proof.
  intros Hdir Hpkg Hreadme.
  assert (forall x, Path.dirname (projectPath ++ [x]) = projectPath) as Hparent.
  { intros x. unfold Path.dirname. by rewrite removelast_last. }
  unfold generateFiles. rewrite !join_plain by reflexivity.
  change (Path.split "package.json") with ["package.json"].
  change (Path.split "README.md") with ["README.md"].
  unfold readFile, writeFile, writeFileSync, readFileSync, existsSync, isDir.
  cbv beta iota zeta delta [bind gets call ret].
  assert (projectPath ++ ["package.json"] <> projectPath ++ ["README.md"])
    as Hne1 by (intros [=]%app_inv_head).
  assert (projectPath ++ ["package.json"] <> projectPath) as Hne2.
  { intros Heq. apply (f_equal length) in Heq. rewrite length_app in Heq.
    simpl in Heq. lia. }
  repeat (progress (cbv beta iota;
                    rewrite ?Hparent, ?Hpkg, ?Hdir, ?Hreadme;
                    rewrite ?(lookup_insert_ne _ _ _ _ Hne1),
                            ?(lookup_insert_ne _ _ _ _ Hne2))).
  reflexivity.
Qed.

(** C3, at an input where the pass goes wrong.  Both files exist under the
    target and hold both tokens: the readme has every occurrence of both
    replaced, the package descriptor keeps its package-manager token. *)
Theorem substitution_leaves_package_manager_token :
  let substituted := generateFiles Examples.target Examples.demo Examples.scaffolded in
  substituted.1 = Done tt /\
  Examples.scaffolded !! (Examples.target ++ ["package.json"])
    = Some (File "{ name: {{projectName}}, manager: {{packageManager}} }") /\
  substituted.2 !! (Examples.target ++ ["package.json"])
    = Some (File "{ name: demo-app, manager: {{packageManager}} }") /\
  substituted.2 !! (Examples.target ++ ["README.md"])
    = Some (File "# demo-app uses pnpm; demo-app").
Proof. cbv zeta. repeat split; vm_compute; reflexivity. Qed.

End Copy.

(* ===================================================================== *)
(** * The materialiser on a fresh target *)
(* ===================================================================== *)

Section Rooted.

Implicit Types (fs c : gmap Path.t node) (t q k : Path.t).

Lemma prefix_app_cases t q k :
  k `prefix_of` t ++ q ->
  k `prefix_of` t \/ exists r, k = t ++ r /\ r `prefix_of` q.
Proof.
  intros [z Hz]. apply app_eq_app in Hz as [l [[-> ->]|[-> ->]]].
  - left. by exists l.
  - right. exists l. split; [done|]. by exists z.
Qed.

Lemma rooted_ensureDir t q fs c c' :
  rooted t fs c -> ensureDirSync q c = inr c' ->
  exists fs', ensureDirSync (t ++ q) fs = inr fs' /\ rooted t fs' c'.
Proof.
  intros [Hup Hdown] Hc.
  assert (ensureDirSync (t ++ q) fs = inr (mkdirs (Path.inits (t ++ q)) fs)) as Hfs.
  { apply ensureDirSync_inr. split; [|done].
    intros k [Hk|(r & -> & Hr)]%prefix_app_cases.
    - unfold isFile. by rewrite (Hup k Hk).
    - apply ensureDirSync_inr in Hc as [Hc _]. specialize (Hc r Hr).
      unfold isFile in *. by rewrite Hdown. }
  eexists. split; [exact Hfs|]. split.
  - intros k Hk. rewrite (ensureDirSync_lookup _ _ _ _ Hfs).
    rewrite decide_True; [done|]. by apply prefix_app_r.
  - intros rel. rewrite (ensureDirSync_lookup _ _ _ _ Hfs),
      (ensureDirSync_lookup _ _ _ _ Hc), Hdown.
    destruct (decide (rel `prefix_of` q)) as [Hr|Hr].
    + rewrite decide_True; [done|]. by apply prefix_app.
    + rewrite decide_False; [done|]. by intros ?%prefix_app_inv.
Qed.

Lemma rooted_writeFile t q x fs c c' :
  q <> [] ->
  rooted t fs c -> writeFileSync q x c = inr c' ->
  exists fs', writeFileSync (t ++ q) x fs = inr fs' /\ rooted t fs' c'.
Proof.
  intros Hq [Hup Hdown] (Hnd & Hparent & ->)%writeFileSync_inr.
  exists (<[t ++ q := File x]> fs). split.
  - apply writeFileSync_inr. unfold isDir in *.
    rewrite dirname_app, !Hdown by done. done.
  - split.
    + intros k Hk. rewrite lookup_insert_ne; [by apply Hup|].
      intros <-. apply prefix_length in Hk. rewrite length_app in Hk.
      destruct q; [done|]. simpl in Hk. lia.
    + intros rel. destruct (decide (rel = q)) as [->|Hne].
      * by rewrite !lookup_insert_eq.
      * rewrite !lookup_insert_ne; [apply Hdown | done |].
        by intros ?%app_inv_head.
Qed.

Lemma follows_call t (op op0 : gmap Path.t node -> Fs.error + gmap Path.t node) :
  (forall fs c c', rooted t fs c -> op0 c = inr c' ->
                   exists fs', op fs = inr fs' /\ rooted t fs' c') ->
  follows t (call op) (call op0).
Proof.
  intros H fs c c' Hr Hc%call_done.
  destruct (H fs c c' Hr Hc) as (fs' & Hfs & Hr').
  exists fs'. split; [by apply call_done | done].
Qed.

Lemma follows_bind t (m m0 k k0 : M (gmap Path.t node) unit) :
  follows t m m0 -> follows t k k0 -> follows t (m ;; k) (m0 ;; k0).
Proof.
  intros Hm Hk fs c c' Hr ([] & c1 & H1 & H2)%bind_done.
  destruct (Hm fs c c1 Hr H1) as (fs1 & Hfs1 & Hr1).
  destruct (Hk fs1 c1 c' Hr1 H2) as (fs' & Hfs' & Hr').
  exists fs'. split; [|done]. apply bind_done. by exists tt, fs1.
Qed.

Lemma follows_forEach {A} t (l : list A) (body body0 : A -> M (gmap Path.t node) unit) :
  (forall x, x ∈ l -> follows t (body x) (body0 x)) ->
  follows t (forEach l body) (forEach l body0).
Proof.
  induction l as [|x l IH]; intros H.
  - intros fs c c' Hr [= <-]. by exists fs.
  - cbn [forEach]. apply follows_bind.
    + apply H. by left.
    + apply IH. intros y Hy. apply H. by right.
Qed.

Lemma follows_ensureDir t q :
  follows t (ensureDir (t ++ q)) (ensureDir q).
Proof. apply follows_call. intros. by eapply rooted_ensureDir. Qed.

Lemma follows_writeFile t q x :
  q <> [] -> follows t (writeFile (t ++ q) x) (writeFile q x).
Proof. intros Hq. apply follows_call. intros. by eapply rooted_writeFile. Qed.

Lemma createProjectStructure_follows t variables :
  follows t (createProjectStructure t variables)
            (createProjectStructure [] variables).
Proof.
  unfold createProjectStructure.
  apply follows_bind; [|apply follows_bind].
  - apply follows_forEach. intros dir Hdir.
    fold (placeholderOf t dir). fold (placeholderOf [] dir).
    rewrite !(placeholderOf_emptyDir _ _ Hdir), !(join_emptyDir _ _ Hdir).
    apply follows_bind; [apply follows_ensureDir|].
    apply follows_writeFile. by destruct (Path.split dir).
  - rewrite !join_plain by reflexivity. apply follows_ensureDir.
  - apply follows_forEach. intros e He.
    rewrite !(join_manifest _ _ _ He).
    rewrite dirname_app by apply split_not_nil.
    apply follows_bind; [apply follows_ensureDir|].
    apply follows_writeFile, split_not_nil.
Qed.

Lemma manifestTree_done (variables : TemplateVariables) :
  createProjectStructure [] variables (<[ [] := Dir ]> ∅)
  = (Done tt, manifestTree variables).
Proof. apply run_done. vm_compute. reflexivity. Qed.

(** Ensuring a fresh target puts it in place, with nothing in it. *)
Lemma freshTarget_ensured t fs :
  freshTarget fs t ->
  exists fs', ensureDirSync t fs = inr fs' /\
              rooted t fs' (<[ [] := Dir ]> ∅) /\
              (forall k, ~ k `prefix_of` t -> fs' !! k = fs !! k).
Proof.
  intros [Hempty Hfree].
  assert (ensureDirSync t fs = inr (mkdirs (Path.inits t) fs)) as Hfs
    by by apply ensureDirSync_inr.
  eexists. split; [exact Hfs|]. split; [split|].
  - intros k Hk. rewrite (ensureDirSync_lookup _ _ _ _ Hfs).
    by rewrite decide_True.
  - intros rel. rewrite (ensureDirSync_lookup _ _ _ _ Hfs).
    destruct rel as [|s rel].
    + rewrite app_nil_r, decide_True by done. by rewrite lookup_insert_eq.
    + rewrite decide_False, Hempty by
        (try done; intros Hp%prefix_length; rewrite length_app in Hp;
         simpl in Hp; lia).
      by rewrite lookup_insert_ne, lookup_empty.
  - intros k Hk. rewrite (ensureDirSync_lookup _ _ _ _ Hfs).
    by rewrite decide_False.
Qed.

Lemma below_Some (src k rel : Path.t) :
  below src k = Some rel <-> k = src ++ rel.
Proof.
  revert k. induction src as [|s src IH]; intros k; simpl.
  - split; [by intros [= ->] | by intros ->].
  - destruct k as [|c k]; [done|].
    destruct (String.eqb_spec s c) as [->|Hne].
    + rewrite IH. split; [by intros -> | by intros [= ->]].
    + split; [done | by intros [= ? ?]].
Qed.

Lemma NoDup_fst_omap {K A K' B : Type} (g : K * A -> option (K' * B))
    (l : list (K * A)) :
  (forall x y (i : K') b1 b2, g x = Some (i, b1) -> g y = Some (i, b2) -> x.1 = y.1) ->
  NoDup l.*1 -> NoDup (omap g l).*1.
Proof.
  intros Hg. induction l as [|x l IH]; simpl; [constructor|].
  intros [Hx Hl]%NoDup_cons. destruct (g x) as [[i b]|] eqn:Ex; [|by apply IH].
  simpl. apply NoDup_cons. split; [|by apply IH].
  intros ([i2 b2] & Hi & Hin)%list_elem_of_fmap. simpl in Hi. subst i2.
  apply list_elem_of_omap in Hin as (y & Hy & Ey).
  apply Hx. rewrite (Hg x y i b b2 Ex Ey).
  apply list_elem_of_fmap. by exists y.
Qed.

Section Selection.

Context (flt : string -> bool) (src dst : Path.t) (fs : gmap Path.t node).

Lemma elem_of_selection (k : Path.t) (n : node) :
  (k, n) ∈ selection flt src dst fs <->
  exists rel, k = dst ++ rel /\ fs !! (src ++ rel) = Some n /\
              visited flt src rel = true.
Proof.
  unfold selection. rewrite list_elem_of_omap. split.
  - intros ([k0 n0] & Hin & Hg). apply elem_of_map_to_list in Hin.
    simpl in Hg. destruct (below src k0) as [rel|] eqn:Eb; [|done].
    apply below_Some in Eb as ->.
    destruct (visited flt src rel) eqn:Ev; [|done].
    injection Hg as <- <-. by exists rel.
  - intros (rel & -> & Hn & Hv). exists (src ++ rel, n). split.
    + by apply elem_of_map_to_list.
    + simpl. rewrite (proj2 (below_Some src (src ++ rel) rel) eq_refl).
      by rewrite Hv.
Qed.

Lemma selection_NoDup : NoDup (selection flt src dst fs).*1.
Proof.
  apply NoDup_fst_omap; [|apply NoDup_fst_map_to_list].
  intros [k1 n1] [k2 n2] i b1 b2 H1 H2. simpl in *.
  destruct (below src k1) as [r1|] eqn:E1; [|done].
  destruct (below src k2) as [r2|] eqn:E2; [|done].
  apply below_Some in E1 as ->. apply below_Some in E2 as ->.
  destruct (visited flt src r1); [|done].
  destruct (visited flt src r2); [|done].
  injection H1 as <- _. injection H2 as H2 _.
  apply app_inv_head in H2. by subst.
Qed.

Lemma lookup_selection (rel : Path.t) :
  (list_to_map (selection flt src dst fs) : gmap Path.t node) !! (dst ++ rel)
  = if visited flt src rel then fs !! (src ++ rel) else None.
Proof.
  apply option_eq. intros n.
  rewrite <- (elem_of_list_to_map _ _ _ selection_NoDup), elem_of_selection.
  split.
  - intros (rel' & Hrel%app_inv_head & Hn & Hv). subst rel'. by rewrite Hv.
  - destruct (visited flt src rel) eqn:Hv; [|done]. intros Hn. by exists rel.
Qed.

End Selection.

Lemma dirname_prefix t : Path.dirname t `prefix_of` t.
Proof.
  destruct (decide (t = [])) as [->|Hne]; [done|].
  exists [List.last t EmptyString]. by apply app_removelast_last.
Qed.

(** The copy of a templates directory into a target that is in place and
    empty. *)
Lemma copySync_fresh (flt : string -> bool) (T t : Path.t) fs :
  rooted t fs (<[ [] := Dir ]> ∅) ->
  ~ T `prefix_of` t ->
  fs !! T = Some Dir ->
  exists fs',
    copySync flt T t fs = inr fs' /\
    forall rel,
      fs' !! (t ++ rel)
      = match rel with
        | [] => Some Dir
        | _ => if flt (Path.toString T) && visited flt T rel
               then fs !! (T ++ rel) else None
        end.
Proof.
  intros [Hup Hdown] Hapart HT.
  assert (forall rel, fs !! (t ++ rel)
                      = match rel with [] => Some Dir | _ => None end) as Hempty.
  { intros rel. rewrite Hdown. destruct rel; [apply lookup_insert_eq|].
    by rewrite lookup_insert_ne, lookup_empty. }
  unfold copySync. rewrite HT, bool_decide_eq_false_2 by done.
  assert (clash fs (t, Dir) = false) as ->.
  { unfold clash. simpl. rewrite <- (app_nil_r t), Hempty. done. }
  destruct (flt (Path.toString T)) eqn:Hroot; cbn [negb].
  - assert (ensureDirSync (Path.dirname t) fs = inr fs) as ->.
    { apply ensureDirSync_inr. split.
      - intros k Hk. unfold isFile. rewrite Hup; [done|].
        etrans; [exact Hk | apply dirname_prefix].
      - apply map_eq. intros k. rewrite lookup_mkdirs.
        destruct (decide _) as [Hk%elem_of_inits|]; [|done].
        rewrite Hup; [done|]. etrans; [exact Hk | apply dirname_prefix]. }
    destruct (existsb _ _) eqn:Hclash.
    { apply existsb_exists in Hclash as ([k n] & Hin & Hclash).
      apply list_elem_of_In, elem_of_selection in Hin
        as (rel & -> & Hn & _).
      unfold clash in Hclash. simpl in Hclash. rewrite Hempty in Hclash.
      destruct rel; [|by destruct n].
      rewrite app_nil_r, HT in Hn. by injection Hn as <-. }
    eexists. split; [reflexivity|]. intros rel.
    rewrite lookup_union, lookup_selection, Hempty.
    destruct rel as [|s rel]; cbn [andb].
    + rewrite app_nil_r, HT. by destruct (visited flt T []).
    + destruct (visited flt T (s :: rel)); [|done].
      by destruct (fs !! (T ++ s :: rel)).
  - exists fs. split; [done|]. intros rel. rewrite Hempty. by destruct rel.
Qed.

(** What the materialiser builds in a fresh target. *)
Lemma copyTemplates_fresh (T t : Path.t) (variables : TemplateVariables) fs :
  freshTarget fs t ->
  ~ T `prefix_of` t ->
  isFile fs T = false ->
  exists fs',
    copyTemplates T t variables fs = (Done tt, fs') /\
    forall rel, fs' !! (t ++ rel) = materialisedNode T variables fs rel.
Proof.
  intros Hfresh Hapart HT.
  destruct (freshTarget_ensured t fs Hfresh) as (fsA & HfsA & Hrooted & Hsame).
  assert (forall rel, fsA !! (T ++ rel) = fs !! (T ++ rel)) as Htemplates.
  { intros rel. apply Hsame. intros [z Hz]. apply Hapart.
    exists (rel ++ z). by rewrite app_assoc. }
  assert (fsA !! T = fs !! T) as HTA.
  { specialize (Htemplates []). by rewrite app_nil_r in Htemplates. }
  unfold copyTemplates, materialisedNode, ensureDir.
  cbv beta iota zeta delta [bind gets call]. rewrite HfsA.
  unfold existsSync. rewrite HTA.
  destruct (fs !! T) as [[content|]|] eqn:HfsT.
  - unfold isFile in HT. by rewrite HfsT in HT.
  - destruct (copySync_fresh copyFilter T t fsA Hrooted Hapart)
      as (fs' & -> & Hfs'); [by rewrite HTA|].
    exists fs'. split; [done|]. intros rel. rewrite Hfs'.
    destruct rel; [done|]. by rewrite Htemplates.
  - destruct (createProjectStructure_follows t variables fsA _ _ Hrooted
                (manifestTree_done variables)) as (fs' & Hfs' & [_ Htree]).
    exists fs'. split; [exact Hfs' | exact Htree].
Qed.

End Rooted.

(** A path with a component named like one of the three directories does
    not reach a fresh target. *)
Lemma copyTemplates_excludes (T t : Path.t) (variables : TemplateVariables)
    (fs : gmap Path.t node) (rel : Path.t) (seg : string) :
  freshTarget fs t ->
  ~ T `prefix_of` t ->
  fs !! T = Some Dir ->
  seg ∈ rel -> seg ∈ excludedNames ->
  exists fs',
    copyTemplates T t variables fs = (Done tt, fs') /\
    fs' !! (t ++ rel) = None.
Proof.
  intros Hfresh Hapart HT Hseg Hname.
  destruct (copyTemplates_fresh T t variables fs Hfresh Hapart)
    as (fs' & Hrun & Htree).
  { unfold isFile. by rewrite HT. }
  exists fs'. split; [exact Hrun|].
  rewrite Htree. unfold materialisedNode. rewrite HT.
  destruct rel as [|s rel]; [by apply elem_of_nil in Hseg|].
  assert (visited copyFilter T (s :: rel) = false) as ->;
    [|by rewrite andb_false_r].
  unfold visited. apply not_true_iff_false. intros Hall.
  rewrite forallb_forall in Hall.
  specialize (Hall (s :: rel)).
  rewrite (copyFilter_component (T ++ s :: rel) seg) in Hall.
  - discriminate Hall. apply list_elem_of_In, elem_of_inits. done.
  - apply elem_of_app. by right.
  - done.
Qed.

(** C9. Two runs of the materialiser with the same template variables, each
    against a fresh and empty target (in two file systems, or one after the
    other in the same one), with the same templates directory, or none, in
    both: both runs complete, and the two targets hold byte-identical trees,
    the same relative paths with the same content at each. *)
Theorem materialise_twice_same_tree (templatesPath target1 target2 : Path.t)
    (variables : TemplateVariables) (fs1 fs2 : gmap Path.t node) :
  freshTarget fs1 target1 ->
  freshTarget fs2 target2 ->
  ~ templatesPath `prefix_of` target1 ->
  ~ templatesPath `prefix_of` target2 ->
  isFile fs1 templatesPath = false ->
  sameTree fs1 templatesPath fs2 templatesPath ->
  exists fs1' fs2',
    copyTemplates templatesPath target1 variables fs1 = (Done tt, fs1') /\
    copyTemplates templatesPath target2 variables fs2 = (Done tt, fs2') /\
    sameTree fs1' target1 fs2' target2.
Proof.
  intros Hfresh1 Hfresh2 Hapart1 Hapart2 HT Hsame.
  assert (fs2 !! templatesPath = fs1 !! templatesPath) as HT2.
  { specialize (Hsame []). by rewrite !app_nil_r in Hsame. }
  destruct (copyTemplates_fresh templatesPath target1 variables fs1)
    as (fs1' & Hrun1 & Htree1); [done..|].
  destruct (copyTemplates_fresh templatesPath target2 variables fs2)
    as (fs2' & Hrun2 & Htree2); [done | done | |].
  { unfold isFile in *. by rewrite HT2. }
  exists fs1', fs2'. split; [done|]. split; [done|].
  intros rel. rewrite Htree1, Htree2. unfold materialisedNode.
  rewrite HT2. destruct (fs1 !! templatesPath); [|done].
  destruct rel; [done|]. by rewrite Hsame.
Qed.

Lemma lookup_treeAt (fs : gmap Path.t node) (root rel : Path.t) :
  treeAt fs root !! rel = fs !! (root ++ rel).
Proof.
  unfold treeAt. rewrite <- (app_nil_l rel) at 1. rewrite lookup_selection.
  assert (visited (fun _ => true) root rel = true) as ->; [|done].
  unfold visited. by apply forallb_forall.
Qed.

Lemma sameTree_treeAt (fs1 fs2 : gmap Path.t node) (root1 root2 : Path.t) :
  treeAt fs1 root1 = treeAt fs2 root2 -> sameTree fs1 root1 fs2 root2.
Proof. intros H rel. by rewrite <- !lookup_treeAt, H. Qed.

Lemma isFresh_freshTarget (fs : gmap Path.t node) (targetPath : Path.t) :
  isFresh fs targetPath = true -> freshTarget fs targetPath.
Proof.
  unfold isFresh. intros [Hempty Hfree]%andb_true_iff. split.
  - intros rel Hrel. apply bool_decide_eq_true in Hempty.
    rewrite <- lookup_treeAt, <- (lookup_delete_ne _ [] rel) by done.
    by rewrite Hempty.
  - intros k Hk. rewrite forallb_forall in Hfree.
    apply negb_true_iff, Hfree, list_elem_of_In, elem_of_inits, Hk.
Qed.

(** Two runs in sequence on the example machine, with no templates
    directory: the second target is created in the file system the first
    run left. *)
Lemma materialise_twice_same_tree_witness :
  let first := (copyTemplates Examples.templates Examples.target Examples.demo
                  Examples.machine).2 in
  freshTarget Examples.machine Examples.target /\
  freshTarget first Examples.again /\
  exists fs1' fs2',
    copyTemplates Examples.templates Examples.target Examples.demo
      Examples.machine = (Done tt, fs1') /\
    copyTemplates Examples.templates Examples.again Examples.demo first
      = (Done tt, fs2') /\
    sameTree fs1' Examples.target fs2' Examples.again.
Proof.
  cbv zeta.
  assert (freshTarget Examples.machine Examples.target) as H1.
  { apply isFresh_freshTarget. vm_compute. reflexivity. }
  assert (freshTarget
            (copyTemplates Examples.templates Examples.target Examples.demo
               Examples.machine).2 Examples.again) as H2.
  { apply isFresh_freshTarget. vm_compute. reflexivity. }
  split; [exact H1|]. split; [exact H2|].
  apply (materialise_twice_same_tree Examples.templates Examples.target
           Examples.again Examples.demo Examples.machine _ H1 H2).
  - apply (bool_decide_unpack _). vm_compute. exact I.
  - apply (bool_decide_unpack _). vm_compute. exact I.
  - reflexivity.
  - apply sameTree_treeAt. vm_compute. reflexivity.
Defined.

(* ===================================================================== *)
(** * Detection of the package manager *)
(* ===================================================================== *)

Section Detection.

(** A probe leaves the command in the trace, whatever it answers. *)
Lemma probe_run (env : Env) (c : string) (w : World) :
  exists fs',
    execSync env (Some c) env.(cwd) w
    = (if (env.(shell) c env.(cwd) w.(files)).1 then Done tt else Thrown (ChildExn c),
       {| files := fs'; trace := w.(trace) ++ [Spawn c env.(cwd)] |}) /\
    fs' = (env.(shell) c env.(cwd) w.(files)).2.
Proof.
  unfold execSync. run.
  destruct (shell env c (cwd env) (files w)) as [ok fs']. by exists fs'.
Qed.

(** X1. detectPackageManager always returns, whatever the working
    directory holds and whatever the probes answer, and what it returns is one
    of npm, pnpm, yarn and bun: a value for which getInstallCommand and
    getRunCommand have a command. *)
Theorem detect_supported (env : Env) (w : World) :
  exists pm w',
    detectPackageManager env w = (Done pm, w') /\
    supported pm /\
    getInstallCommand pm = Some (pm +:+ " install") /\
    exists c, getRunCommand pm "dev" = Some c.
Proof.
  assert (forall pm, supported pm ->
            supported pm /\ getInstallCommand pm = Some (pm +:+ " install") /\
            exists c, getRunCommand pm "dev" = Some c) as Hok.
  { intros pm H. split; [exact H|]. supported_cases H; split; try reflexivity; by eexists. }
  assert (supported "bun" /\ supported "pnpm" /\ supported "yarn" /\ supported "npm")
    as (Hbun & Hpnpm & Hyarn & Hnpm).
  { unfold supported. repeat split; apply (bool_decide_unpack _); vm_compute; exact I. }
  unfold detectPackageManager. run.
  repeat (match goal with
          | |- context [existsSync (files w) ?p] =>
              destruct (existsSync (files w) p);
              [ by eexists _, _; split; [reflexivity | apply Hok] | ]
          end).
  destruct (probe_run env "bun --version" w) as (fs1 & -> & _).
  destruct (shell env "bun --version" (cwd env) (files w)).1; run;
    [ by eexists _, _; split; [reflexivity | apply Hok] | ].
  match goal with |- context [execSync env _ _ ?w1] =>
    destruct (probe_run env "pnpm --version" w1) as (fs2 & -> & _);
    destruct (shell env "pnpm --version" (cwd env) (files w1)).1 end; run;
    [ by eexists _, _; split; [reflexivity | apply Hok] | ].
  match goal with |- context [execSync env _ _ ?w1] =>
    destruct (probe_run env "yarn --version" w1) as (fs3 & -> & _);
    destruct (shell env "yarn --version" (cwd env) (files w1)).1 end; run;
    by eexists _, _; split; [reflexivity | apply Hok].
Qed.

(** X2. A lock file in the working directory decides: the first of
    bun.lockb, pnpm-lock.yaml, yarn.lock and package-lock.json that exists
    names the package manager, and nothing is probed, printed or written. *)
Theorem detect_lock_file_decides (env : Env) (w : World) (pm : string) :
  firstLock env w.(files) = Some pm ->
  detectPackageManager env w = (Done pm, w).
Proof.
  unfold firstLock, lockFiles, detectPackageManager. cbn [List.find fst snd]. run.
  repeat (match goal with
          | |- context [existsSync (files w) ?p] =>
              destruct (existsSync (files w) p); [by intros [= <-]|]
          end).
  discriminate.
Qed.

(** The working directory with a yarn.lock and a package-lock.json: yarn. *)
Lemma detect_lock_file_decides_witness :
  detectPackageManager Examples.user Examples.locked
  = (Done "yarn", Examples.locked).
Proof.
  apply (detect_lock_file_decides Examples.user Examples.locked "yarn").
  vm_compute. reflexivity.
Defined.

(** X3. Without a lock file the installed tools are probed in the order bun,
    pnpm, yarn.  When bun answers, the result is bun after that one probe;
    when no probe succeeds, the result is npm, after the three probes. *)
Theorem detect_without_lock_file (env : Env) (w : World) :
  firstLock env w.(files) = None ->
  ((env.(shell) "bun --version" env.(cwd) w.(files)).1 = true ->
   exists fs',
     detectPackageManager env w
     = (Done "bun",
        {| files := fs';
           trace := w.(trace) ++ [Spawn "bun --version" env.(cwd)] |})) /\
  ((forall c fs, (env.(shell) c env.(cwd) fs).1 = false) ->
   exists fs',
     detectPackageManager env w
     = (Done "npm",
        {| files := fs';
           trace := w.(trace)
                    ++ [ Spawn "bun --version" env.(cwd);
                         Spawn "pnpm --version" env.(cwd);
                         Spawn "yarn --version" env.(cwd) ] |})).
Proof.
  unfold firstLock, lockFiles, detectPackageManager. cbn [List.find fst snd]. run.
  repeat (match goal with
          | |- context [existsSync (files w) ?p] =>
              destruct (existsSync (files w) p); [discriminate|]
          end).
  intros _. split.
  - intros Hbun.
    destruct (probe_run env "bun --version" w) as (fs1 & -> & _).
    rewrite Hbun. run. by eexists.
  - intros Hnone.
    destruct (probe_run env "bun --version" w) as (fs1 & -> & _).
    rewrite Hnone. run.
    match goal with |- context [execSync env _ _ ?w1] =>
      destruct (probe_run env "pnpm --version" w1) as (fs2 & -> & _) end.
    rewrite Hnone. run.
    match goal with |- context [execSync env _ _ ?w1] =>
      destruct (probe_run env "yarn --version" w1) as (fs3 & -> & _) end.
    rewrite Hnone. run.
    eexists. by rewrite <- !app_assoc.
Qed.

(** On the example machine, where no command succeeds: npm. *)
Lemma detect_without_lock_file_witness :
  ((Examples.user.(shell) "bun --version" Examples.user.(cwd)
      Examples.start.(files)).1 = true ->
   exists fs',
     detectPackageManager Examples.user Examples.start
     = (Done "bun",
        {| files := fs';
           trace := Examples.start.(trace)
                    ++ [Spawn "bun --version" Examples.user.(cwd)] |})) /\
  ((forall c fs, (Examples.user.(shell) c Examples.user.(cwd) fs).1 = false) ->
   exists fs',
     detectPackageManager Examples.user Examples.start
     = (Done "npm",
        {| files := fs';
           trace := Examples.start.(trace)
                    ++ [ Spawn "bun --version" Examples.user.(cwd);
                         Spawn "pnpm --version" Examples.user.(cwd);
                         Spawn "yarn --version" Examples.user.(cwd) ] |})).
Proof.
  apply (detect_without_lock_file Examples.user Examples.start).
  vm_compute. reflexivity.
Defined.

End Detection.

(** X4. On the four package managers getRunCommand is injective in both
    arguments: two commands are equal only for the same package manager and
    the same script. *)
Theorem getRunCommand_injective (pm pm' script script' : string) :
  supported pm -> supported pm' ->
  getRunCommand pm script = getRunCommand pm' script' ->
  pm = pm' /\ script = script'.
Proof.
  intros H H'.
  supported_cases H; supported_cases H'; vm_compute;
    intros E; first [discriminate E | by injection E as ->].
Qed.

(** The instance for yarn and the script dev. *)
Lemma getRunCommand_injective_witness :
  getRunCommand "yarn" "dev" = Some "yarn dev" /\
  ("yarn" = "yarn" /\ "dev" = "dev").
Proof.
  split; [reflexivity|].
  apply (getRunCommand_injective "yarn" "yarn" "dev" "dev");
    [ apply (bool_decide_unpack _); vm_compute; exact I
    | apply (bool_decide_unpack _); vm_compute; exact I
    | reflexivity ].
Defined.

(* ===================================================================== *)
(** * The manifest path: what it leaves alone, and running it again *)
(* ===================================================================== *)

Section Frames.

Implicit Types (fs : gmap Path.t node) (t q k : Path.t).

Lemma keeps_call k (op : gmap Path.t node -> Fs.error + gmap Path.t node) :
  (forall fs fs', op fs = inr fs' -> fs' !! k = fs !! k) ->
  keeps k (call op).
Proof.
  intros H fs. unfold call. destruct (op fs) as [e|fs'] eqn:E; [done|].
  by apply H.
Qed.

Lemma keeps_bind k (m m' : M (gmap Path.t node) unit) :
  keeps k m -> keeps k m' -> keeps k (m ;; m').
Proof.
  intros Hm Hm' fs. unfold bind. specialize (Hm fs).
  destruct (m fs) as [[[]|e] fs1]; simpl in *; [|done].
  by rewrite Hm', Hm.
Qed.

Lemma keeps_forEach {A} k (l : list A) (body : A -> M (gmap Path.t node) unit) :
  (forall x, x ∈ l -> keeps k (body x)) -> keeps k (forEach l body).
Proof.
  induction l as [|x l IH]; intros H; [done|].
  cbn [forEach]. apply keeps_bind.
  - apply H. by left.
  - apply IH. intros y Hy. apply H. by right.
Qed.

Lemma keeps_ensureDir k q : ~ k `prefix_of` q -> keeps k (ensureDir q).
Proof.
  intros Hk. apply keeps_call. intros fs fs' H.
  rewrite (ensureDirSync_lookup _ _ _ _ H). by rewrite decide_False.
Qed.

Lemma keeps_writeFile k q c : k <> q -> keeps k (writeFile q c).
Proof.
  intros Hk. apply keeps_call. intros fs fs' H.
  by apply (writeFileSync_other _ _ _ _ _ H).
Qed.

(** A path outside the target is no prefix of a path below the target,
    unless it is a prefix of the target. *)
Lemma outside_not_prefix t q k :
  ~ t `prefix_of` k -> ~ k `prefix_of` t -> ~ k `prefix_of` t ++ q.
Proof.
  intros Hout Hup [Hk|(r & -> & _)]%prefix_app_cases; [done|].
  apply Hout. by exists r.
Qed.

Lemma outside_not_below t q k : ~ t `prefix_of` k -> k <> t ++ q.
Proof. intros Hout ->. apply Hout. by exists q. Qed.

Lemma createProjectStructure_keeps t variables k :
  ~ t `prefix_of` k -> ~ k `prefix_of` t ->
  keeps k (createProjectStructure t variables).
Proof.
  intros Hout Hup. unfold createProjectStructure.
  apply keeps_bind; [|apply keeps_bind].
  - apply keeps_forEach. intros dir Hdir.
    fold (placeholderOf t dir).
    rewrite (placeholderOf_emptyDir _ _ Hdir), (join_emptyDir _ _ Hdir).
    apply keeps_bind.
    + by apply keeps_ensureDir, outside_not_prefix.
    + by apply keeps_writeFile, outside_not_below.
  - rewrite join_plain by reflexivity.
    by apply keeps_ensureDir, outside_not_prefix.
  - apply keeps_forEach. intros e He.
    rewrite (join_manifest _ _ _ He), dirname_app by apply split_not_nil.
    apply keeps_bind.
    + by apply keeps_ensureDir, outside_not_prefix.
    + by apply keeps_writeFile, outside_not_below.
Qed.

Lemma grows_keeps k (m : M (gmap Path.t node) unit) : keeps k m -> grows k m.
Proof. intros H fs. left. apply H. Qed.

Lemma grows_bind k (m m' : M (gmap Path.t node) unit) :
  grows k m -> grows k m' -> grows k (m ;; m').
Proof.
  intros Hm Hm' fs. unfold bind. specialize (Hm fs).
  destruct (m fs) as [[[]|e] fs1]; simpl in *; [|done].
  destruct (Hm' fs1) as [H1|[H1 H2]].
  - rewrite H1. exact Hm.
  - destruct Hm as [Hm|[Hm _]]; right; split; congruence.
Qed.

Lemma grows_forEach {A} k (l : list A) (body : A -> M (gmap Path.t node) unit) :
  (forall x, x ∈ l -> grows k (body x)) -> grows k (forEach l body).
Proof.
  induction l as [|x l IH]; intros H; [by left|].
  cbn [forEach]. apply grows_bind.
  - apply H. by left.
  - apply IH. intros y Hy. apply H. by right.
Qed.

Lemma grows_ensureDir k q : grows k (ensureDir q).
Proof.
  intros fs. unfold ensureDir, call.
  destruct (ensureDirSync q fs) as [e|fs'] eqn:E; [by left|]. simpl.
  rewrite (ensureDirSync_lookup _ _ _ _ E).
  destruct (decide (k `prefix_of` q)) as [Hk|]; [|by left].
  apply ensureDirSync_inr in E as [E _]. specialize (E k Hk).
  unfold isFile in E. destruct (fs !! k) as [[c|]|]; [done | by left | by right].
Qed.

Lemma createProjectStructure_grows t variables k :
  ~ t `prefix_of` k -> grows k (createProjectStructure t variables).
Proof.
  intros Hout. unfold createProjectStructure.
  apply grows_bind; [|apply grows_bind].
  - apply grows_forEach. intros dir Hdir.
    fold (placeholderOf t dir).
    rewrite (placeholderOf_emptyDir _ _ Hdir).
    apply grows_bind; [apply grows_ensureDir|].
    by apply grows_keeps, keeps_writeFile, outside_not_below.
  - apply grows_ensureDir.
  - apply grows_forEach. intros e He.
    rewrite (join_manifest _ _ _ He).
    apply grows_bind; [apply grows_ensureDir|].
    by apply grows_keeps, keeps_writeFile, outside_not_below.
Qed.

(** X5. The manifest path writes below the target only.  Whether it
    completes or throws, an entry outside the target is as it was, or is a
    directory made where there was nothing; and it is as it was unless it is
    an ancestor of the target. *)
Theorem createProjectStructure_stays_inside (targetPath : Path.t)
    (variables : TemplateVariables) (fs : gmap Path.t node) (k : Path.t) :
  ~ targetPath `prefix_of` k ->
  let fs' := (createProjectStructure targetPath variables fs).2 in
  (fs' !! k = fs !! k \/ (fs !! k = None /\ fs' !! k = Some Dir)) /\
  (~ k `prefix_of` targetPath -> fs' !! k = fs !! k).
Proof.
  intros Hout. split.
  - by apply createProjectStructure_grows.
  - intros Hup. by apply createProjectStructure_keeps.
Qed.

(** The tool's own directory, while demo-app is written in the home
    directory. *)
Lemma createProjectStructure_stays_inside_witness :
  let fs' := (createProjectStructure Examples.target Examples.demo
                Examples.machine).2 in
  (fs' !! ["opt"; "cli"] = Examples.machine !! ["opt"; "cli"] \/
   (Examples.machine !! ["opt"; "cli"] = None /\
    fs' !! ["opt"; "cli"] = Some Dir)) /\
  (~ ["opt"; "cli"] `prefix_of` Examples.target ->
   fs' !! ["opt"; "cli"] = Examples.machine !! ["opt"; "cli"]).
Proof.
  apply (createProjectStructure_stays_inside Examples.target Examples.demo
           Examples.machine ["opt"; "cli"]).
  intros [r Hr]. discriminate Hr.
Defined.

(** Directories made by a loop of directory-and-file steps are there at the
    end, with their ancestors. *)
Lemma loop_dirs {A : Type} (D P : A -> Path.t) (C : A -> string) (l : list A)
    fs fs' :
  forEach l (fun x => ensureDir (D x) ;; writeFile (P x) (C x)) fs = (Done tt, fs') ->
  (forall k, fs !! k = Some Dir -> fs' !! k = Some Dir) /\
  (forall x k, x ∈ l -> k `prefix_of` D x -> fs' !! k = Some Dir).
Proof.
  revert fs. induction l as [|x l IH]; intros fs Hrun.
  - injection Hrun as <-. split; [done|]. intros x k Hx. by apply elem_of_nil in Hx.
  - apply forEach_cons_done in Hrun as (fs1 & Hx & Hl).
    apply bind_done in Hx as ([] & fsa & Ha%call_done & Hw%call_done).
    destruct (IH fs1 Hl) as [IH1 IH2]. split.
    + intros k Hk. apply IH1. eapply writeFileSync_dir; [done|].
      by eapply ensureDirSync_dir.
    + intros y k [->|Hy]%elem_of_cons Hk; [|by eapply IH2].
      apply IH1. eapply writeFileSync_dir; [done|].
      rewrite (ensureDirSync_lookup _ _ _ _ Ha). by rewrite decide_True.
Qed.

Lemma ensureDir_again q fs :
  (forall k, k `prefix_of` q -> fs !! k = Some Dir) ->
  ensureDir q fs = (Done tt, fs).
Proof.
  intros H. apply call_done, ensureDirSync_inr. split.
  - intros k Hk. unfold isFile. by rewrite H.
  - apply map_eq. intros k. rewrite lookup_mkdirs.
    destruct (decide _) as [Hk%elem_of_inits|]; [|done]. by rewrite H.
Qed.

Lemma writeFile_again q c fs :
  fs !! q = Some (File c) -> fs !! Path.dirname q = Some Dir ->
  writeFile q c fs = (Done tt, fs).
Proof.
  intros Hq Hparent. apply call_done, writeFileSync_inr. unfold isDir.
  rewrite Hq, Hparent. repeat split. by rewrite insert_id.
Qed.

Lemma forEach_again {A : Type} (l : list A)
    (body : A -> M (gmap Path.t node) unit) fs :
  (forall x, x ∈ l -> body x fs = (Done tt, fs)) ->
  forEach l body fs = (Done tt, fs).
Proof.
  induction l as [|x l IH]; intros H; [done|].
  apply forEach_cons_done. exists fs. split.
  - apply H. by left.
  - apply IH. intros y Hy. apply H. by right.
Qed.


Lemma persists_bind k (m m' : M (gmap Path.t node) unit) :
  persists k m -> persists k m' -> persists k (m ;; m').
Proof.
  intros Hm Hm' fs Hk. unfold bind. specialize (Hm fs Hk).
  destruct (m fs) as [[[]|e] fs1]; simpl in *; [|done]. by apply Hm'.
Qed.

Lemma persists_forEach {A} k (l : list A) (body : A -> M (gmap Path.t node) unit) :
  (forall x, x ∈ l -> persists k (body x)) -> persists k (forEach l body).
Proof.
  induction l as [|x l IH]; intros H; [by intros fs|].
  cbn [forEach]. apply persists_bind.
  - apply H. by left.
  - apply IH. intros y Hy. apply H. by right.
Qed.

Lemma persists_ensureDir k q : persists k (ensureDir q).
Proof.
  intros fs Hk. destruct (grows_ensureDir k q fs) as [->|[H _]]; [done|].
  rewrite H in Hk. by destruct Hk.
Qed.

Lemma persists_writeFile k q c : persists k (writeFile q c).
Proof.
  intros fs Hk. unfold writeFile, call.
  destruct (writeFileSync q c fs) as [e|fs'] eqn:E; [done|]. simpl.
  apply writeFileSync_inr in E as (_ & _ & ->).
  destruct (decide (q = k)) as [->|Hne].
  - by rewrite lookup_insert_eq.
  - by rewrite lookup_insert_ne.
Qed.

(** X6. The manifest path merges into what is there: after a completed run
    every entry that existed still exists, every directory is a directory, and
    a file that is no file of the manifest and no placeholder has its
    content. *)
Theorem createProjectStructure_merges (targetPath : Path.t)
    (variables : TemplateVariables) (fs fs' : gmap Path.t node) :
  createProjectStructure targetPath variables fs = (Done tt, fs') ->
  (forall k, existsSync fs k = true -> existsSync fs' k = true) /\
  (forall k, fs !! k = Some Dir -> fs' !! k = Some Dir) /\
  (forall k c,
     fs !! k = Some (File c) ->
     k ∉ map (fun e => Path.join targetPath e.(path))
             (getProjectStructure variables) ->
     k ∉ map (placeholderOf targetPath) emptyDirs ->
     fs' !! k = Some (File c)).
Proof.
  intros Hrun. split; [|split].
  - intros k Hk.
    assert (persists k (createProjectStructure targetPath variables)) as Hp.
    { unfold createProjectStructure.
      apply persists_bind; [|apply persists_bind].
      - apply persists_forEach. intros dir _.
        apply persists_bind; [apply persists_ensureDir | apply persists_writeFile].
      - apply persists_ensureDir.
      - apply persists_forEach. intros e _.
        apply persists_bind; [apply persists_ensureDir | apply persists_writeFile]. }
    specialize (Hp fs). rewrite Hrun in Hp. simpl in Hp.
    unfold existsSync in *.
    destruct (fs !! k); [|done]. by destruct Hp as [x ->].
  - rewrite createProjectStructure_unfold in Hrun.
    apply bind_done in Hrun
      as ([] & fs1 & Hdirs & ([] & fs2 & Hpub%call_done & Hfiles)%bind_done).
    apply keepDir_loop in Hdirs as (_ & _ & Hd1); [|apply placeholder_NoDup].
    apply putFile_loop in Hfiles as (_ & _ & Hd2); [|apply manifest_NoDup].
    intros k Hk. by eapply Hd2, ensureDirSync_dir, Hd1.
  - rewrite createProjectStructure_unfold in Hrun.
    apply bind_done in Hrun
      as ([] & fs1 & Hdirs & ([] & fs2 & Hpub%call_done & Hfiles)%bind_done).
    apply keepDir_loop in Hdirs as (_ & Hf1 & _); [|apply placeholder_NoDup].
    apply putFile_loop in Hfiles as (_ & Hf2 & _); [|apply manifest_NoDup].
    intros k c Hk Hm Hp. apply Hf2; [|done].
    eapply ensureDirSync_file; [done|]. by apply Hf1.
Qed.

(** The run into a demo-app that holds a file of its own. *)
Lemma createProjectStructure_merges_witness :
  let fs := Examples.occupied.(files) in
  let fs' := (createProjectStructure Examples.target Examples.demo fs).2 in
  (forall k, existsSync fs k = true -> existsSync fs' k = true) /\
  (forall k, fs !! k = Some Dir -> fs' !! k = Some Dir) /\
  (forall k c,
     fs !! k = Some (File c) ->
     k ∉ map (fun e => Path.join Examples.target e.(path))
             (getProjectStructure Examples.demo) ->
     k ∉ map (placeholderOf Examples.target) emptyDirs ->
     fs' !! k = Some (File c)).
Proof.
  cbv zeta.
  apply (createProjectStructure_merges Examples.target Examples.demo
           Examples.occupied.(files)).
  apply run_done. vm_compute. reflexivity.
Defined.

(** X7. The manifest path is idempotent: run again with the same variables
    on the file system a completed run left, it completes and changes
    nothing. *)
Theorem createProjectStructure_idempotent (targetPath : Path.t)
    (variables : TemplateVariables) (fs fs' : gmap Path.t node) :
  createProjectStructure targetPath variables fs = (Done tt, fs') ->
  createProjectStructure targetPath variables fs' = (Done tt, fs').
Proof.
  intros Hrun.
  destruct (createProjectStructure_stages _ _ _ _ Hrun) as (Hfile & Hkeep & _).
  rewrite createProjectStructure_unfold in Hrun.
  apply bind_done in Hrun
    as ([] & fs1 & Hdirs & ([] & fs2 & Hpub%call_done & Hfiles)%bind_done).
  pose proof (loop_dirs (fun dir => Path.join targetPath dir)
                (placeholderOf targetPath) (fun _ => EmptyString)
                _ _ _ Hdirs) as [_ Hmade1].
  pose proof (loop_dirs (fun e => Path.dirname (Path.join targetPath e.(path)))
                (fun e => Path.join targetPath e.(path)) content
                _ _ _ Hfiles) as [Hdir2 Hmade2].
  assert (forall dir k, dir ∈ emptyDirs ->
            k `prefix_of` Path.join targetPath dir -> fs' !! k = Some Dir) as Hd.
  { intros dir k Hdir Hk. eapply Hdir2, ensureDirSync_dir; [done|].
    by eapply Hmade1. }
  assert (forall k, k `prefix_of` Path.join targetPath "public" ->
                    fs' !! k = Some Dir) as Hpublic.
  { intros k Hk. apply Hdir2. rewrite (ensureDirSync_lookup _ _ _ _ Hpub).
    by rewrite decide_True. }
  rewrite createProjectStructure_unfold.
  apply bind_done. exists tt, fs'. split; [|apply bind_done; exists tt, fs'; split].
  - apply forEach_again. intros dir Hdir. unfold keepDir.
    apply bind_done. exists tt, fs'. split.
    + apply ensureDir_again. intros k Hk. by eapply Hd.
    + apply writeFile_again.
      * apply Hkeep; [by apply placeholder_not_manifest | by exists dir].
      * rewrite (placeholderOf_emptyDir _ _ Hdir), app_assoc.
        unfold Path.dirname. rewrite removelast_last.
        rewrite <- (join_emptyDir _ _ Hdir). by eapply Hd.
  - by apply ensureDir_again.
  - apply forEach_again. intros e He. unfold putFile.
    apply bind_done. exists tt, fs'. split.
    + apply ensureDir_again. intros k Hk. by eapply Hmade2.
    + apply writeFile_again; [by apply Hfile|]. by eapply Hmade2.
Qed.

(** The run on the example machine, and the run after it. *)
Lemma createProjectStructure_idempotent_witness :
  let fs' := (createProjectStructure Examples.target Examples.demo
                Examples.machine).2 in
  createProjectStructure Examples.target Examples.demo fs' = (Done tt, fs').
Proof.
  cbv zeta.
  apply (createProjectStructure_idempotent Examples.target Examples.demo
           Examples.machine).
  apply run_done. vm_compute. reflexivity.
Defined.

End Frames.

(** X8. The template variables reach two files only.  The paths of the
    manifest are the same for all variables, every entry but package.json and
    README.md is the same, and package.json depends on the project name
    alone. *)
Theorem manifest_variables_reach_two_files (v1 v2 : TemplateVariables) :
  map path (getProjectStructure v1) = map path (getProjectStructure v2) /\
  fixedEntries v1 = fixedEntries v2 /\
  (v1.(projectName) = v2.(projectName) ->
   forall e, e ∈ getProjectStructure v1 -> e.(path) = "package.json" ->
             e ∈ getProjectStructure v2).
Proof.
  split; [|split].
  { cbv beta iota zeta delta [map path getProjectStructure]. reflexivity. }
  { cbv beta iota zeta delta [fixedEntries getProjectStructure List.filter path
                               negb andb String.eqb Ascii.eqb Bool.eqb].
    reflexivity. }
  intros Hname e He Hpath.
  assert ({| path := "package.json";
             content := Manifest.content_package_json v1.(projectName) |}
            ∈ getProjectStructure v2) as Hpkg.
  { rewrite Hname. apply list_elem_of_In. left. reflexivity. }
  apply list_elem_of_In in He.
  destruct He as [<-|He]; [exact Hpkg|].
  repeat (destruct He as [<-|He]; [discriminate Hpath|]). destruct He.
Qed.

(* ===================================================================== *)
(** * The substitution pass: what it touches, and when it has nothing to do *)
(* ===================================================================== *)

Section Substitution.
Import Str.

(** A token that starts a string is found in it. *)
Lemma prefix_includes (s t : string) : String.prefix t s = true -> includes s t = true.
Proof. intros H. destruct s; cbn [includes]; by rewrite H. Qed.

Lemma prefix_shorter (t r s : string) :
  String.prefix (t +:+ r) s = true -> String.prefix t s = true.
Proof.
  revert s. induction t as [|c t IH]; intros s; [by destruct s|].
  rewrite append_cons. destruct s as [|d s]; [done|]. simpl.
  destruct (ascii_dec c d); [apply IH | done].
Qed.

(** Where a token occurs, so does each of its prefixes. *)
Lemma includes_shorter (s t r : string) :
  includes s (t +:+ r) = true -> includes s t = true.
Proof.
  induction s as [|c s IH]; cbn [includes].
  - rewrite !orb_false_r. apply prefix_shorter.
  - intros [H|H]%orb_true_iff; apply orb_true_iff;
      [left; by eapply prefix_shorter | right; by apply IH].
Qed.

(** With no occurrence of the token, the replacement changes nothing. *)
Lemma replaceFrom_absent (tok repl : string) (s before : string) :
  includes s tok = false -> replaceFrom tok repl before 0 s = s.
Proof.
  revert before. induction s as [|c s IH]; intros before; [done|].
  cbn [includes replaceFrom]. intros [H1 H2]%orb_false_iff.
  rewrite H1. by rewrite IH.
Qed.

Lemma replaceAll_absent (tok repl s : string) :
  includes s tok = false -> replaceAll tok repl s = s.
Proof. apply replaceFrom_absent. Qed.
End Substitution.

Section Braces.
Import Str.

Lemma braceFree_append (a b : string) :
  braceFree (a +:+ b) = braceFree a && braceFree b.
Proof.
  unfold braceFree. induction a as [|c a IH]; [done|].
  rewrite append_cons. cbn [allChars]. by rewrite IH, andb_assoc.
Qed.

Lemma braceFree_concat (sep : string) (l : list string) :
  braceFree sep = true -> forallb braceFree l = true ->
  braceFree (String.concat sep l) = true.
Proof.
  intros Hsep. induction l as [|x l IH]; [done|].
  cbn [forallb]. intros [Hx Hl]%andb_true_iff.
  destruct l as [|y l]; [done|].
  change (String.concat sep (x :: y :: l))
    with (x +:+ sep +:+ String.concat sep (y :: l)).
  by rewrite !braceFree_append, Hx, Hsep, IH.
Qed.

Lemma braceFree_name (s : string) :
  allChars isNameChar s = true -> braceFree s = true.
Proof.
  unfold braceFree. induction s as [|c s IH]; [done|]. cbn [allChars].
  intros [Hc Hs]%andb_true_iff. rewrite (IH Hs), andb_true_r.
  destruct c as [[] [] [] [] [] [] [] []]; first [discriminate Hc | reflexivity].
Qed.

Lemma prefix_cons (c d : ascii) (t s : string) :
  String.prefix (String c t) (String d s)
  = if ascii_dec c d then String.prefix t s else false.
Proof. reflexivity. Qed.

(** Two braces in a row at the front. *)
Lemma prefix_braces (d : ascii) (s : string) :
  String.prefix "{{" (String d s)
  = Ascii.eqb d "{" && match s with
                       | String e _ => Ascii.eqb e "{"
                       | EmptyString => false
                       end.
Proof.
  change "{{" with (String "{" (String "{" EmptyString)).
  rewrite prefix_cons. destruct (ascii_dec "{" d) as [<-|Hd].
  - rewrite Ascii.eqb_refl. destruct s as [|e s]; [done|].
    rewrite prefix_cons. destruct (ascii_dec "{" e) as [<-|He].
    + rewrite Ascii.eqb_refl. by destruct s.
    + symmetry. apply andb_false_iff. right. apply Ascii.eqb_neq. congruence.
  - symmetry. apply andb_false_iff. left. apply Ascii.eqb_neq. congruence.
Qed.

(** Past a stretch without braces, two braces in a row are found where they
    are found in the rest. *)
Lemma includes_braces_skip (n b : string) :
  braceFree n = true -> includes (n +:+ b) "{{" = includes b "{{".
Proof.
  unfold braceFree. induction n as [|c n IH]; [done|]. cbn [allChars].
  intros [Hc Hn]%andb_true_iff. rewrite append_cons. cbn [includes].
  rewrite (IH Hn), prefix_braces.
  apply negb_true_iff in Hc. by rewrite Hc.
Qed.

(** Two braces in a row are not made by putting a name between two texts
    that have none. *)
Lemma includes_braces_sandwich (a n b : string) :
  includes a "{{" = false -> includes b "{{" = false ->
  braceFree n = true -> n <> EmptyString ->
  includes (a +:+ n +:+ b) "{{" = false.
Proof.
  intros Ha Hb Hn Hne. induction a as [|c a IH].
  - change (EmptyString +:+ n +:+ b) with (n +:+ b).
    by rewrite includes_braces_skip.
  - rewrite append_cons. cbn [includes] in Ha |- *.
    apply orb_false_iff in Ha as [Hp Ha]. rewrite (IH Ha), orb_false_r.
    rewrite prefix_braces in Hp |- *.
    destruct (Ascii.eqb c "{"); [|done]. cbn [andb] in Hp |- *.
    destruct a as [|d a].
    + destruct n as [|d n]; [done|]. rewrite append_cons.
      unfold braceFree in Hn. cbn [allChars] in Hn.
      apply andb_true_iff in Hn as [Hd _]. by apply negb_true_iff in Hd.
    + by rewrite append_cons.
Qed.

Lemma braceFree_no_braces (s : string) :
  braceFree s = true -> includes s "{{" = false.
Proof.
  intros H. rewrite <- (append_nil_r s). by rewrite includes_braces_skip.
Qed.

(** A token that starts with two braces is not found where two braces in a
    row are not. *)
Lemma token_absent (s rest : string) :
  includes s "{{" = false -> includes s ("{{" +:+ rest) = false.
Proof.
  intros H. destruct (includes s ("{{" +:+ rest)) eqn:E; [|done].
  apply includes_shorter in E. congruence.
Qed.

End Braces.

Section ManifestTokens.
Import Str.

(** A printed object whose first member is a string, cut at that string. *)
Lemma stringify_first_string (k s k' : string) (m : json)
    (members : list (string * json)) :
  stringify (JObject ((k, JString s) :: (k', m) :: members))
  = ("{" +:+ nl +:+ "  " +:+ quote k +:+ ": " +:+ dq)
    +:+ escapeAll s
    +:+ (dq +:+ ("," +:+ nl +:+ "  ")
         +:+ String.concat ("," +:+ nl +:+ "  ")
               (map (fun kv => quote kv.1 +:+ ": " +:+ serialize "  " kv.2)
                    ((k', m) :: members))
         +:+ nl +:+ "}").
Proof.
  change (stringify (JObject ((k, JString s) :: (k', m) :: members)))
    with ("{" +:+ nl +:+ EmptyString +:+ "  "
          +:+ ((quote k +:+ ": " +:+ (dq +:+ escapeAll s +:+ dq))
               +:+ ("," +:+ nl +:+ EmptyString +:+ "  ")
               +:+ String.concat ("," +:+ nl +:+ EmptyString +:+ "  ")
                     (map (fun kv => quote kv.1 +:+ ": " +:+ serialize "  " kv.2)
                          ((k', m) :: members)))
          +:+ nl +:+ EmptyString +:+ "}").
  unfold quote. rewrite !append_assoc. reflexivity.
Qed.

(** The package descriptor of the manifest has no two braces in a row, so
    none of the placeholders. *)
Lemma package_json_no_braces (name : string) :
  matchesName name = true ->
  includes (Manifest.content_package_json name) "{{" = false.
Proof.
  unfold matchesName. intros [Hne Hname]%andb_true_iff.
  unfold Manifest.content_package_json.
  rewrite stringify_first_string, (escapeAll_name name Hname).
  apply includes_braces_sandwich.
  - vm_compute. reflexivity.
  - vm_compute. reflexivity.
  - by apply braceFree_name.
  - intros ->. discriminate Hne.
Qed.

(** The readme of the manifest has no brace at all. *)
Lemma readme_braceFree (name installCmd devCmd : string) :
  braceFree name = true -> braceFree installCmd = true ->
  braceFree devCmd = true ->
  braceFree (Manifest.content_README_md name installCmd devCmd) = true.
Proof.
  intros Hn Hi Hd. unfold Manifest.content_README_md, lines.
  apply braceFree_concat; [reflexivity|].
  cbn [forallb]. rewrite braceFree_append, Hn, Hi, Hd. reflexivity.
Qed.

End ManifestTokens.

Section SubstitutionPass.
Import Str.

Implicit Types (fs : gmap Path.t node) (p k : Path.t).

Lemma generateFiles_unfold p (variables : TemplateVariables) fs :
  generateFiles p variables fs
  = (rewriteFile (Path.join p "package.json")
       (replaceAll "{{projectName}}" variables.(projectName)) ;;
     rewriteFile (Path.join p "README.md")
       (fun c => replaceAll "{{packageManager}}" variables.(packageManager)
                   (replaceAll "{{projectName}}" variables.(projectName) c))) fs.
Proof.
  unfold generateFiles, rewriteFile.
  cbv beta iota zeta delta [bind gets].
  by destruct (existsSync fs (Path.join p "package.json")).
Qed.

(** What one file of the pass does, case by case. *)
Lemma rewriteFile_cases p (f : string -> string) fs :
  (fs !! p = None /\ rewriteFile p f fs = (Done tt, fs)) \/
  (fs !! p = Some Dir /\
   rewriteFile p f fs = (Thrown (FsExn (IoError "EISDIR" p)), fs)) \/
  (exists c, fs !! p = Some (File c) /\
     ((isDir fs (Path.dirname p) = true /\
       rewriteFile p f fs = (Done tt, <[p := File (f c)]> fs)) \/
      (isDir fs (Path.dirname p) = false /\
       rewriteFile p f fs = (Thrown (FsExn (IoError "ENOENT" p)), fs)))).
Proof.
  unfold rewriteFile, readFile, writeFile, call, writeFileSync, readFileSync,
    existsSync, isDir.
  cbv beta iota zeta delta [bind gets ret].
  destruct (fs !! p) as [[c|]|] eqn:E; cbv beta iota; rewrite ?E; cbv beta iota.
  - right. right. exists c. split; [done|].
    destruct (fs !! Path.dirname p) as [[?|]|]; cbv beta iota;
      [by right | by left | by right].
  - right. by left.
  - by left.
Qed.

(** One file of the pass changes nothing elsewhere, and at its path only
    the content of a file. *)
Lemma rewriteFile_lookup p (f : string -> string) fs k :
  (rewriteFile p f fs).2 !! k = fs !! k \/
  (k = p /\ exists c c', fs !! k = Some (File c) /\
                         (rewriteFile p f fs).2 !! k = Some (File c')).
Proof.
  destruct (rewriteFile_cases p f fs)
    as [[_ ->]|[[_ ->]|(c & Hc & [[_ ->]|[_ ->]])]]; try by left.
  cbn [snd]. destruct (decide (k = p)) as [->|Hne].
  - right. split; [done|]. exists c, (f c). by rewrite lookup_insert_eq.
  - left. by rewrite lookup_insert_ne.
Qed.

(** X9. The substitution pass rewrites in place.  Whether it completes or
    throws, every entry of the file system is as it was, except that
    package.json and README.md below the project path, where they are files,
    may have another content: nothing is created, removed or turned into a
    directory. *)
Theorem generateFiles_rewrites_in_place (projectPath : Path.t)
    (variables : TemplateVariables) (fs : gmap Path.t node) (k : Path.t) :
  let fs' := (generateFiles projectPath variables fs).2 in
  fs' !! k = fs !! k \/
  ((k = Path.join projectPath "package.json" \/
    k = Path.join projectPath "README.md") /\
   exists c c', fs !! k = Some (File c) /\ fs' !! k = Some (File c')).
Proof.
  cbv zeta. rewrite generateFiles_unfold. unfold bind.
  pose proof (rewriteFile_lookup (Path.join projectPath "package.json")
                (replaceAll "{{projectName}}" variables.(projectName)) fs k) as H1.
  destruct (rewriteFile (Path.join projectPath "package.json") _ fs)
    as [[[]|e] fs1]; cbn [snd] in H1 |- *.
  - match goal with |- context [rewriteFile ?q ?f fs1] =>
      pose proof (rewriteFile_lookup q f fs1 k) as H2;
      destruct (rewriteFile q f fs1) as [r fs2] end.
    cbn [snd] in H2 |- *.
    destruct H2 as [H2|(-> & c & c' & Hc & Hc')].
    + rewrite H2. destruct H1 as [H1|(-> & c & c' & Hc & Hc')]; [by left|].
      right. split; [by left|]. by exists c, c'.
    + destruct H1 as [H1|(Hk & c0 & c0' & Hc0 & Hc0')].
      * right. split; [by right|]. exists c, c'. by rewrite <- H1.
      * right. split; [by right|]. by exists c0, c'.
  - destruct H1 as [H1|(-> & c & c' & Hc & Hc')]; [by left|].
    right. split; [by left|]. by exists c, c'.
Qed.

(** Files that hold no placeholder are left as they are. *)
Lemma generateFiles_unchanged p (variables : TemplateVariables) fs
    (pkg readme : string) :
  fs !! p = Some Dir ->
  fs !! (p ++ ["package.json"]) = Some (File pkg) ->
  fs !! (p ++ ["README.md"]) = Some (File readme) ->
  includes pkg "{{" = false -> includes readme "{{" = false ->
  generateFiles p variables fs = (Done tt, fs).
Proof.
  intros Hdir Hpkg Hreadme Hp Hr.
  rewrite (generateFiles_rewrites _ _ _ _ _ Hdir Hpkg Hreadme).
  rewrite (replaceAll_absent "{{projectName}}" _ pkg)
    by apply (token_absent pkg "projectName}}"), Hp.
  rewrite (replaceAll_absent "{{projectName}}" _ readme)
    by apply (token_absent readme "projectName}}"), Hr.
  rewrite (replaceAll_absent "{{packageManager}}" _ readme)
    by apply (token_absent readme "packageManager}}"), Hr.
  f_equal. rewrite (insert_id fs _ _ Hpkg). by apply insert_id.
Qed.

(** The package descriptor and the readme of the manifest, for valid
    variables, hold no placeholder. *)
Lemma manifest_no_placeholder (variables : TemplateVariables) :
  validVariables variables ->
  exists pkg readme,
    {| path := "package.json"; content := pkg |} ∈ getProjectStructure variables /\
    {| path := "README.md"; content := readme |} ∈ getProjectStructure variables /\
    includes pkg "{{" = false /\ includes readme "{{" = false.
Proof.
  intros [Hname Hpm]. eexists _, _.
  split; [apply list_elem_of_In; left; reflexivity|].
  split; [apply list_elem_of_In; do 5 right; left; reflexivity|].
  split; [by apply package_json_no_braces|].
  apply braceFree_no_braces, readme_braceFree.
  - apply braceFree_name. by apply andb_true_iff in Hname as [_ ?].
  - supported_cases Hpm; reflexivity.
  - supported_cases Hpm; reflexivity.
Qed.

End SubstitutionPass.

Section AfterManifest.
Import Str.

(** After a completed run of the manifest path the target and its ancestors
    are directories. *)
Lemma createProjectStructure_ancestors (t : Path.t)
    (variables : TemplateVariables) (fs fs' : gmap Path.t node) (k : Path.t) :
  createProjectStructure t variables fs = (Done tt, fs') ->
  k `prefix_of` t -> fs' !! k = Some Dir.
Proof.
  rewrite createProjectStructure_unfold.
  intros ([] & fs1 & Hdirs & ([] & fs2 & Hpub%call_done & Hfiles)%bind_done)%bind_done
    Hk.
  pose proof (loop_dirs (fun e => Path.dirname (Path.join t e.(path)))
                (fun e => Path.join t e.(path)) content
                _ _ _ Hfiles) as [Hdir2 _].
  apply Hdir2. rewrite (ensureDirSync_lookup _ _ _ _ Hpub).
  rewrite decide_True; [done|].
  rewrite join_plain by reflexivity. by apply prefix_app_r.
Qed.

(** For valid variables the pass finds nothing to replace in what the
    manifest path wrote. *)
Lemma generateFiles_after_manifest (t : Path.t)
    (variables : TemplateVariables) (fs fs' : gmap Path.t node) :
  validVariables variables ->
  createProjectStructure t variables fs = (Done tt, fs') ->
  generateFiles t variables fs' = (Done tt, fs').
Proof.
  intros Hvalid Hrun.
  destruct (manifest_no_placeholder variables Hvalid)
    as (pkg & readme & Hpkg & Hreadme & Hp & Hr).
  destruct (createProjectStructure_stages _ _ _ _ Hrun) as (Hfile & _ & _).
  pose proof (Hfile _ Hpkg) as H1. pose proof (Hfile _ Hreadme) as H2.
  rewrite join_plain in H1, H2 by reflexivity.
  eapply generateFiles_unchanged; [|exact H1|exact H2|exact Hp|exact Hr].
  by eapply createProjectStructure_ancestors.
Qed.

(** X10. After the manifest path the substitution pass has nothing to do.
    For a project name of letters, digits and hyphens and one of the four
    package managers, neither package.json nor README.md of the manifest
    holds a placeholder, and the pass, run on what a completed manifest path
    left, completes and changes nothing. *)
Theorem substitution_after_manifest (targetPath : Path.t)
    (variables : TemplateVariables) (fs fs' : gmap Path.t node) :
  validVariables variables ->
  createProjectStructure targetPath variables fs = (Done tt, fs') ->
  (forall e, e ∈ getProjectStructure variables ->
     e.(path) = "package.json" \/ e.(path) = "README.md" ->
     includes e.(content) "{{projectName}}" = false /\
     includes e.(content) "{{packageManager}}" = false) /\
  generateFiles targetPath variables fs' = (Done tt, fs').
Proof.
  intros Hvalid Hrun. split; [|by eapply generateFiles_after_manifest].
  destruct (manifest_no_placeholder variables Hvalid)
    as (pkg & readme & Hpkg & Hreadme & Hp & Hr).
  assert (forall e e', e ∈ getProjectStructure variables ->
            e' ∈ getProjectStructure variables ->
            e.(path) = e'.(path) -> e = e') as Hsame.
  { intros e e' He He' Hpath.
    pose proof (manifest_NoDup [] variables) as Hnd.
    apply list_elem_of_lookup in He as [i Hi], He' as [j Hj].
    assert (i = j) as ->; [|congruence].
    eapply (NoDup_lookup _ i j (Path.join [] e.(path))); [exact Hnd|..];
      rewrite list_lookup_fmap.
    - by rewrite Hi.
    - by rewrite Hj, Hpath. }
  intros e He [Hpath|Hpath].
  - rewrite (Hsame e _ He Hpkg Hpath). cbn [content].
    split; [apply (token_absent pkg "projectName}}"), Hp
           |apply (token_absent pkg "packageManager}}"), Hp].
  - rewrite (Hsame e _ He Hreadme Hpath). cbn [content].
    split; [apply (token_absent readme "projectName}}"), Hr
           |apply (token_absent readme "packageManager}}"), Hr].
Qed.

(** The run for demo-app and pnpm on the example machine. *)
Lemma substitution_after_manifest_witness :
  let fs' := (createProjectStructure Examples.target Examples.demo
                Examples.machine).2 in
  (forall e, e ∈ getProjectStructure Examples.demo ->
     e.(path) = "package.json" \/ e.(path) = "README.md" ->
     includes e.(content) "{{projectName}}" = false /\
     includes e.(content) "{{packageManager}}" = false) /\
  generateFiles Examples.target Examples.demo fs' = (Done tt, fs').
Proof.
  cbv zeta.
  apply (substitution_after_manifest Examples.target Examples.demo
           Examples.machine).
  - split; [reflexivity|]. apply (bool_decide_unpack _). vm_compute. exact I.
  - apply run_done. vm_compute. reflexivity.
Defined.



End AfterManifest.

(* ===================================================================== *)
(** * Runs of the command, from the command line to the disk *)
(* ===================================================================== *)

Section Runs.

Implicit Types (fs : gmap Path.t node) (t k : Path.t).

Lemma action_unattended (env : Env) (projectName : option string)
    (options : Options) (w : World) :
  options.(yes) = true ->
  action env projectName options w
  = createProject env (chosenOptions env projectName options)
      {| files := w.(files); trace := w.(trace) ++ [welcome] |}.
Proof.
  intros Hyes. unfold action, showWelcome, resolveOptions, chosenOptions,
    chosenProjectName, chosenPackageManager. rewrite Hyes. run. reflexivity.
Qed.






(** With --yes the run asks nothing, whether it completes or throws. *)
Lemma createProject_silent (env : Env) (o : CreateProjectOptions) (w : World) :
  default false o.(skipPrompts) = true ->
  default false o.(autoInstall) = false ->
  exists tr,
    (createProject env o w).2.(trace) = w.(trace) ++ tr /\
    forallb (fun e => negb (asks e)) tr = true.
Proof.
  intros Hskip Hauto.
  unfold createProject. run. rewrite Hskip, Hauto. run.
  destruct (existsSync _ _); run;
    (destruct (copyTemplates _ _ _ _) as [[[]|e1] fs1]; run;
     [ destruct (generateFiles _ _ _) as [[[]|e2] fs2]; run | ]);
    rewrite <- !app_assoc; cbn [app];
    (eexists; split; [reflexivity | reflexivity]).
Qed.

(** With --yes the answers of the user are not looked at. *)
Lemma createProject_answers (env env' : Env) (o : CreateProjectOptions)
    (w : World) :
  env.(cwd) = env'.(cwd) -> env.(moduleDir) = env'.(moduleDir) ->
  env.(shell) = env'.(shell) ->
  default false o.(skipPrompts) = true ->
  createProject env o w = createProject env' o w.
Proof.
  destruct env as [c m a1 a2 a3 sh], env' as [c' m' a1' a2' a3' sh'].
  cbn [cwd moduleDir shell]. intros <- <- <- Hskip.
  unfold createProject. rewrite Hskip. reflexivity.
Qed.

(** X13. With --yes the answers of the user play no part: the run is the same
    whatever they would have been, and it asks no question, whether it
    completes or throws. *)
Theorem yes_ignores_answers (env env' : Env) (projectName : option string)
    (options : Options) (w : World) :
  options.(yes) = true ->
  env.(cwd) = env'.(cwd) -> env.(moduleDir) = env'.(moduleDir) ->
  env.(shell) = env'.(shell) ->
  main env projectName options w = main env' projectName options w /\
  exists tr,
    (main env projectName options w).2.(trace) = w.(trace) ++ tr /\
    forallb (fun e => negb (asks e)) tr = true.
Proof.
  intros Hyes Hcwd Hdir Hshell.
  assert (chosenOptions env projectName options
          = chosenOptions env' projectName options) as Ho.
  { unfold chosenOptions, chosenProjectName, chosenPackageManager.
    by rewrite Hyes. }
  assert (default false (chosenOptions env projectName options).(skipPrompts)
          = true) as Hskip by (cbn; by rewrite Hyes).
  assert (default false (chosenOptions env projectName options).(autoInstall)
          = false) as Hauto by (cbn; by rewrite Hyes).
  split.
  - unfold main. rewrite !(action_unattended _ _ _ _ Hyes), <- Ho.
    by rewrite (createProject_answers env env' _ _ Hcwd Hdir Hshell Hskip).
  - unfold main. rewrite (action_unattended _ _ _ _ Hyes).
    destruct (createProject_silent env _
                {| files := w.(files); trace := w.(trace) ++ [welcome] |}
                Hskip Hauto) as (tr & Htr & Hasks).
    cbn [trace] in Htr.
    destruct (createProject _ _ _) as [[[]|e] w']; cbn [snd trace] in Htr |- *.
    + exists (welcome :: tr). rewrite Htr, <- app_assoc. by split.
    + exists (welcome :: tr ++ [LogError (Str.nl +:+ "❌ Error creating project:");
                                LogThrown e]).
      rewrite Htr, <- !app_assoc. split; [done|].
      cbn [forallb asks negb andb welcome]. rewrite forallb_app, Hasks. done.
Qed.

(** Where a file stands in the way of the target the materialiser throws
    before it writes. *)
Lemma copyTemplates_blocked (T t : Path.t) (variables : TemplateVariables)
    fs k :
  k `prefix_of` t -> isFile fs k = true ->
  copyTemplates T t variables fs
  = (Thrown (FsExn (IoError "ENOTDIR" t)), fs).
Proof.
  intros Hk Hfile. unfold copyTemplates, ensureDir, call, ensureDirSync.
  cbv beta iota zeta delta [bind].
  destruct (forallb _ _) eqn:E; [|done].
  rewrite forallb_forall in E. apply elem_of_inits, list_elem_of_In in Hk.
  specialize (E k Hk). by rewrite Hfile in E.
Qed.

(** A run whose materialiser or substitution pass throws. *)
Ltac cut_trace :=
  first [ eexists [_]; split; reflexivity
        | eexists [_; _]; split; reflexivity
        | eexists [_; _; _]; split; reflexivity
        | eexists [_; _; _; _]; split; reflexivity
        | eexists [_; _; _; _; _]; split; reflexivity
        | eexists [_; _; _; _; _; _]; split; reflexivity ].

Lemma createProject_fails (env : Env) (o : CreateProjectOptions) (w : World)
    (e : exn) (fsE : gmap Path.t node) :
  (existsSync w.(files) (projectPathOf env o) = true ->
   default false o.(skipPrompts) = true \/ env.(answerOverwrite) = true) ->
  (copyTemplates (templatesPathOf env) (projectPathOf env o) (variablesOf o)
     (cleared w.(files) (projectPathOf env o)) = (Thrown e, fsE) \/
   exists fs1,
     copyTemplates (templatesPathOf env) (projectPathOf env o) (variablesOf o)
       (cleared w.(files) (projectPathOf env o)) = (Done tt, fs1) /\
     generateFiles (projectPathOf env o) (variablesOf o) fs1 = (Thrown e, fsE)) ->
  exists tr0,
    createProject env o w
    = (Thrown e,
       {| files := fsE;
          trace := w.(trace) ++ tr0
                   ++ [ LogError (Str.nl +:+ "❌ Error creating project:");
                        LogError (errorMessage e);
                        LogThrown e ] |}) /\
    forallb progressOnly tr0 = true.
Proof.
  intros Hgo Hstage.
  unfold projectPathOf, templatesPathOf, variablesOf, cleared in *.
  unfold createProject. run.
  revert Hgo Hstage. destruct (existsSync _ _); intros Hgo Hstage.
  - destruct (default false (skipPrompts o)) eqn:Hskip; run.
    + destruct Hstage as [Hcopy|(fs1 & Hcopy & Hgen)]; rewrite Hcopy; run;
        rewrite ?Hgen; run; rewrite <- !app_assoc; cbn [app];
        cut_trace.
    + destruct (Hgo eq_refl) as [?|Hanswer]; [done|]. rewrite Hanswer. run.
      destruct Hstage as [Hcopy|(fs1 & Hcopy & Hgen)]; rewrite Hcopy; run;
        rewrite ?Hgen; run; rewrite <- !app_assoc; cbn [app];
        cut_trace.
  - run. destruct Hstage as [Hcopy|(fs1 & Hcopy & Hgen)]; rewrite Hcopy; run;
      rewrite ?Hgen; run; rewrite <- !app_assoc; cbn [app];
      cut_trace.
Qed.

(** X14. A failure of the materialiser or of the substitution pass ends the
    run: the process exits with status 1, the error is printed by
    createProject and again by the action, and before that only prompts and
    progress lines were shown (no success message, no next steps, no child
    process).  The file system stays as the failed step left it. *)
Theorem failure_is_fatal (env : Env) (projectName : option string)
    (options : Options) (w : World) (e : exn) (fsE : gmap Path.t node) :
  let o := chosenOptions env projectName options in
  (existsSync w.(files) (projectPathOf env o) = true ->
   options.(yes) = true \/ env.(answerOverwrite) = true) ->
  (copyTemplates (templatesPathOf env) (projectPathOf env o) (variablesOf o)
     (cleared w.(files) (projectPathOf env o)) = (Thrown e, fsE) \/
   exists fs1,
     copyTemplates (templatesPathOf env) (projectPathOf env o) (variablesOf o)
       (cleared w.(files) (projectPathOf env o)) = (Done tt, fs1) /\
     generateFiles (projectPathOf env o) (variablesOf o) fs1 = (Thrown e, fsE)) ->
  exists tr0,
    main env projectName options w
    = (1, {| files := fsE;
             trace := w.(trace) ++ welcome :: tr0 ++ errorReport e |}) /\
    forallb progressOnly tr0 = true.
Proof.
  intros o Hgo Hstage.
  destruct (action_run env projectName options w) as (asked & Haction & Hasks).
  destruct (createProject_fails env o
              {| files := w.(files); trace := w.(trace) ++ welcome :: asked |}
              e fsE) as (tr0 & Hrun & Hquiet).
  { cbn [files]. intros Hex. destruct (Hgo Hex) as [Hyes|Hanswer]; [left|by right].
    subst o. cbn. by rewrite Hyes. }
  { exact Hstage. }
  exists (asked ++ tr0). split.
  - unfold main. rewrite Haction. fold o. rewrite Hrun. cbn [files trace].
    unfold errorReport. f_equal. f_equal.
    rewrite <- !app_assoc. cbn [app]. by rewrite <- ?app_assoc.
  - rewrite forallb_app, Hquiet, andb_true_r.
    clear -Hasks. induction asked as [|[] asked IH]; try done.
    cbn [forallb asks andb] in Hasks |- *. by apply IH.
Qed.

(** A project name that leads through a file: [demo-app/notes.txt/app],
    where notes.txt is a file. *)
Lemma failure_is_fatal_witness :
  exists tr0,
    main Examples.user (Some "demo-app/notes.txt/app") Examples.unattended
         Examples.occupied
    = (1, {| files := Examples.occupied.(files);
             trace := Examples.occupied.(trace)
                      ++ welcome
                         :: tr0
                         ++ errorReport
                              (FsExn (IoError "ENOTDIR"
                                        ["home"; "u"; "demo-app"; "notes.txt"; "app"])) |}) /\
    forallb progressOnly tr0 = true.
Proof.
  apply (failure_is_fatal Examples.user (Some "demo-app/notes.txt/app")
           Examples.unattended Examples.occupied).
  - intros _. left. reflexivity.
  - left.
    refine (copyTemplates_blocked _ _ _ _ ["home"; "u"; "demo-app"; "notes.txt"] _ _).
    + by exists ["app"].
    + reflexivity.
Defined.

(** Another user at the same machine: other answers. *)
Lemma yes_ignores_answers_witness :
  main Examples.user (Some "demo-app") Examples.unattended Examples.start
  = main Examples.other (Some "demo-app") Examples.unattended Examples.start /\
  exists tr,
    (main Examples.user (Some "demo-app") Examples.unattended
       Examples.start).2.(trace) = Examples.start.(trace) ++ tr /\
    forallb (fun e => negb (asks e)) tr = true.
Proof.
  apply (yes_ignores_answers Examples.user Examples.other (Some "demo-app")
           Examples.unattended Examples.start); reflexivity.
Defined.

(** A name of letters, digits and hyphens is one path component. *)
Lemma name_is_one_component (base : Path.t) (name : string) :
  Str.matchesName name = true -> Path.join base name = base ++ [name].
Proof.
  unfold Str.matchesName. intros [Hne Hname]%andb_true_iff.
  assert (Path.split name = [name]) as Hsplit.
  { clear Hne. induction name as [|c s IH]; [done|].
    cbn [Str.allChars] in Hname. apply andb_true_iff in Hname as [Hc Hs].
    cbn [Path.split]. rewrite (IH Hs).
    destruct c as [[] [] [] [] [] [] [] []];
      first [discriminate Hc | reflexivity]. }
  rewrite join_plain, Hsplit; [done|].
  unfold plain. rewrite Hsplit. cbn [forallb]. rewrite andb_true_r.
  unfold plainSegment. rewrite Hne. cbn [andb].
  destruct name as [|c s]; [done|].
  cbn [Str.allChars] in Hname. apply andb_true_iff in Hname as [Hc _].
  destruct c as [[] [] [] [] [] [] [] []];
    first [discriminate Hc | reflexivity].
Qed.

(** X16. What the project-name prompt accepts is a valid project name once
    trimmed: when the name comes from the prompt and the package manager from
    the prompt or from a flag with one of the four values, createProject is
    called with a name of letters, digits and hyphens and a supported package
    manager, and the name is one path component below the working
    directory. *)
Theorem accepted_answer_is_valid (env : Env) (projectName : option string)
    (options : Options) :
  let o := chosenOptions env projectName options in
  options.(yes) = false ->
  given projectName = false ->
  validate env.(answerProjectName) = inr tt ->
  (forall pm, options.(flagPackageManager) = Some pm -> pm <> EmptyString ->
              supported pm) ->
  validVariables (variablesOf o) /\
  o.(optProjectName) = Str.trim env.(answerProjectName) /\
  projectPathOf env o = env.(cwd) ++ [o.(optProjectName)].
Proof.
  intros o Hyes Hgiven Hvalid Hflag.
  apply validate_accepts in Hvalid.
  assert (o.(optProjectName) = Str.trim env.(answerProjectName)) as Hname.
  { subst o. cbn. unfold chosenProjectName. by rewrite Hyes, Hgiven. }
  split; [|split; [exact Hname|]].
  - split.
    + change (Str.matchesName o.(optProjectName) = true). by rewrite Hname.
    + change (supported o.(optPackageManager)).
      subst o. cbn. unfold chosenPackageManager. rewrite Hyes.
      destruct (flagPackageManager options) as [pm|] eqn:E; cbn [given].
      * destruct (Str.truthy pm) eqn:Ht; cbn [negb orElse].
        -- rewrite Ht. apply Hflag; [done|]. intros ->. discriminate Ht.
        -- apply (bool_decide_unpack _).
           by destruct (answerPackageManager env); vm_compute.
      * apply (bool_decide_unpack _).
        by destruct (answerPackageManager env); vm_compute.
  - unfold projectPathOf. rewrite Hname. apply name_is_one_component, Hvalid.
Qed.

(** The padded answer of the example: the run settles on my-app. *)
Lemma accepted_answer_is_valid_witness :
  let o := chosenOptions Examples.other None Examples.interactive in
  validVariables (variablesOf o) /\
  o.(optProjectName) = Str.trim Examples.other.(answerProjectName) /\
  projectPathOf Examples.other o = Examples.other.(cwd) ++ [o.(optProjectName)].
Proof.
  apply (accepted_answer_is_valid Examples.other None Examples.interactive).
  - reflexivity.
  - reflexivity.
  - reflexivity.
  - intros pm H. discriminate H.
Defined.

End Runs.

(* ===================================================================== *)
(** * The check of test-local.js *)
(* ===================================================================== *)

Section Verify.

(** The loop over files that are all there: one line each, and the flag is
    kept. *)
Lemma verifyLoop_found (projectPath : Path.t) (l : list string) (b : bool)
    (w : World) :
  (forall file, file ∈ l -> existsSync w.(files) (Path.join projectPath file) = true) ->
  verifyLoop projectPath l b w
  = (Done b, {| files := w.(files);
                trace := w.(trace) ++ map (fun file => Log ("  ✅ " +:+ file)) l |}).
Proof.
  revert w. induction l as [|file l IH]; intros w Hall.
  - cbn [verifyLoop map]. unfold ret. rewrite app_nil_r. by destruct w.
  - cbn [verifyLoop map]. run.
    rewrite (Hall file) by (by left). run.
    rewrite IH by (intros f Hf; cbn [files]; apply Hall; by right).
    cbn [files trace]. by rewrite <- app_assoc.
Qed.

(** The files the check looks for are files of the manifest. *)
Lemma requiredFiles_in_manifest (variables : TemplateVariables) (file : string) :
  file ∈ requiredFiles ->
  exists e, e ∈ getProjectStructure variables /\ e.(path) = file.
Proof.
  unfold requiredFiles. intros H.
  repeat (apply elem_of_cons in H; destruct H as [->|H]);
    [ .. | by apply elem_of_nil in H ];
    (eexists; split; [apply list_elem_of_In|]);
    [ left; reflexivity | reflexivity
    | do 1 right; left; reflexivity | reflexivity
    | do 2 right; left; reflexivity | reflexivity
    | do 8 right; left; reflexivity | reflexivity
    | do 6 right; left; reflexivity | reflexivity
    | do 19 right; left; reflexivity | reflexivity ].
Qed.

(** X15. The check of test-local.js passes on what the manifest path wrote:
    after a completed run of createProjectStructure, whatever the variables
    and the target, the verification finds each of its six required files,
    prints one line for each and reports success. *)
Theorem verifyProject_passes (targetPath : Path.t)
    (variables : TemplateVariables) (fs fs' : gmap Path.t node)
    (printed : list event) :
  createProjectStructure targetPath variables fs = (Done tt, fs') ->
  verifyProject targetPath {| files := fs'; trace := printed |}
  = (Done true,
     {| files := fs';
        trace := printed
                 ++ map (fun file => Log ("  ✅ " +:+ file)) requiredFiles |}).
Proof.
  intros Hrun. unfold verifyProject.
  apply (verifyLoop_found targetPath requiredFiles true
           {| files := fs'; trace := printed |}).
  intros file Hfile. cbn [files].
  destruct (requiredFiles_in_manifest variables file Hfile) as (e & He & <-).
  destruct (createProjectStructure_stages _ _ _ _ Hrun) as (Hput & _ & _).
  unfold existsSync. by rewrite (Hput e He).
Qed.

(** The check after the run for demo-app and pnpm on the example machine. *)
Lemma verifyProject_passes_witness :
  let fs' := (createProjectStructure Examples.target Examples.demo
                Examples.machine).2 in
  verifyProject Examples.target {| files := fs'; trace := [] |}
  = (Done true,
     {| files := fs';
        trace := [] ++ map (fun file => Log ("  ✅ " +:+ file)) requiredFiles |}).
Proof.
  cbv zeta.
  apply (verifyProject_passes Examples.target Examples.demo Examples.machine).
  apply run_done. vm_compute. reflexivity.
Defined.

End Verify.

(* ===================================================================== *)
(** * The copy of a templates directory: what decides *)
(* ===================================================================== *)

Section CopyDecided.
Import Str.

Lemma prefix_append_r (t s r : string) :
  String.prefix t s = true -> String.prefix t (s +:+ r) = true.
Proof.
  revert s. induction t as [|c t IH]; intros s; [by destruct (s +:+ r)|].
  destruct s as [|d s]; [done|]. rewrite append_cons, !prefix_cons.
  destruct (ascii_dec c d); [apply IH | done].
Qed.

(** What a text includes, every longer text includes. *)
Lemma includes_append_r (s r t : string) :
  includes s t = true -> includes (s +:+ r) t = true.
Proof.
  induction s as [|c s IH].
  - cbn [includes]. rewrite orb_false_r. intros H.
    apply prefix_includes. by apply (prefix_append_r t EmptyString r).
  - rewrite append_cons. cbn [includes].
    intros [H|H]%orb_true_iff; apply orb_true_iff.
    + left. by apply (prefix_append_r t (String c s) r).
    + right. by apply IH.
Qed.

(** The filter that accepts a text accepts every text it starts with. *)
Lemma copyFilter_shorter (s r : string) :
  copyFilter (s +:+ r) = true -> copyFilter s = true.
Proof.
  unfold copyFilter.
  intros [[H1 H2]%andb_true_iff H3]%andb_true_iff.
  apply negb_true_iff in H1, H2, H3.
  repeat (apply andb_true_iff; split); apply negb_true_iff;
    match goal with |- includes s ?t = false =>
      destruct (includes s t) eqn:E; [|done];
      apply (includes_append_r s r t) in E; congruence
    end.
Qed.

(** The text of a path starts with the text of each of its ancestors. *)
Lemma toString_app (p q : Path.t) :
  exists rest, Path.toString (p ++ q) = Path.toString p +:+ rest.
Proof.
  destruct p as [|s p].
  - destruct q as [|x q]; [by exists EmptyString|]. cbn [app].
    destruct (toString_cons x q) as (rest & ->). by exists (x +:+ rest).
  - induction p as [|y p IH] in s |- *.
    + destruct q as [|x q]; [exists EmptyString; by rewrite append_nil_r|].
      exists (Path.toString (x :: q)).
      change ([s] ++ x :: q) with (s :: x :: q).
      rewrite (toString_tail s (x :: q)) by done. reflexivity.
    + destruct (IH y) as (rest & Hrest). exists rest.
      change ((s :: y :: p) ++ q) with (s :: ((y :: p) ++ q)).
      rewrite (toString_tail s ((y :: p) ++ q)) by done.
      rewrite (toString_tail s (y :: p)) by done.
      rewrite Hrest. symmetry. apply append_assoc.
Qed.

(** With this filter the walk refuses nothing that the test of the entry's
    own path accepts: an entry is visited exactly when the text of its whole
    source path holds none of the three names. *)
Lemma visited_copyFilter (src rel : Path.t) :
  visited copyFilter src rel = copyFilter (Path.toString (src ++ rel)).
Proof.
  unfold visited.
  destruct (copyFilter (Path.toString (src ++ rel))) eqn:E.
  - apply forallb_forall. intros r [z ->]%list_elem_of_In%elem_of_inits.
    rewrite app_assoc in E.
    destruct (toString_app (src ++ r) z) as (rest & Hrest).
    rewrite Hrest in E. by apply copyFilter_shorter in E.
  - destruct (forallb _ _) eqn:F; [|done].
    rewrite forallb_forall in F.
    rewrite <- E. symmetry. apply F, list_elem_of_In, elem_of_inits. done.
Qed.

(** The copy writes at the destination and below it, and makes the
    ancestors of the destination. *)
Lemma copySync_outside (flt : string -> bool) (T t : Path.t)
    (fs fs' : gmap Path.t node) (k : Path.t) :
  copySync flt T t fs = inr fs' ->
  ~ t `prefix_of` k -> ~ k `prefix_of` t -> fs' !! k = fs !! k.
Proof.
  intros Hcopy Hout Hup. unfold copySync in Hcopy.
  destruct (fs !! T) as [n|]; [|done].
  destruct (bool_decide _); [done|].
  destruct (clash fs (t, n)); [done|].
  destruct (flt (Path.toString T)); cbn [negb] in Hcopy;
    [|by injection Hcopy as <-].
  destruct (ensureDirSync (Path.dirname t) fs) as [e|fs1] eqn:Hdir; [done|].
  destruct (existsb _ _); [done|]. injection Hcopy as <-.
  rewrite lookup_union.
  assert ((list_to_map (selection flt T t fs) : gmap Path.t node) !! k = None)
    as ->.
  { apply not_elem_of_list_to_map_1.
    intros ([k' n'] & -> & (rel & Hk & _)%elem_of_selection)%list_elem_of_fmap.
    cbn [fst] in Hout. apply Hout. exists rel. exact Hk. }
  rewrite (ensureDirSync_lookup _ _ _ _ Hdir), decide_False.
  - by destruct (fs !! k).
  - intros Hk. apply Hup. etrans; [exact Hk | apply dirname_prefix].
Qed.

(** X17. What the copy of a templates directory carries over is decided by
    the text of each entry's whole source path.  Into a fresh target the
    materialiser copies an entry exactly when that text holds none of
    node_modules, .git and dist, as a component or as part of one; the
    templates and everything else outside the target and its ancestors stay
    as they were. *)
Theorem copy_is_decided_by_the_path_text (templatesPath targetPath : Path.t)
    (variables : TemplateVariables) (fs : gmap Path.t node) :
  freshTarget fs targetPath ->
  ~ templatesPath `prefix_of` targetPath ->
  fs !! templatesPath = Some Dir ->
  exists fs',
    copyTemplates templatesPath targetPath variables fs = (Done tt, fs') /\
    fs' !! targetPath = Some Dir /\
    (forall rel, rel <> [] ->
       fs' !! (targetPath ++ rel)
       = if copyFilter (Path.toString (templatesPath ++ rel))
         then fs !! (templatesPath ++ rel) else None) /\
    (forall k, ~ targetPath `prefix_of` k -> ~ k `prefix_of` targetPath ->
       fs' !! k = fs !! k).
Proof.
  intros Hfresh Hapart HT.
  destruct (copyTemplates_fresh templatesPath targetPath variables fs Hfresh Hapart) as (fs' & Hrun & Htree).
  { unfold isFile. by rewrite HT. }
  exists fs'. split; [exact Hrun|].
  unfold materialisedNode in Htree. rewrite HT in Htree.
  split; [|split].
  - specialize (Htree []). by rewrite app_nil_r in Htree.
  - intros rel Hrel. rewrite Htree. destruct rel as [|s rel]; [done|].
    rewrite visited_copyFilter.
    destruct (copyFilter (Path.toString (templatesPath ++ s :: rel))) eqn:E;
      [|by rewrite andb_false_r].
    destruct (toString_app templatesPath (s :: rel)) as (rest & Hrest).
    rewrite Hrest in E. by rewrite (copyFilter_shorter _ _ E).
  - intros k Hout Hup.
    destruct (freshTarget_ensured targetPath fs Hfresh) as (fsA & HfsA & _ & Hsame).
    unfold copyTemplates, ensureDir in Hrun.
    cbv beta iota zeta delta [bind gets call] in Hrun. rewrite HfsA in Hrun.
    assert (fsA !! templatesPath = Some Dir) as HTA by (by rewrite Hsame).
    unfold existsSync in Hrun. rewrite HTA in Hrun.
    destruct (copySync copyFilter templatesPath targetPath fsA) as [e|fs''] eqn:Hcopy; [done|].
    injection Hrun as <-.
    rewrite (copySync_outside _ _ _ _ _ k Hcopy Hout Hup). by apply Hsame.
Qed.

(** The copy of the example templates into demo-app. *)
Lemma copy_is_decided_by_the_path_text_witness :
  exists fs',
    copyTemplates Examples.templates Examples.target Examples.demo
      Examples.withTemplates = (Done tt, fs') /\
    fs' !! Examples.target = Some Dir /\
    (forall rel, rel <> [] ->
       fs' !! (Examples.target ++ rel)
       = if copyFilter (Path.toString (Examples.templates ++ rel))
         then Examples.withTemplates !! (Examples.templates ++ rel) else None) /\
    (forall k, ~ Examples.target `prefix_of` k -> ~ k `prefix_of` Examples.target ->
       fs' !! k = Examples.withTemplates !! k).
Proof.
  apply (copy_is_decided_by_the_path_text Examples.templates Examples.target
           Examples.demo Examples.withTemplates).
  - apply isFresh_freshTarget. vm_compute. reflexivity.
  - intros [r Hr]. discriminate Hr.
  - vm_compute. reflexivity.
Defined.

(** X18. Templates that lie under a directory named node_modules, .git or
    dist are never copied: the filter refuses the templates directory itself,
    so the target is created and stays empty, and the substitution pass finds
    nothing to rewrite.  (A package installed by npm lies under
    node_modules.) *)
Theorem templates_under_excluded_directory (templatesPath targetPath : Path.t)
    (variables : TemplateVariables) (fs : gmap Path.t node) (seg : string) :
  freshTarget fs targetPath ->
  ~ templatesPath `prefix_of` targetPath ->
  fs !! templatesPath = Some Dir ->
  seg ∈ templatesPath -> seg ∈ excludedNames ->
  exists fs',
    copyTemplates templatesPath targetPath variables fs = (Done tt, fs') /\
    fs' !! targetPath = Some Dir /\
    (forall rel, rel <> [] -> fs' !! (targetPath ++ rel) = None) /\
    generateFiles targetPath variables fs' = (Done tt, fs').
Proof.
  intros Hfresh Hapart HT Hseg Hex.
  destruct (copyTemplates_fresh templatesPath targetPath variables fs Hfresh Hapart)
    as (fs' & Hrun & Htree).
  { unfold isFile. by rewrite HT. }
  unfold materialisedNode in Htree. rewrite HT in Htree.
  assert (fs' !! targetPath = Some Dir) as Hdir.
  { specialize (Htree []). by rewrite app_nil_r in Htree. }
  assert (forall rel, rel <> [] -> fs' !! (targetPath ++ rel) = None) as Hempty.
  { intros rel Hrel. rewrite Htree. destruct rel as [|s rel]; [done|].
    by rewrite (copyFilter_component templatesPath seg Hseg Hex). }
  exists fs'. split; [exact Hrun|]. split; [exact Hdir|]. split; [exact Hempty|].
  rewrite generateFiles_unfold, !join_plain by reflexivity. unfold bind.
  destruct (rewriteFile_cases (targetPath ++ Path.split "package.json")
              (replaceAll "{{projectName}}" variables.(projectName)) fs')
    as [[_ ->]|[[H _]|(c & H & _)]];
    [|rewrite Hempty in H; done..].
  match goal with |- context [rewriteFile ?q ?f fs'] =>
    destruct (rewriteFile_cases q f fs') as [[_ ->]|[[H _]|(c & H & _)]] end;
    [done|rewrite Hempty in H; done..].
Qed.

(** The tool installed by npm under [/usr/lib/node_modules], with its
    templates. *)
Lemma templates_under_excluded_directory_witness :
  exists fs',
    copyTemplates (Examples.packaged ++ ["templates"]) Examples.target
      Examples.demo Examples.installed = (Done tt, fs') /\
    fs' !! Examples.target = Some Dir /\
    (forall rel, rel <> [] -> fs' !! (Examples.target ++ rel) = None) /\
    generateFiles Examples.target Examples.demo fs' = (Done tt, fs').
Proof.
  apply (templates_under_excluded_directory (Examples.packaged ++ ["templates"])
           Examples.target Examples.demo Examples.installed "node_modules").
  - apply isFresh_freshTarget. vm_compute. reflexivity.
  - intros [r Hr]. discriminate Hr.
  - vm_compute. reflexivity.
  - apply (bool_decide_unpack _). vm_compute. exact I.
  - apply (bool_decide_unpack _). vm_compute. exact I.
Defined.

End CopyDecided.

(* ===================================================================== *)
(** * The installation that succeeds *)
(* ===================================================================== *)

Section Installed.

(** The child that exits with status zero. *)
Lemma execSync_succeeds (env : Env) (c : string) (dir : Path.t) (w : World) :
  (env.(shell) c dir w.(files)).1 = true ->
  execSync env (Some c) dir w
  = (Done tt, {| files := (env.(shell) c dir w.(files)).2;
                 trace := w.(trace) ++ [Spawn c dir] |}).
Proof.
  intros Hok. unfold execSync. run.
  destruct (shell env c dir (files w)) as [ok fs']. cbn [fst snd] in *.
  by rewrite Hok.
Qed.

Lemma createProject_installs (env : Env) (o : CreateProjectOptions)
    (w : World) (fs1 fs2 : gmap Path.t node) (c : string) :
  default false o.(autoInstall) = true ->
  (existsSync w.(files) (projectPathOf env o) = true ->
   default false o.(skipPrompts) = true \/ env.(answerOverwrite) = true) ->
  copyTemplates (templatesPathOf env) (projectPathOf env o) (variablesOf o)
    (cleared w.(files) (projectPathOf env o)) = (Done tt, fs1) ->
  generateFiles (projectPathOf env o) (variablesOf o) fs1 = (Done tt, fs2) ->
  getInstallCommand o.(optPackageManager) = Some c ->
  (env.(shell) c (projectPathOf env o) fs2).1 = true ->
  exists tr0,
    createProject env o w
    = (Done tt,
       {| files := (env.(shell) c (projectPathOf env o) fs2).2;
          trace := w.(trace) ++ tr0 ++ creationEvents
                   ++ installedEvents env o c |}) /\
    forallb progressOnly tr0 = true.
Proof.
  intros Hauto Hgo Hcopy Hgen Hcmd Hok.
  unfold projectPathOf, templatesPathOf, variablesOf, cleared in *.
  assert (forall tr,
    execSync env (getInstallCommand (optPackageManager o))
      (Path.join (cwd env) (optProjectName o)) {| files := fs2; trace := tr |}
    = (Done tt,
       {| files := (env.(shell) c (Path.join (cwd env) (optProjectName o)) fs2).2;
          trace := tr ++ [Spawn c (Path.join (cwd env) (optProjectName o))] |}))
    as Hexec.
  { intros tr. rewrite Hcmd. by apply execSync_succeeds. }
  unfold createProject, installedEvents, creationEvents, projectPathOf.
  run. rewrite Hauto. run.
  revert Hgo Hcopy. destruct (existsSync _ _); intros Hgo Hcopy.
  - destruct (default false (skipPrompts o)) eqn:Hskip; run.
    + rewrite Hcopy. run. rewrite Hgen. run. rewrite Hexec. run.
      rewrite <- !app_assoc. cbn [app].
      eexists [_; _]. split; reflexivity.
    + destruct (Hgo eq_refl) as [?|Hanswer]; [done|]. rewrite Hanswer. run.
      rewrite Hcopy. run. rewrite Hgen. run. rewrite Hexec. run.
      rewrite <- !app_assoc. cbn [app].
      eexists [_; _; _]. split; reflexivity.
  - run. rewrite Hcopy. run. rewrite Hgen. run. rewrite Hexec. run.
    rewrite <- !app_assoc. cbn [app].
    exists []. split; reflexivity.
Qed.

(** X19. An installation that succeeds.  In an interactive run whose
    materialiser and substitution pass complete and whose installer exits with
    status zero, the install command is run once, in the project directory,
    after the project is reported as created; the spinner succeeds, the next
    steps no longer name the install command, and the process ends with
    status 0 on the file system the installer left. *)
Theorem install_success_is_reported (env : Env) (projectName : option string)
    (options : Options) (w : World) (fs1 fs2 : gmap Path.t node) (c : string) :
  let o := chosenOptions env projectName options in
  options.(yes) = false ->
  (existsSync w.(files) (projectPathOf env o) = true ->
   env.(answerOverwrite) = true) ->
  copyTemplates (templatesPathOf env) (projectPathOf env o) (variablesOf o)
    (cleared w.(files) (projectPathOf env o)) = (Done tt, fs1) ->
  generateFiles (projectPathOf env o) (variablesOf o) fs1 = (Done tt, fs2) ->
  getInstallCommand o.(optPackageManager) = Some c ->
  (env.(shell) c (projectPathOf env o) fs2).1 = true ->
  exists tr0,
    main env projectName options w
    = (0, {| files := (env.(shell) c (projectPathOf env o) fs2).2;
             trace := w.(trace) ++ welcome :: tr0 ++ creationEvents
                      ++ installedEvents env o c |}) /\
    forallb progressOnly tr0 = true.
Proof.
  intros o Hyes Hgo Hcopy Hgen Hcmd Hok.
  destruct (action_run env projectName options w) as (asked & Haction & Hasks).
  destruct (createProject_installs env o
              {| files := w.(files); trace := w.(trace) ++ welcome :: asked |}
              fs1 fs2 c) as (tr0 & Hrun & Hquiet); try done.
  { subst o. cbn. by rewrite Hyes. }
  { cbn [files]. intros Hex. right. by apply Hgo. }
  exists (asked ++ tr0). split.
  - unfold main. rewrite Haction. fold o. rewrite Hrun. cbn [files trace].
    f_equal. f_equal. rewrite <- !app_assoc. cbn [app].
    by rewrite <- ?app_assoc.
  - rewrite forallb_app, Hquiet, andb_true_r.
    clear -Hasks. induction asked as [|[] asked IH]; try done.
    cbn [forallb asks andb] in Hasks |- *. by apply IH.
Qed.

(** A user whose installer succeeds, on the example machine. *)
Lemma install_success_is_reported_witness :
  let o := chosenOptions Examples.lucky None Examples.interactive in
  let fs2 := (createProjectStructure Examples.target Examples.demo
                Examples.machine).2 in
  exists tr0,
    main Examples.lucky None Examples.interactive Examples.start
    = (0, {| files := (Examples.lucky.(shell) "pnpm install"
                         (projectPathOf Examples.lucky o) fs2).2;
             trace := Examples.start.(trace) ++ welcome :: tr0 ++ creationEvents
                      ++ installedEvents Examples.lucky o "pnpm install" |}) /\
    forallb progressOnly tr0 = true.
Proof.
  cbv zeta.
  apply (install_success_is_reported Examples.lucky None Examples.interactive
           Examples.start
           (createProjectStructure Examples.target Examples.demo
              Examples.machine).2).
  - reflexivity.
  - intros H. vm_compute in H. discriminate H.
  - apply run_done. vm_compute. reflexivity.
  - apply run_done. vm_compute. reflexivity.
  - reflexivity.
  - reflexivity.
Defined.

End Installed.
